(** * Classroom scheduler: a shallow embedding of [classroom_scheduler.py]

    The development follows the layout of the Python module: the slot
    encoder ([TimeSlotManager]), the [Course] and [Room] records, the
    loader with its course splitter ([DataLoader]), the model builder and
    result extractor ([ScheduleOptimizer]) and the split-class report of
    [ScheduleAnalyzer].

    Python integers are [Z], the float column of the tables and the
    coefficients of the model are read as exact rationals ([Q]), the
    occupancy percentage of a schedule row is computed in binary64
    arithmetic ([binary64]), strings are byte strings (the UTF-8 text of
    the source), dictionaries are [gmap]s, and a Python exception is the
    [Raise] branch of the result type [res]. *)

From Stdlib Require Import ZArith QArith Qround Qabs Lia Lqa Ascii.
From stdpp Require Import gmap strings list fin_maps.

Local Open Scope Z_scope.

(** ** Exceptions *)

Inductive pyexn : Set :=
| ValueError
| IndexError
| KeyError
| ZeroDivisionError.

Inductive res (A : Type) : Type :=
| Ok (a : A)
| Raise (e : pyexn).
Arguments Ok {A} a.
Arguments Raise {A} e.

Definition rbind {A B : Type} (m : res A) (k : A → res B) : res B :=
  match m with
  | Ok a => k a
  | Raise e => Raise e
  end.

Notation "'let*' x := m 'in' k" := (rbind m (fun x => k))
  (at level 10, x name, m at level 100, k at level 200).

(** Running a fallible body over a list, left to right, collecting the
    results: the shape of every comprehension and [for] loop below whose
    body can raise. *)
Fixpoint rmap {A B : Type} (f : A → res B) (l : list A) : res (list B) :=
  match l with
  | [] => Ok []
  | a :: l' =>
      let* b := f a in
      let* bs := rmap f l' in
      Ok (b :: bs)
  end.

Definition is_ok {A : Type} (m : res A) : Prop := ∃ a, m = Ok a.

(** ** Python list and string primitives *)

(** [l[i] = v] on a Python list: negative indices count from the end and
    anything outside [-len, len) raises [IndexError]. *)
Definition list_setitem {A : Type} (l : list A) (i : Z) (v : A) : res (list A) :=
  let n := Z.of_nat (length l) in
  if bool_decide (0 ≤ i < n) then Ok (<[Z.to_nat i := v]> l)
  else if bool_decide (- n ≤ i < 0) then Ok (<[Z.to_nat (n + i) := v]> l)
  else Raise IndexError.

(** [l[i]] for a literal non-negative index. *)
Definition list_getitem {A : Type} (l : list A) (i : nat) : res A :=
  match l !! i with
  | Some a => Ok a
  | None => Raise IndexError
  end.

(** *** Floating-point numbers

    A Python float is modelled by the rational number it denotes, in
    lowest terms. Every operation returns the binary64 number nearest to
    its exact result, a tie going to the one with an even significand.
    The significand has 53 bits; the exponent range of the format is not
    modelled (a quotient of magnitude 2^1024 or more, or below 2^-1022,
    is rounded like any other), and the two zeros are one number. *)

(** The integer nearest to a rational, a tie going to the even one. *)
Definition round_half_even (q : Q) : Z :=
  let f := Qfloor q in
  match (q - inject_Z f ?= 1 # 2)%Q with
  | Lt => f
  | Gt => f + 1
  | Eq => if Z.even f then f else f + 1
  end.

Definition pow2 (e : Z) : Q :=
  if 0 <=? e then inject_Z (2 ^ e) else (1 / inject_Z (2 ^ (- e)))%Q.

(** The exponent e of a non-zero rational: 2^e <= |q| < 2^(e+1). *)
Definition exponent (q : Q) : Z :=
  let e := Z.log2 (Z.abs (Qnum q)) - Z.log2 (Zpos (Qden q)) in
  match (Qabs q ?= pow2 e)%Q with
  | Lt => e - 1
  | _ => e
  end.

(** The binary64 number nearest to a rational: a multiple of
    2^(e - 52), where e is the exponent of the rational. *)
Definition binary64 (q : Q) : Q :=
  if Qeq_bool q 0 then 0%Q
  else let ulp := pow2 (exponent q - 52) in
       Qred (inject_Z (round_half_even (q / ulp)) * ulp).

(** [a / b] on integers: true division, the correctly rounded quotient
    of the two integers; [ZeroDivisionError] for a zero divisor. *)
Definition truediv (a b : Z) : res Q :=
  if b =? 0 then Raise ZeroDivisionError
  else Ok (binary64 (inject_Z a / inject_Z b)).

(** [x * y] on floats. *)
Definition float_mul (x y : Q) : Q := binary64 (x * y).

(** [round(x, 1)] on a float: the float nearest to the multiple of 1/10
    nearest to the value of [x], a tie between two multiples going to
    the even one. *)
Definition round1 (x : Q) : Q :=
  binary64 (inject_Z (round_half_even (x * 10)) / 10).

(** [s.split(sep)] for a one-character separator: the pieces between the
    separators, empty pieces kept, so the result is never empty. *)
Fixpoint split (sep : ascii) (s : string) : list string :=
  match s with
  | EmptyString => [EmptyString]
  | String a s' =>
      if decide (a = sep) then EmptyString :: split sep s'
      else match split sep s' with
           | [] => [String a EmptyString]
           | w :: ws => String a w :: ws
           end
  end.

(** Number of occurrences of a character. *)
Fixpoint count_char (c : ascii) (s : string) : nat :=
  match s with
  | EmptyString => 0%nat
  | String a s' => ((if decide (a = c) then 1 else 0) + count_char c s')%nat
  end.

(** [sub in s]. *)
Fixpoint contains (sub s : string) : bool :=
  String.prefix sub s ||
  match s with
  | EmptyString => false
  | String _ s' => contains sub s'
  end.

(** ** The slot encoder *)

Module TimeSlotManager.

Definition DAY_TO_BASE_INDEX : gmap string Z :=
  list_to_map [("Segunda", 0); ("Terça", 8); ("Quarta", 16);
               ("Quinta", 24); ("Sexta", 32); ("Sábado", 40)].

Definition TIME_TO_INDEX : gmap string Z :=
  list_to_map [("17h20", 0); ("18h10", 1); ("19h00", 2); ("19h50", 3);
               ("20h50", 4); ("21h40", 5); ("22h30", 6)].

(** The body of [for i in range(start, start + n)]: one guarded store
    per index. *)
Fixpoint mark_slots (n : nat) (i : Z) (time_slots : list Z) : res (list Z) :=
  match n with
  | O => Ok time_slots
  | S n' =>
      let* time_slots' :=
        (if bool_decide (i < Z.of_nat (length time_slots))
         then list_setitem time_slots i 1
         else Ok time_slots) in
      mark_slots n' (i + 1) time_slots'
  end.

Definition create_time_slots (day time_range : string) : res (list Z) :=
  let time_slots := replicate 48 0 in
  match split "-"%char time_range with
  | [start_time; end_time] =>
      let base_idx := default 0 (DAY_TO_BASE_INDEX !! day) in
      let start_idx := base_idx + default 0 (TIME_TO_INDEX !! start_time) in
      let slots_needed := if String.eqb time_range "19h00-22h30" then 4 else 2 in
      mark_slots (Z.to_nat slots_needed) start_idx time_slots
  | _ => Raise ValueError
  end.

(** [any(s1 and s2 for s1, s2 in zip(slots1, slots2))] *)
Fixpoint has_conflict (slots1 slots2 : list Z) : bool :=
  match slots1, slots2 with
  | s1 :: r1, s2 :: r2 =>
      (negb (s1 =? 0) && negb (s2 =? 0)) || has_conflict r1 r2
  | _, _ => false
  end.

End TimeSlotManager.

(** ** Courses and rooms *)

Inductive RoomType : Set := LAB | CLASSROOM.

Module RoomTypeEnum.
(** [RoomType.value] *)
Definition value (t : RoomType) : string :=
  match t with LAB => "lab" | CLASSROOM => "sala" end.

(** [RoomType(s)]: lookup by value, [ValueError] for anything else. *)
Definition of_value (s : string) : res RoomType :=
  if String.eqb s "lab" then Ok LAB
  else if String.eqb s "sala" then Ok CLASSROOM
  else Raise ValueError.
End RoomTypeEnum.

Module Course.

Record t : Type := mk {
  name : string;
  course_code : string;
  day : string;
  time : string;
  class_size : Z;
  requires_lab : bool;
  preferred_floor : Z;
  floor_preference_weight : Q;
  time_slots : list Z;
  split_authorized : bool;
  assigned_professors : list string;
  is_split : bool
}.

(** The generated [__init__] followed by [__post_init__]: the occupancy
    vector is always recomputed from [day] and [time] (and the
    constructor raises when the encoder does), and a missing
    instructor list becomes the empty list. *)
Definition new (name course_code day time : string) (class_size : Z)
    (requires_lab : bool) (preferred_floor : Z)
    (floor_preference_weight : Q) (split_authorized : bool)
    (assigned_professors : option (list string)) (is_split : bool) : res t :=
  let* time_slots := TimeSlotManager.create_time_slots day time in
  Ok (mk name course_code day time class_size requires_lab preferred_floor
         floor_preference_weight time_slots split_authorized
         (default [] assigned_professors) is_split).

Definition can_be_split (self : t) : bool :=
  (50 <? class_size self)
  && split_authorized self
  && (2 <=? length (assigned_professors self))%nat.

End Course.

Module Room.

Record t : Type := mk {
  name : string;
  room_type : RoomType;
  capacity : Z;
  floor : Z;
  is_blocked : bool;
  floor_matches : gmap string Z
}.

(** [__post_init__] resets the floor-match dictionary to [{}]. *)
Definition new (name : string) (room_type : RoomType) (capacity floor : Z)
    (is_blocked : bool) : t :=
  mk name room_type capacity floor is_blocked ∅.

(** [room.floor_matches[key] = v] *)
Definition set_floor_match (room : t) (key : string) (v : Z) : t :=
  mk (name room) (room_type room) (capacity room) (floor room)
     (is_blocked room) (<[key := v]> (floor_matches room)).

(** [room.floor_matches[key]] *)
Definition get_floor_match (room : t) (key : string) : res Z :=
  match floor_matches room !! key with
  | Some v => Ok v
  | None => Raise KeyError
  end.

End Room.

(** ** The loader and its course splitter *)

Module DataLoader.

(** One row of the courses table as the loop body sees it: the typed
    cells, the optional columns as [option] ([row.get] with its
    default), and the instructor cell already cut at the commas,
    stripped and freed of empty pieces. Reading and parsing the file
    is pandas' work and is not part of the embedding. *)
Record course_row : Type := {
  row_name : string;
  row_course : string;
  row_day : string;
  row_time : string;
  row_class_size : Z;
  row_req : Z;
  row_pref_floor : Z;
  row_course_floor_pref : option Q;
  row_split_authorized : option bool;
  row_assigned_professors : list string
}.

Record room_row : Type := {
  rrow_name : string;
  rrow_type : string;   (* the cell after [.lower()] *)
  rrow_capacity : Z;
  rrow_floor : Z;
  rrow_is_blocked : option bool
}.

(** The body of the loop over the course rows: the courses this row
    contributes to the output list. *)
Definition load_course (row : course_row) : res (list Course.t) :=
  let professors := row_assigned_professors row in
  let* course :=
    Course.new (row_name row) (row_course row) (row_day row) (row_time row)
      (row_class_size row) (row_req row =? 1) (row_pref_floor row)
      (default 1%Q (row_course_floor_pref row))
      (default false (row_split_authorized row))
      (Some professors) false in
  if Course.can_be_split course then
    let* prof0 := list_getitem (Course.assigned_professors course) 0 in
    let* split1 :=
      Course.new (Course.name course +:+ " (Turma A)")
        (Course.course_code course +:+ "-A")
        (Course.day course) (Course.time course)
        (Course.class_size course `div` 2)
        (Course.requires_lab course) (Course.preferred_floor course)
        (Course.floor_preference_weight course) true
        (Some [prof0]) true in
    let* prof1 := list_getitem (Course.assigned_professors course) 1 in
    let* split2 :=
      Course.new (Course.name course +:+ " (Turma B)")
        (Course.course_code course +:+ "-B")
        (Course.day course) (Course.time course)
        (Course.class_size course - Course.class_size course `div` 2)
        (Course.requires_lab course) (Course.preferred_floor course)
        (Course.floor_preference_weight course) true
        (Some [prof1]) true in
    Ok [split1; split2]
  else Ok [course].

Definition load_room (row : room_row) : res Room.t :=
  let* ty := RoomTypeEnum.of_value (rrow_type row) in
  Ok (Room.new (rrow_name row) ty (rrow_capacity row) (rrow_floor row)
        (default false (rrow_is_blocked row))).

Definition load_data (courses_df : list course_row) (rooms_df : list room_row)
    : res (list Course.t * list Room.t) :=
  let* groups := rmap load_course courses_df in
  let courses := mjoin groups in
  let* rooms := rmap load_room rooms_df in
  Ok (courses, rooms).

End DataLoader.

(** ** The optimisation model as data

    The program hands the solver a list of linear constraints and a
    linear objective over five families of decision variables. *)

Inductive var : Set :=
| Var_x (d r : nat)
| Var_y (d : nat)
| Var_z (d r : nat)
| Var_w_lab (d : nat)
| Var_w_sala (d : nat).

(** A variable declaration: category and bounds, as [LpVariable.dicts]
    receives them ([Binary] is an integer variable with bounds 0 and 1). *)
Record LpVariable : Type := {
  lp_var : var;
  lowBound : option Z;
  upBound : option Z
}.

Definition Binary (v : var) : LpVariable :=
  {| lp_var := v; lowBound := Some 0; upBound := Some 1 |}.
Definition Integer_from_0 (v : var) : LpVariable :=
  {| lp_var := v; lowBound := Some 0; upBound := None |}.

#[warnings="-register-all"]
Inductive LpAffineExpression : Type :=
| Const (q : Q)
| Var (v : var)
| Plus (e1 e2 : LpAffineExpression)
| Minus (e1 e2 : LpAffineExpression)
| Scale (q : Q) (e : LpAffineExpression)
| lpSum (es : list LpAffineExpression).

Inductive LpConstraint : Type :=
| LpLE (e1 e2 : LpAffineExpression)
| LpGE (e1 e2 : LpAffineExpression)
| LpEQ (e1 e2 : LpAffineExpression).

Record LpProblem : Type := {
  constraints : list LpConstraint;
  objective : LpAffineExpression
}.

Inductive LpStatus : Set :=
| LpStatusNotSolved
| LpStatusOptimal
| LpStatusInfeasible
| LpStatusUnbounded
| LpStatusUndefined.

(** Meaning of the model under an assignment of the variables. *)
Fixpoint eval (val : var → Q) (e : LpAffineExpression) : Q :=
  match e with
  | Const q => q
  | Var v => val v
  | Plus e1 e2 => (eval val e1 + eval val e2)%Q
  | Minus e1 e2 => (eval val e1 - eval val e2)%Q
  | Scale q e' => (q * eval val e')%Q
  | lpSum es => fold_right (λ e' acc, (eval val e' + acc)%Q) 0%Q es
  end.

Definition holds (val : var → Q) (c : LpConstraint) : Prop :=
  match c with
  | LpLE e1 e2 => (eval val e1 <= eval val e2)%Q
  | LpGE e1 e2 => (eval val e2 <= eval val e1)%Q
  | LpEQ e1 e2 => (eval val e1 == eval val e2)%Q
  end.

(** An assignment respects a declaration when the value is an integer
    within the declared bounds. *)
Definition in_domain (val : var → Q) (decl : LpVariable) : Prop :=
  ∃ n : Z, (val (lp_var decl) == inject_Z n)%Q
    ∧ (∀ lo, lowBound decl = Some lo → lo ≤ n)
    ∧ (∀ up, upBound decl = Some up → n ≤ up).

(** A feasible point of a problem with the given declarations. *)
Definition feasible (decls : list LpVariable) (model : LpProblem)
    (val : var → Q) : Prop :=
  Forall (in_domain val) decls ∧ Forall (holds val) (constraints model).

(** ** The model builder and the result extractor *)

Module ScheduleOptimizer.

Record weights_t : Type := {
  floor_pref : Q;
  lab_usage : Q;
  wrong_room : Q;
  distance : Q;
  capacity_penalty : Q
}.

Record t : Type := {
  courses : list Course.t;
  rooms : list Room.t;
  weights : weights_t
}.

(** One schedule row. *)
Record row : Type := {
  Curso : string;
  Disciplina : string;
  Sala : string;
  Dia : string;
  Horario : string;
  Andar : Z;
  Tipo_Sala : string;
  Andar_Preferido : Z;
  Floor_Match : Z;
  Tamanho_Turma : Z;
  Capacidade_Sala : Z;
  Ocupacao : Q;
  Requer_Lab : bool;
  Mismatch : bool
}.

(** The inner loop of [_calculate_floor_matches] for one room: every
    course, in order, stores its value under its name. *)
Definition room_floor_matches (courses : list Course.t) (room : Room.t) : Room.t :=
  foldl (λ room course,
           if Course.preferred_floor course <=? 0
           then Room.set_floor_match room (Course.name course) 1
           else Room.set_floor_match room (Course.name course)
                  (if Room.floor room =? Course.preferred_floor course
                   then 1 else 0))
        room courses.

Definition _calculate_floor_matches (courses : list Course.t)
    (rooms : list Room.t) : list Room.t :=
  room_floor_matches courses <$> rooms.

Definition __init__ (courses : list Course.t) (rooms : list Room.t) : t :=
  {| courses := courses;
     rooms := _calculate_floor_matches courses rooms;
     weights := {| floor_pref := 10; lab_usage := 5; wrong_room := 20;
                   distance := 2; capacity_penalty := 15 |} |}.

Definition _create_decision_variables (self : t) : list LpVariable :=
  let D := seq 0 (length (courses self)) in
  let R := seq 0 (length (rooms self)) in
  (d ← D; (λ r, Binary (Var_x d r)) <$> R)
  ++ ((λ d, Integer_from_0 (Var_y d)) <$> D)
  ++ (d ← D; (λ r, Integer_from_0 (Var_z d r)) <$> R)
  ++ ((λ d, Binary (Var_w_lab d)) <$> D)
  ++ ((λ d, Binary (Var_w_sala d)) <$> D).

(** The indices of the rooms satisfying a test, as
    [[r for r, room in enumerate(self.rooms) if ...]]. *)
Definition room_indices (P : Room.t → bool) (rooms : list Room.t) : list nat :=
  fst <$> filter (λ p, P p.2 = true) (imap (λ r room, (r, room)) rooms).

Definition is_lab (room : Room.t) : bool :=
  match Room.room_type room with LAB => true | CLASSROOM => false end.

(** The six blocks of constraints, in the order the source appends them. *)
Definition completeness (self : t) : list LpConstraint :=
  imap (λ d _,
          LpEQ (lpSum (imap (λ r _, Var (Var_x d r)) (rooms self))) (Const 1))
       (courses self).

Definition no_double_booking (self : t) : res (list LpConstraint) :=
  let* blocks :=
    rmap (λ r,
            rmap (λ h,
                    let* terms :=
                      rmap (λ p : nat * Course.t,
                              let* s := list_getitem (Course.time_slots p.2) h in
                              Ok (Scale (inject_Z s) (Var (Var_x p.1 r))))
                           (imap (λ d c, (d, c)) (courses self)) in
                    Ok (LpLE (lpSum terms) (Const 1)))
                 (seq 0 48))
         (seq 0 (length (rooms self))) in
  Ok (mjoin blocks).

Definition room_type_constraints (self : t) : list LpConstraint :=
  let lab_rooms := room_indices is_lab (rooms self) in
  imap (λ d course,
          if Course.requires_lab course
          then LpEQ (Var (Var_w_lab d))
                    (Minus (Const 1) (lpSum ((λ r, Var (Var_x d r)) <$> lab_rooms)))
          else LpEQ (Var (Var_w_sala d))
                    (lpSum ((λ r, Var (Var_x d r)) <$> lab_rooms)))
       (courses self).

Definition distance_constraint (d r : nat) (course : Course.t) (room : Room.t)
    : LpConstraint :=
  LpGE (Var (Var_y d))
       (Scale (inject_Z (Z.abs (Course.preferred_floor course - Room.floor room)))
              (Var (Var_x d r))).

Definition distance_constraints (self : t) : list LpConstraint :=
  mjoin (imap (λ d course,
                  imap (λ r room, distance_constraint d r course room)
                       (rooms self))
               (courses self)).

Definition overrun_constraint (d r : nat) (course : Course.t) (room : Room.t)
    : LpConstraint :=
  LpGE (Var (Var_z d r))
       (Scale (inject_Z (Course.class_size course - Room.capacity room))
              (Var (Var_x d r))).

(** [size <= capacity * 1.2 + (1 - x[d,r]) * 9999], the literal [1.2]
    read as the rational 12/10. *)
Definition ceiling_constraint (d r : nat) (course : Course.t) (room : Room.t)
    : LpConstraint :=
  LpLE (Const (inject_Z (Course.class_size course)))
       (Plus (Const (inject_Z (Room.capacity room) * (12 # 10)))
             (Scale 9999 (Minus (Const 1) (Var (Var_x d r))))).

Definition capacity_constraints (self : t) : list LpConstraint :=
  mjoin (imap (λ d course,
                  mjoin (imap (λ r room,
                                  [overrun_constraint d r course room;
                                   ceiling_constraint d r course room])
                               (rooms self)))
               (courses self)).

Definition blocked_constraints (self : t) : list LpConstraint :=
  (λ r, LpEQ (lpSum (imap (λ d _, Var (Var_x d r)) (courses self))) (Const 0))
    <$> room_indices Room.is_blocked (rooms self).

Definition _create_constraints (self : t) : res (list LpConstraint) :=
  let* slot_rows := no_double_booking self in
  Ok (completeness self ++ slot_rows ++ room_type_constraints self
      ++ distance_constraints self ++ capacity_constraints self
      ++ blocked_constraints self).

(** The summand of the floor-preference term for the pair (d, r):
    [x[d,r] * weight(d) * (1 - floor_matches[name(d)])]. *)
Definition floor_term (d r : nat) (course : Course.t) (room : Room.t)
    : res LpAffineExpression :=
  let* m := Room.get_floor_match room (Course.name course) in
  Ok (Scale (Course.floor_preference_weight course * (1 - inject_Z m))
            (Var (Var_x d r))).

Definition _create_objective_function (self : t) : res LpAffineExpression :=
  let w := weights self in
  let* floor_terms :=
    rmap (λ p : nat * Course.t,
            rmap (λ q : nat * Room.t, floor_term p.1 q.1 p.2 q.2)
                 (imap (λ r room, (r, room)) (rooms self)))
         (imap (λ d c, (d, c)) (courses self)) in
  Ok (Plus (Plus (Plus (Plus
        (Scale (floor_pref w) (lpSum (mjoin floor_terms)))
        (Scale (lab_usage w)
           (lpSum (imap (λ d _, Var (Var_w_sala d)) (courses self)))))
        (Scale (wrong_room w)
           (lpSum (imap (λ d _, Var (Var_w_lab d)) (courses self)))))
        (Scale (distance w)
           (lpSum (imap (λ d _, Var (Var_y d)) (courses self)))))
        (Scale (capacity_penalty w)
           (lpSum (mjoin (imap (λ d _,
                                   imap (λ r _, Var (Var_z d r)) (rooms self))
                                (courses self)))))).

Definition _create_model (self : t) : res LpProblem :=
  let* cs := _create_constraints self in
  let* obj := _create_objective_function self in
  Ok {| constraints := cs; objective := obj |}.

Definition format_row (course : Course.t) (room : Room.t) : res row :=
  let* m := Room.get_floor_match room (Course.name course) in
  let* ratio := truediv (Course.class_size course) (Room.capacity room) in
  Ok {| Curso := Course.course_code course;
        Disciplina := Course.name course;
        Sala := Room.name room;
        Dia := Course.day course;
        Horario := Course.time course;
        Andar := Room.floor room;
        Tipo_Sala := match Room.room_type room with
                     | LAB => "LAB" | CLASSROOM => "SALA" end;
        Andar_Preferido := Course.preferred_floor course;
        Floor_Match := m;
        Tamanho_Turma := Course.class_size course;
        Capacidade_Sala := Room.capacity room;
        Ocupacao := round1 (float_mul ratio 100);
        Requer_Lab := Course.requires_lab course;
        Mismatch := (Course.requires_lab course && negb (is_lab room))
                    || (negb (Course.requires_lab course) && is_lab room) |}.

(** One row for every pair (d, r), course-major, whose assignment
    variable has the value 1. *)
Definition _format_results (self : t) (val : var → Q) : res (list row) :=
  let* groups :=
    rmap (λ p : nat * Course.t,
            let* rows :=
              rmap (λ q : nat * Room.t,
                      if Qeq_bool (val (Var_x p.1 q.1)) 1
                      then let* rw := format_row p.2 q.2 in Ok [rw]
                      else Ok [])
                   (imap (λ r room, (r, room)) (rooms self)) in
            Ok (mjoin rows))
         (imap (λ d c, (d, c)) (courses self)) in
  Ok (mjoin groups).

(** [optimize], the solver being any function from a problem to a
    status and an assignment. An empty frame is the empty list of rows. *)
Definition optimize (solver : LpProblem → LpStatus * (var → Q)) (self : t)
    : res (list row) :=
  let* model := _create_model self in
  let (status, val) := solver model in
  match status with
  | LpStatusOptimal => _format_results self val
  | _ => Ok []
  end.

End ScheduleOptimizer.

(** ** The split-class report *)

Module ScheduleAnalyzer.

(** [code.split('-')[0]]; [split] never returns the empty list. *)
Definition base_code (code : string) : string :=
  match split "-"%char code with
  | w :: _ => w
  | [] => EmptyString
  end.

(** [Series.unique()]: the distinct values in order of first appearance. *)
Fixpoint unique_go (seen : list string) (l : list string) : list string :=
  match l with
  | [] => []
  | s :: l' =>
      if bool_decide (s ∈ seen) then unique_go seen l'
      else s :: unique_go (s :: seen) l'
  end.
Definition unique (l : list string) : list string := unique_go [] l.

(** The four columns kept of a section row. *)
Record section : Type := {
  sec_Curso : string;
  sec_Sala : string;
  sec_Tamanho_Turma : Z;
  sec_Horario : string
}.

Record split_class : Type := {
  original_course : string;
  original_size : Z;
  split_sections : list section
}.

Definition to_section (rw : ScheduleOptimizer.row) : section :=
  {| sec_Curso := ScheduleOptimizer.Curso rw;
     sec_Sala := ScheduleOptimizer.Sala rw;
     sec_Tamanho_Turma := ScheduleOptimizer.Tamanho_Turma rw;
     sec_Horario := ScheduleOptimizer.Horario rw |}.

(** The dictionary comprehension keyed by base code: a later course
    with the same key replaces an earlier one. *)
Definition original_courses (courses : list Course.t) : gmap string Course.t :=
  foldl (λ m course, <[base_code (Course.course_code course) := course]> m)
        ∅ courses.

(** The entries the loop appends, one course code after the other. *)
Definition split_entries (schedule_df : list ScheduleOptimizer.row)
    (courses : list Course.t) : list split_class :=
  let originals := original_courses courses in
  mjoin ((λ course_code,
            let base := base_code course_code in
            if contains "-A" course_code || contains "-B" course_code then
              match originals !! base with
              | Some original =>
                  [{| original_course := base;
                      original_size := Course.class_size original;
                      split_sections :=
                        to_section <$>
                          filter (λ rw, String.prefix base (ScheduleOptimizer.Curso rw) = true)
                                 schedule_df |}]
              | None => []
              end
            else [])
         <$> unique (ScheduleOptimizer.Curso <$> schedule_df)).

(** A frame built from an empty list of rows has no columns, so
    [schedule_df['Curso']] raises [KeyError] on it. *)
Definition _analyze_split_classes (schedule_df : list ScheduleOptimizer.row)
    (courses : list Course.t) : res (list split_class) :=
  match schedule_df with
  | [] => Raise KeyError
  | _ :: _ => Ok (split_entries schedule_df courses)
  end.

End ScheduleAnalyzer.

(** ** The top-level run *)

(** [main] up to the point where it prints: load the tables, build and
    solve the model and, when the schedule is not empty, analyse it with
    the loaded courses. Of the analysis only the split-class entry is
    kept here. *)
Definition main (solver : LpProblem → LpStatus * (var → Q))
    (courses_df : list DataLoader.course_row)
    (rooms_df : list DataLoader.room_row)
    : res (option (list ScheduleOptimizer.row
                   * list ScheduleAnalyzer.split_class)) :=
  let* loaded := DataLoader.load_data courses_df rooms_df in
  let optimizer := ScheduleOptimizer.__init__ loaded.1 loaded.2 in
  let* schedule_df := ScheduleOptimizer.optimize solver optimizer in
  match schedule_df with
  | [] => Ok None
  | _ :: _ =>
      let* report :=
        ScheduleAnalyzer._analyze_split_classes schedule_df loaded.1 in
      Ok (Some (schedule_df, report))
  end.

(** ** The other checks of the schedule analyzer

    A frame built from an empty list of rows has no columns, so selecting
    a column of it, or grouping by one, raises [KeyError]; iterating over
    its rows does nothing. *)

Module ScheduleChecks.

Record conflict : Type := {
  conflict_sala : string;
  conflict_dia : string;
  conflict_horario : string;
  conflict_disciplinas : list string
}.

Record capacity_issue : Type := {
  issue_disciplina : string;
  issue_sala : string;
  issue_tamanho_turma : Z;
  issue_capacidade_sala : Z;
  issue_ocupacao : Q
}.

Record type_mismatch : Type := {
  mismatch_disciplina : string;
  mismatch_curso : string;
  mismatch_sala : string;
  mismatch_tipo_necessario : string;
  mismatch_tipo_alocado : string;
  mismatch_dia : string;
  mismatch_horario : string
}.

Record blocked_use : Type := {
  blocked_disciplina : string;
  blocked_sala : string;
  blocked_dia : string;
  blocked_horario : string
}.

Definition row_key (rw : ScheduleOptimizer.row) : string * string * string :=
  (ScheduleOptimizer.Sala rw, ScheduleOptimizer.Dia rw,
   ScheduleOptimizer.Horario rw).

(** The order in which [groupby] visits the groups: keys ascending,
    column by column. *)
Definition key_compare (k1 k2 : string * string * string) : comparison :=
  match String.compare k1.1.1 k2.1.1 with
  | Eq => match String.compare k1.1.2 k2.1.2 with
          | Eq => String.compare k1.2 k2.2
          | c => c
          end
  | c => c
  end.

Fixpoint insert_key (k : string * string * string)
    (l : list (string * string * string)) : list (string * string * string) :=
  match l with
  | [] => [k]
  | k' :: l' =>
      match key_compare k k' with
      | Gt => k' :: insert_key k l'
      | _ => k :: l
      end
  end.

Definition group_keys (schedule_df : list ScheduleOptimizer.row)
    : list (string * string * string) :=
  foldr insert_key [] (remove_dups (row_key <$> schedule_df)).

Definition _check_time_conflicts (schedule_df : list ScheduleOptimizer.row)
    : res (list conflict) :=
  match schedule_df with
  | [] => Raise KeyError
  | _ :: _ =>
      Ok (mjoin ((λ k,
                    let group := filter (λ rw, row_key rw = k) schedule_df in
                    if (1 <? length group)%nat
                    then [{| conflict_sala := k.1.1;
                             conflict_dia := k.1.2;
                             conflict_horario := k.2;
                             conflict_disciplinas :=
                               ScheduleOptimizer.Disciplina <$> group |}]
                    else [])
                 <$> group_keys schedule_df))
  end.

Definition _check_capacity_issues (schedule_df : list ScheduleOptimizer.row)
    : res (list capacity_issue) :=
  match schedule_df with
  | [] => Raise KeyError
  | _ :: _ =>
      Ok ((λ rw, {| issue_disciplina := ScheduleOptimizer.Disciplina rw;
                    issue_sala := ScheduleOptimizer.Sala rw;
                    issue_tamanho_turma := ScheduleOptimizer.Tamanho_Turma rw;
                    issue_capacidade_sala := ScheduleOptimizer.Capacidade_Sala rw;
                    issue_ocupacao := ScheduleOptimizer.Ocupacao rw |})
          <$> filter (λ rw, ScheduleOptimizer.Capacidade_Sala rw
                            < ScheduleOptimizer.Tamanho_Turma rw)
                     schedule_df)
  end.

Definition _check_room_type_mismatches
    (schedule_df : list ScheduleOptimizer.row) : res (list type_mismatch) :=
  match schedule_df with
  | [] => Raise KeyError
  | _ :: _ =>
      Ok ((λ rw, {| mismatch_disciplina := ScheduleOptimizer.Disciplina rw;
                    mismatch_curso := ScheduleOptimizer.Curso rw;
                    mismatch_sala := ScheduleOptimizer.Sala rw;
                    mismatch_tipo_necessario :=
                      if ScheduleOptimizer.Requer_Lab rw
                      then "laboratório" else "sala regular";
                    mismatch_tipo_alocado :=
                      if String.eqb (ScheduleOptimizer.Tipo_Sala rw) "LAB"
                      then "laboratório" else "sala regular";
                    mismatch_dia := ScheduleOptimizer.Dia rw;
                    mismatch_horario := ScheduleOptimizer.Horario rw |})
          <$> filter (λ rw, ScheduleOptimizer.Mismatch rw = true) schedule_df)
  end.

(** [{room.name: room.is_blocked for room in rooms}] *)
Definition blocked_rooms (rooms : list Room.t) : gmap string bool :=
  foldl (λ m room, <[Room.name room := Room.is_blocked room]> m) ∅ rooms.

Definition _check_blocked_room_usage (schedule_df : list ScheduleOptimizer.row)
    (rooms : list Room.t) : list blocked_use :=
  let blocked := blocked_rooms rooms in
  (λ rw, {| blocked_disciplina := ScheduleOptimizer.Disciplina rw;
            blocked_sala := ScheduleOptimizer.Sala rw;
            blocked_dia := ScheduleOptimizer.Dia rw;
            blocked_horario := ScheduleOptimizer.Horario rw |})
  <$> filter (λ rw, default false (blocked !! ScheduleOptimizer.Sala rw) = true)
             schedule_df.

Record analysis : Type := {
  conflicts : list conflict;
  capacity_issues : list capacity_issue;
  room_mismatches : list type_mismatch;
  blocked_room_usage : list blocked_use;
  split_classes : list ScheduleAnalyzer.split_class
}.

Definition analyze_schedule (schedule_df : list ScheduleOptimizer.row)
    (rooms : list Room.t) (courses : list Course.t) : res analysis :=
  let* cs := _check_time_conflicts schedule_df in
  let* ci := _check_capacity_issues schedule_df in
  let* rm := _check_room_type_mismatches schedule_df in
  let bu := _check_blocked_room_usage schedule_df rooms in
  let* sc := ScheduleAnalyzer._analyze_split_classes schedule_df courses in
  Ok {| conflicts := cs; capacity_issues := ci; room_mismatches := rm;
        blocked_room_usage := bu; split_classes := sc |}.

End ScheduleChecks.

(** A course as its constructor leaves it: the occupancy vector is the
    encoding of its day and time. *)
Definition encoded (c : Course.t) : Prop :=
  TimeSlotManager.create_time_slots (Course.day c) (Course.time c)
  = Ok (Course.time_slots c).

(** ** Vocabulary of the statements *)

(** The vector with ones exactly on [start, start + k), the reading of
    "k contiguous slots starting at start" used in the statements. *)
Definition window (start k : Z) : list Z :=
  (λ j, if bool_decide (start ≤ j < start + k) then 1 else 0) <$> seqZ 0 48.

(** Number of set entries of an occupancy vector. *)
Definition set_bits (v : list Z) : nat :=
  length (filter (λ b, b ≠ 0) v).

(** The eligibility condition on a course record. *)
Definition eligible (row : DataLoader.course_row) : Prop :=
  50 < DataLoader.row_class_size row
  ∧ DataLoader.row_split_authorized row = Some true
  ∧ (2 ≤ length (DataLoader.row_assigned_professors row))%nat.

(** What one record contributes to the loaded course list: two derived
    sections when it is eligible, the course built from the record
    itself otherwise. *)
Definition row_outcome (row : DataLoader.course_row) (g : list Course.t) : Prop :=
  (eligible row →
   ∃ A B p0 p1 rest,
     g = [A; B]
     ∧ DataLoader.row_assigned_professors row = p0 :: p1 :: rest
     ∧ Course.course_code A = DataLoader.row_course row +:+ "-A"
     ∧ Course.course_code B = DataLoader.row_course row +:+ "-B"
     ∧ Course.class_size A = DataLoader.row_class_size row `div` 2
     ∧ Course.assigned_professors A = [p0]
     ∧ Course.class_size B
       = DataLoader.row_class_size row - DataLoader.row_class_size row `div` 2
     ∧ Course.assigned_professors B = [p1]
     ∧ Course.is_split A = true ∧ Course.is_split B = true
     ∧ Course.split_authorized A = true ∧ Course.split_authorized B = true
     ∧ Course.class_size A + Course.class_size B = DataLoader.row_class_size row)
  ∧ (¬ eligible row →
     ∃ c, g = [c]
          ∧ Course.new (DataLoader.row_name row) (DataLoader.row_course row)
              (DataLoader.row_day row) (DataLoader.row_time row)
              (DataLoader.row_class_size row) (DataLoader.row_req row =? 1)
              (DataLoader.row_pref_floor row)
              (default 1%Q (DataLoader.row_course_floor_pref row))
              (default false (DataLoader.row_split_authorized row))
              (Some (DataLoader.row_assigned_professors row)) false = Ok c).

(** The pairs of a course index and a room index whose assignment
    variable has the value 1, in the order the extractor visits them:
    [(d, r) for d in range(nd) for r in range(nr) if value(x[d,r]) == 1]. *)
Definition selected_pairs (val : var → Q) (nd nr : nat) : list (nat * nat) :=
  d ← seq 0 nd; r ← seq 0 nr;
  if Qeq_bool (val (Var_x d r)) 1 then [(d, r)] else [].

(** What a schedule row says of the course and the room it stands for. *)
Definition row_describes (course : Course.t) (room : Room.t)
    (rw : ScheduleOptimizer.row) : Prop :=
  ScheduleOptimizer.Curso rw = Course.course_code course
  ∧ ScheduleOptimizer.Disciplina rw = Course.name course
  ∧ ScheduleOptimizer.Sala rw = Room.name room
  ∧ ScheduleOptimizer.Dia rw = Course.day course
  ∧ ScheduleOptimizer.Horario rw = Course.time course
  ∧ ScheduleOptimizer.Andar rw = Room.floor room
  ∧ ScheduleOptimizer.Tipo_Sala rw
    = (if ScheduleOptimizer.is_lab room then "LAB" else "SALA")
  ∧ ScheduleOptimizer.Andar_Preferido rw = Course.preferred_floor course
  ∧ Room.get_floor_match room (Course.name course)
    = Ok (ScheduleOptimizer.Floor_Match rw)
  ∧ ScheduleOptimizer.Tamanho_Turma rw = Course.class_size course
  ∧ ScheduleOptimizer.Capacidade_Sala rw = Room.capacity room
  ∧ ScheduleOptimizer.Ocupacao rw
    = round1 (float_mul (binary64 (inject_Z (Course.class_size course)
                                   / inject_Z (Room.capacity room))) 100)
  ∧ ScheduleOptimizer.Requer_Lab rw = Course.requires_lab course
  ∧ ScheduleOptimizer.Mismatch rw
    = xorb (Course.requires_lab course) (ScheduleOptimizer.is_lab room).

(** An occupancy vector as the encoder makes them: 48 entries, each 0
    or 1. *)
Definition binary_vector (v : list Z) : Prop :=
  length v = 48%nat ∧ Forall (λ s, s = 0 ∨ s = 1) v.

(** What holds of every course the loader returns. *)
Definition loaded_course_ok (c : Course.t) : Prop :=
  Course.can_be_split c = false
  ∧ binary_vector (Course.time_slots c)
  ∧ (Course.is_split c = true
     → length (Course.assigned_professors c) = 1%nat).

(** ** Concrete inputs

    Scenario 4 of the specification: one course of size 70 and one
    classroom of capacity 50. *)

Definition scenario4_course : Course.t :=
  Course.mk "Fisica I" "FIS" "Segunda" "17h20-19h00" 70 false 1 1
    (window 0 2) false [] false.

Definition scenario4_room : Room.t :=
  Room.new "Sala 101" CLASSROOM 50 1 false.

(** Two tables in which two course records share a display name: the
    same discipline taught to two programmes, with different preferred
    floors, and a single classroom on floor 2. In the first table the
    first record prefers floor 2; in the second it has no preference. *)

Definition same_name_rooms_df : list DataLoader.room_row :=
  [ {| DataLoader.rrow_name := "Sala 201"; DataLoader.rrow_type := "sala";
       DataLoader.rrow_capacity := 50; DataLoader.rrow_floor := 2;
       DataLoader.rrow_is_blocked := None |} ].

Definition same_name_row (code day : string) (pref_floor : Z)
    : DataLoader.course_row :=
  {| DataLoader.row_name := "Calculo I"; DataLoader.row_course := code;
     DataLoader.row_day := day; DataLoader.row_time := "17h20-19h00";
     DataLoader.row_class_size := 40; DataLoader.row_req := 0;
     DataLoader.row_pref_floor := pref_floor;
     DataLoader.row_course_floor_pref := None;
     DataLoader.row_split_authorized := None;
     DataLoader.row_assigned_professors := [] |}.

Definition same_name_courses_df : list DataLoader.course_row :=
  [same_name_row "ENG" "Segunda" 2; same_name_row "FIS" "Quarta" 3].

Definition same_name_no_preference_df : list DataLoader.course_row :=
  [same_name_row "ENG" "Segunda" 0; same_name_row "FIS" "Quarta" 3].

(** One record of size 121, split-authorized, with two instructors, and
    two classrooms; the assignment puts section A in the first room and
    section B in the second. *)

Definition split_courses_df : list DataLoader.course_row :=
  [ {| DataLoader.row_name := "Algoritmos"; DataLoader.row_course := "ENG";
       DataLoader.row_day := "Segunda"; DataLoader.row_time := "19h00-20h50";
       DataLoader.row_class_size := 121; DataLoader.row_req := 0;
       DataLoader.row_pref_floor := 1;
       DataLoader.row_course_floor_pref := None;
       DataLoader.row_split_authorized := Some true;
       DataLoader.row_assigned_professors := ["Ana"; "Rui"] |} ].

Definition split_rooms_df : list DataLoader.room_row :=
  [ {| DataLoader.rrow_name := "Sala 101"; DataLoader.rrow_type := "sala";
       DataLoader.rrow_capacity := 70; DataLoader.rrow_floor := 1;
       DataLoader.rrow_is_blocked := None |};
    {| DataLoader.rrow_name := "Sala 102"; DataLoader.rrow_type := "sala";
       DataLoader.rrow_capacity := 70; DataLoader.rrow_floor := 1;
       DataLoader.rrow_is_blocked := None |} ].

Definition split_assignment (v : var) : Q :=
  match v with
  | Var_x 0 0 => 1
  | Var_x 1 1 => 1
  | _ => 0
  end.

(** A solver answering "optimal" with that assignment. *)
Definition split_solver (_ : LpProblem) : LpStatus * (var → Q) :=
  (LpStatusOptimal, split_assignment).

(** The optimizer and the model of the run on the split tables, and of
    the run on the tables with two courses of the same name, which meet
    on different days; in the second run both courses are placed in the
    only room. *)

Definition loaded_or_empty (courses_df : list DataLoader.course_row)
    (rooms_df : list DataLoader.room_row) : list Course.t * list Room.t :=
  match DataLoader.load_data courses_df rooms_df with
  | Ok loaded => loaded
  | Raise _ => ([], [])
  end.

Definition model_or_empty (self : ScheduleOptimizer.t) : LpProblem :=
  match ScheduleOptimizer._create_model self with
  | Ok model => model
  | Raise _ => {| constraints := []; objective := Const 0 |}
  end.

Definition split_optimizer : ScheduleOptimizer.t :=
  ScheduleOptimizer.__init__
    (loaded_or_empty split_courses_df split_rooms_df).1
    (loaded_or_empty split_courses_df split_rooms_df).2.

Definition split_model : LpProblem := model_or_empty split_optimizer.

Definition shared_optimizer : ScheduleOptimizer.t :=
  ScheduleOptimizer.__init__
    (loaded_or_empty same_name_courses_df same_name_rooms_df).1
    (loaded_or_empty same_name_courses_df same_name_rooms_df).2.

Definition shared_model : LpProblem := model_or_empty shared_optimizer.

Definition shared_assignment (v : var) : Q :=
  match v with
  | Var_x 0 0 => 1
  | Var_x 1 0 => 1
  | Var_y 1 => 1
  | _ => 0
  end.

(** One course and two classrooms of which the first is blocked; the
    course is placed in the second. *)

Definition blocked_rooms_df : list DataLoader.room_row :=
  [ {| DataLoader.rrow_name := "Sala 201"; DataLoader.rrow_type := "sala";
       DataLoader.rrow_capacity := 50; DataLoader.rrow_floor := 2;
       DataLoader.rrow_is_blocked := Some true |};
    {| DataLoader.rrow_name := "Sala 202"; DataLoader.rrow_type := "lab";
       DataLoader.rrow_capacity := 50; DataLoader.rrow_floor := 2;
       DataLoader.rrow_is_blocked := None |} ].

Definition blocked_optimizer : ScheduleOptimizer.t :=
  ScheduleOptimizer.__init__
    (loaded_or_empty [same_name_row "ENG" "Segunda" 2] blocked_rooms_df).1
    (loaded_or_empty [same_name_row "ENG" "Segunda" 2] blocked_rooms_df).2.

Definition blocked_model : LpProblem := model_or_empty blocked_optimizer.

Definition blocked_assignment (v : var) : Q :=
  match v with
  | Var_x 0 1 => 1
  | Var_w_sala 0 => 1
  | _ => 0
  end.

(** A course of size 20000 with a classroom of capacity 50 and a hall
    of capacity 30000. *)

Definition oversized_optimizer : ScheduleOptimizer.t :=
  ScheduleOptimizer.__init__
    [Course.mk "Aula Magna" "GER" "Segunda" "17h20-19h00" 20000 false 1 1
       (window 0 2) false [] false]
    [scenario4_room; Room.new "Pavilhao" CLASSROOM 30000 1 false].

Definition oversized_model : LpProblem := model_or_empty oversized_optimizer.

Definition shared_schedule : list ScheduleOptimizer.row :=
  match ScheduleOptimizer._format_results shared_optimizer shared_assignment with
  | Ok rows => rows
  | Raise _ => []
  end.

(** The schedule extracted from the run on the split tables. *)
Definition split_schedule : list ScheduleOptimizer.row :=
  match ScheduleOptimizer._format_results split_optimizer split_assignment with
  | Ok rows => rows
  | Raise _ => []
  end.

(** * Properties *)

(** ** Results and strings *)

Lemma rmap_ok_inv {A B : Type} (f : A → res B) (l : list A) (bs : list B) :
  rmap f l = Ok bs → Forall2 (λ a b, f a = Ok b) l bs.
Proof.
  revert bs. induction l as [|a l IH]; intros bs H; simpl in H.
  - injection H as <-. constructor.
  - destruct (f a) as [b|e] eqn:Ha; simpl in H; [|discriminate].
    destruct (rmap f l) as [bs'|e] eqn:Hl; simpl in H; [|discriminate].
    injection H as <-. constructor; auto.
Qed.

Lemma rmap_ok_intro {A B : Type} (f : A → res B) (l : list A) (bs : list B) :
  Forall2 (λ a b, f a = Ok b) l bs → rmap f l = Ok bs.
Proof.
  induction 1 as [|a b l bs Ha _ IH]; simpl; [done|].
  by rewrite Ha, IH.
Qed.

Lemma rmap_is_ok {A B : Type} (f : A → res B) (l : list A) :
  Forall (λ a, is_ok (f a)) l → is_ok (rmap f l).
Proof.
  induction 1 as [|a l [b Hb] _ [bs Hbs]]; simpl.
  - by exists [].
  - exists (b :: bs). by rewrite Hb, Hbs.
Qed.

(** When every element either succeeds or raises the same exception,
    so does the whole traversal. *)
Lemma rmap_raise_uniform {A B : Type} (f : A → res B) (e : pyexn) (l : list A) :
  Forall (λ a, is_ok (f a) ∨ f a = Raise e) l →
  is_ok (rmap f l) ∨ rmap f l = Raise e.
Proof.
  induction 1 as [|a l' [[b Hb]|Hr] _ [[bs Hbs]|IH]]; simpl.
  - left. by eexists.
  - left. rewrite Hb, Hbs. by eexists.
  - right. by rewrite Hb, IH.
  - right. by rewrite Hr.
  - right. by rewrite Hr.
Qed.

(** The occupancy percentage for sizes 23 and 49 in a room of 80 and
    size 60 in a room of 70: the floats 28.7, 61.3 and 85.7. The exact
    percentages of the first two are 28.75 and 61.25; the floats that
    are rounded to one decimal lie just below the first and just above
    the second. *)
Lemma round1_of_percentage :
  (λ p : Z * Z,
     let* ratio := truediv p.1 p.2 in Ok (round1 (float_mul ratio 100)))
    <$> [(23, 80); (49, 80); (60, 70)]
  = [Ok (binary64 (287 # 10)); Ok (binary64 (613 # 10));
     Ok (binary64 (857 # 10))].
Proof. vm_compute. reflexivity. Qed.

Lemma split_nonempty (c : ascii) (s : string) : split c s ≠ [].
Proof.
  induction s as [|a s IH]; simpl; [done|].
  destruct (decide (a = c)); [done|]. by destruct (split c s).
Qed.

Lemma split_length (c : ascii) (s : string) :
  length (split c s) = S (count_char c s).
Proof.
  induction s as [|a s IH]; simpl; [done|].
  destruct (decide (a = c)); simpl; [by rewrite IH|].
  pose proof (split_nonempty c s).
  destruct (split c s); [done|]. simpl in *. lia.
Qed.

Lemma split_no_sep (c : ascii) (s : string) :
  count_char c s = 0%nat → split c s = [s].
Proof.
  induction s as [|a s IH]; simpl; [done|].
  destruct (decide (a = c)); [done|]. simpl. intros H. by rewrite IH.
Qed.

Lemma split_app_sep (c : ascii) (s1 s2 : string) :
  count_char c s1 = 0%nat →
  split c (s1 +:+ String c s2) = s1 :: split c s2.
Proof.
  induction s1 as [|a s1 IH]; simpl.
  - intros _. change (split c (String c s2) = EmptyString :: split c s2).
    simpl. by destruct (decide (c = c)).
  - destruct (decide (a = c)); [done|]. simpl. intros H.
    change (String a s1 +:+ String c s2) with (String a (s1 +:+ String c s2)).
    simpl. destruct (decide (a = c)); [done|]. by rewrite IH.
Qed.

Lemma split_start_end (s e : string) :
  count_char "-" s = 0%nat → count_char "-" e = 0%nat →
  split "-" (s +:+ "-" +:+ e) = [s; e].
Proof.
  intros Hs He.
  change ("-" +:+ e) with (String "-" e).
  by rewrite split_app_sep, split_no_sep.
Qed.

(** ** The slot encoder *)

Section SlotEncoder.
Import TimeSlotManager.

Lemma day_base_cases (day : string) :
  default 0 (DAY_TO_BASE_INDEX !! day) ∈ [0; 8; 16; 24; 32; 40].
Proof.
  destruct (DAY_TO_BASE_INDEX !! day) as [b|] eqn:E; simpl; [|set_solver].
  apply elem_of_list_to_map_2 in E.
  repeat (apply elem_of_cons in E as [E|E]; [injection E as _ ->; set_solver|]).
  by apply elem_of_nil in E.
Qed.

Lemma time_index_cases (start_time : string) :
  default 0 (TIME_TO_INDEX !! start_time) ∈ [0; 1; 2; 3; 4; 5; 6].
Proof.
  destruct (TIME_TO_INDEX !! start_time) as [b|] eqn:E; simpl; [|set_solver].
  apply elem_of_list_to_map_2 in E.
  repeat (apply elem_of_cons in E as [E|E]; [injection E as _ ->; set_solver|]).
  by apply elem_of_nil in E.
Qed.

Ltac enum_cases H :=
  repeat (apply elem_of_cons in H as [->|H]); [..|by apply elem_of_nil in H].

(** Two slots fit from every reachable start index; four fit from the
    index of "19h00" on every day. *)
Lemma mark_two (b i : Z) :
  b ∈ [0; 8; 16; 24; 32; 40] → i ∈ [0; 1; 2; 3; 4; 5; 6] →
  mark_slots 2 (b + i) (replicate 48 0) = Ok (window (b + i) 2).
Proof.
  intros Hb Hi. enum_cases Hb; enum_cases Hi; vm_compute; reflexivity.
Qed.

Lemma mark_four (b : Z) :
  b ∈ [0; 8; 16; 24; 32; 40] →
  mark_slots 4 (b + 2) (replicate 48 0) = Ok (window (b + 2) 4).
Proof.
  intros Hb. enum_cases Hb; vm_compute; reflexivity.
Qed.

Lemma create_time_slots_window (day time_range s e : string) :
  split "-" time_range = [s; e] →
  create_time_slots day time_range =
    Ok (window (default 0 (DAY_TO_BASE_INDEX !! day)
                + default 0 (TIME_TO_INDEX !! s))
               (if String.eqb time_range "19h00-22h30" then 4 else 2)).
Proof.
  intros Hsplit. unfold create_time_slots. rewrite Hsplit.
  pose proof (day_base_cases day) as Hb.
  pose proof (time_index_cases s) as Hi.
  destruct (String.eqb_spec time_range "19h00-22h30") as [->|_].
  - vm_compute in Hsplit. injection Hsplit as <- <-.
    change (default 0 (TIME_TO_INDEX !! "19h00")) with 2.
    by apply mark_four.
  - by apply mark_two.
Qed.

Lemma window_length (start k : Z) : length (window start k) = 48%nat.
Proof. unfold window. by rewrite length_fmap, length_seqZ. Qed.

Lemma window_lookup (start k : Z) (j : nat) :
  (j < 48)%nat →
  window start k !! j =
    Some (if bool_decide (start ≤ Z.of_nat j < start + k) then 1 else 0).
Proof.
  intros Hj. unfold window. rewrite list_lookup_fmap.
  rewrite lookup_seqZ_lt by lia. simpl. by rewrite Z.add_0_l.
Qed.

Lemma set_bits_window_two (b i : Z) :
  b ∈ [0; 8; 16; 24; 32; 40] → i ∈ [0; 1; 2; 3; 4; 5; 6] →
  set_bits (window (b + i) 2) = 2%nat.
Proof.
  intros Hb Hi. enum_cases Hb; enum_cases Hi; vm_compute; reflexivity.
Qed.

Lemma set_bits_window_four (b : Z) :
  b ∈ [0; 8; 16; 24; 32; 40] → set_bits (window (b + 2) 4) = 4%nat.
Proof.
  intros Hb. enum_cases Hb; vm_compute; reflexivity.
Qed.

Lemma time_label_no_dash (start_time : string) (i : Z) :
  TIME_TO_INDEX !! start_time = Some i → count_char "-" start_time = 0%nat.
Proof.
  intros E. apply elem_of_list_to_map_2 in E.
  repeat (apply elem_of_cons in E as [E|E]; [by injection E as -> _|]).
  by apply elem_of_nil in E.
Qed.

Lemma eqb_range_decide (time_range : string) :
  (if String.eqb time_range "19h00-22h30" then 4 else 2)
  = (if decide (time_range = "19h00-22h30") then 4 else 2).
Proof.
  destruct (String.eqb_spec time_range "19h00-22h30");
    by destruct (decide (time_range = "19h00-22h30")).
Qed.

(** C5. For a recognized day label (base offset [b]) and a range
    "start-end" whose start label is recognized (index [i]), the
    encoder returns a vector of 48 entries whose entry [j] is 1 exactly
    for [b + i <= j < b + i + k], where [k] is 4 for the literal range
    "19h00-22h30" and 2 for every other range; all other entries are 0. *)
Theorem create_time_slots_recognized
    (day start_time end_time : string) (b i : Z) :
  DAY_TO_BASE_INDEX !! day = Some b →
  TIME_TO_INDEX !! start_time = Some i →
  count_char "-" end_time = 0%nat →
  let time_range := start_time +:+ "-" +:+ end_time in
  let k := if decide (time_range = "19h00-22h30") then 4 else 2 in
  ∃ v, create_time_slots day time_range = Ok v
       ∧ length v = 48%nat
       ∧ ∀ j : nat, (j < 48)%nat →
           v !! j = Some (if bool_decide (b + i ≤ Z.of_nat j < b + i + k)
                          then 1 else 0).
Proof.
  intros Hd Ht He time_range k.
  pose proof (time_label_no_dash _ _ Ht) as Hs.
  pose proof (split_start_end _ _ Hs He) as Hsplit.
  exists (window (b + i) k). split; [|split].
  - subst time_range k.
    rewrite (create_time_slots_window day _ _ _ Hsplit).
    rewrite Hd, Ht. simpl. by rewrite eqb_range_decide.
  - apply window_length.
  - intros j Hj. by apply window_lookup.
Qed.

Lemma create_time_slots_recognized_witness :
  ∃ v, create_time_slots "Quarta" ("19h00" +:+ "-" +:+ "22h30") = Ok v
       ∧ length v = 48%nat
       ∧ ∀ j : nat, (j < 48)%nat →
           v !! j = Some (if bool_decide (16 + 2 ≤ Z.of_nat j < 16 + 2 + 4)
                          then 1 else 0).
Proof.
  apply (create_time_slots_recognized "Quarta" "19h00" "22h30" 16 2);
    vm_compute; reflexivity.
Defined.

(** C6. For a range "start-end" the encoder does not fail when the day
    or the start label is unrecognized: it returns the occupancy vector
    computed with base offset 0 in place of the unknown day and with
    within-day index 0 in place of the unknown start label. *)
Theorem create_time_slots_unrecognized (day start_time end_time : string) :
  count_char "-" start_time = 0%nat →
  count_char "-" end_time = 0%nat →
  DAY_TO_BASE_INDEX !! day = None ∨ TIME_TO_INDEX !! start_time = None →
  let time_range := start_time +:+ "-" +:+ end_time in
  let k := if decide (time_range = "19h00-22h30") then 4 else 2 in
  ∃ v, create_time_slots day time_range = Ok v
       ∧ length v = 48%nat
       ∧ (DAY_TO_BASE_INDEX !! day = None →
          TIME_TO_INDEX !! start_time = None → v = window (0 + 0) k)
       ∧ (DAY_TO_BASE_INDEX !! day = None →
          ∀ i, TIME_TO_INDEX !! start_time = Some i → v = window (0 + i) k)
       ∧ (∀ b, DAY_TO_BASE_INDEX !! day = Some b →
          TIME_TO_INDEX !! start_time = None → v = window (b + 0) k).
Proof.
  intros Hs He _ time_range k.
  pose proof (split_start_end _ _ Hs He) as Hsplit.
  eexists. split; [|split; [|split; [|split]]].
  - subst time_range k.
    rewrite (create_time_slots_window day _ _ _ Hsplit).
    rewrite eqb_range_decide. reflexivity.
  - apply window_length.
  - by intros -> ->.
  - by intros -> i ->.
  - by intros b -> ->.
Qed.

Lemma create_time_slots_unrecognized_witness :
  ∃ v, create_time_slots "Domingo" ("08h00" +:+ "-" +:+ "10h00") = Ok v
       ∧ length v = 48%nat
       ∧ (DAY_TO_BASE_INDEX !! "Domingo" = None →
          TIME_TO_INDEX !! "08h00" = None → v = window (0 + 0) 2)
       ∧ (DAY_TO_BASE_INDEX !! "Domingo" = None →
          ∀ i, TIME_TO_INDEX !! "08h00" = Some i → v = window (0 + i) 2)
       ∧ (∀ b, DAY_TO_BASE_INDEX !! "Domingo" = Some b →
          TIME_TO_INDEX !! "08h00" = None → v = window (b + 0) 2).
Proof.
  apply (create_time_slots_unrecognized "Domingo" "08h00" "10h00");
    [vm_compute; reflexivity | vm_compute; reflexivity
    | left; vm_compute; reflexivity].
Defined.

(** C7. For every day label and every range "start-end", the encoder
    returns a vector of length exactly 48 with exactly 2 set entries,
    or exactly 4 when the range is the literal "19h00-22h30": the
    guard against the end of the vector never drops a slot. *)
Theorem occupancy_vector_invariant (day start_time end_time : string) :
  count_char "-" start_time = 0%nat →
  count_char "-" end_time = 0%nat →
  let time_range := start_time +:+ "-" +:+ end_time in
  ∃ v, create_time_slots day time_range = Ok v
       ∧ length v = 48%nat
       ∧ set_bits v =
           if decide (time_range = "19h00-22h30") then 4%nat else 2%nat.
Proof.
  intros Hs He time_range.
  pose proof (split_start_end _ _ Hs He) as Hsplit.
  fold time_range in Hsplit.
  eexists. split; [|split].
  - apply (create_time_slots_window day _ _ _ Hsplit).
  - apply window_length.
  - pose proof (day_base_cases day) as Hb.
    pose proof (time_index_cases start_time) as Hi.
    destruct (String.eqb_spec time_range "19h00-22h30") as [Heq|Hne].
    + rewrite decide_True by done.
      rewrite Heq in Hsplit. vm_compute in Hsplit. injection Hsplit as <- <-.
      change (default 0 (TIME_TO_INDEX !! "19h00")) with 2.
      by apply set_bits_window_four.
    + rewrite decide_False by done. by apply set_bits_window_two.
Qed.

Lemma occupancy_vector_invariant_witness :
  ∃ v, create_time_slots "Sábado" ("22h30" +:+ "-" +:+ "23h20") = Ok v
       ∧ length v = 48%nat
       ∧ set_bits v = 2%nat.
Proof.
  apply (occupancy_vector_invariant "Sábado" "22h30" "23h20");
    vm_compute; reflexivity.
Defined.

(** C9. A time string that does not contain exactly one '-' makes
    [create_time_slots] raise (the unpacking of the split fails with
    [ValueError]) for every day, and therefore makes the construction
    of a [Course] raise as well, whatever the other fields are. *)
Theorem create_time_slots_malformed (day time_range : string) :
  count_char "-" time_range ≠ 1%nat →
  create_time_slots day time_range = Raise ValueError
  ∧ ∀ name course_code class_size requires_lab preferred_floor
      floor_preference_weight split_authorized assigned_professors is_split,
      Course.new name course_code day time_range class_size requires_lab
        preferred_floor floor_preference_weight split_authorized
        assigned_professors is_split = Raise ValueError.
Proof.
  intros Hn.
  assert (create_time_slots day time_range = Raise ValueError) as Hraise.
  { unfold create_time_slots.
    pose proof (split_length "-" time_range) as Hlen.
    destruct (split "-" time_range) as [|a [|b [|c l]]]; simpl in Hlen;
      try done. lia. }
  split; [done|]. intros. unfold Course.new. by rewrite Hraise.
Qed.

Lemma create_time_slots_malformed_witness :
  create_time_slots "Segunda" "19h00-20h50-22h30" = Raise ValueError
  ∧ ∀ name course_code class_size requires_lab preferred_floor
      floor_preference_weight split_authorized assigned_professors is_split,
      Course.new name course_code "Segunda" "19h00-20h50-22h30" class_size
        requires_lab preferred_floor floor_preference_weight
        split_authorized assigned_professors is_split = Raise ValueError.
Proof.
  apply (create_time_slots_malformed "Segunda" "19h00-20h50-22h30").
  vm_compute. lia.
Defined.

End SlotEncoder.

(** ** The course splitter *)

Section CourseSplitter.
Import DataLoader.

Lemma create_time_slots_one_dash (day time_range : string) :
  count_char "-" time_range = 1%nat →
  ∃ v, TimeSlotManager.create_time_slots day time_range = Ok v
       ∧ length v = 48%nat.
Proof.
  intros H. pose proof (split_length "-" time_range) as Hlen.
  rewrite H in Hlen.
  destruct (split "-" time_range) as [|s [|e [|x l]]] eqn:Hsplit;
    simpl in Hlen; try lia.
  eexists. split; [by apply (create_time_slots_window _ _ s e)|].
  apply window_length.
Qed.

Lemma can_be_split_eligible (row : course_row) (c : Course.t) :
  Course.class_size c = row_class_size row →
  Course.split_authorized c = default false (row_split_authorized row) →
  Course.assigned_professors c = row_assigned_professors row →
  Course.can_be_split c = true ↔ eligible row.
Proof.
  intros Hsz Hsa Hpr. unfold Course.can_be_split, eligible.
  rewrite Hsz, Hsa, Hpr.
  rewrite !andb_true_iff, Z.ltb_lt, Nat.leb_le.
  destruct (row_split_authorized row) as [[]|]; simpl;
    intuition (try discriminate; auto).
Qed.

Lemma load_course_outcome (row : course_row) :
  count_char "-" (row_time row) = 1%nat →
  ∃ g, load_course row = Ok g ∧ row_outcome row g.
Proof.
  intros Htime.
  destruct (create_time_slots_one_dash (row_day row) _ Htime) as (v & Hv & _).
  unfold load_course, Course.new. rewrite Hv. simpl.
  set (c := Course.mk _ _ _ _ _ _ _ _ _ _ _ _).
  pose proof (can_be_split_eligible row c eq_refl eq_refl eq_refl) as Hel.
  destruct (Course.can_be_split c) eqn:Hsplit.
  - assert (eligible row) as Helig by (by apply Hel).
    destruct Helig as (Hsz & Hsa & Hlen).
    destruct (row_assigned_professors row) as [|p0 [|p1 rest]] eqn:Hprofs;
      simpl in Hlen; try lia.
    subst c. simpl. rewrite Hv. simpl.
    eexists. split; [reflexivity|]. split.
    + intros _. eexists _, _, p0, p1, rest. simpl.
      repeat split; try reflexivity; try assumption. simpl. lia.
    + intros Hne. exfalso. apply Hne. unfold eligible.
      rewrite Hprofs. simpl. split_and!; [done|done|lia].
  - exists [c]. split; [done|]. split.
    + intros Helig. apply Hel in Helig. congruence.
    + intros _. exists c. split; [done|].
      unfold Course.new. by rewrite Hv.
Qed.

Lemma load_room_ok (rr : room_row) :
  rrow_type rr = "lab" ∨ rrow_type rr = "sala" → is_ok (load_room rr).
Proof.
  unfold load_room. intros [->| ->]; simpl; by eexists.
Qed.

(** C1. On well-formed tables (every time string has exactly one '-',
    every room type is "lab" or "sala") the loader returns, and its
    course list is the concatenation, in record order, of one group per
    record: a record with class_size > 50, split_authorized true and at
    least 2 assigned instructors is replaced by exactly two courses,
    Section A of size floor(size/2) with only the first instructor and
    Section B of size size - floor(size/2) with only the second, both
    marked split and split-authorized, the two sizes summing to the
    original size; any other record contributes the single course
    built from it unchanged. *)
Theorem load_data_splits_eligible_courses
    (courses_df : list course_row) (rooms_df : list room_row) :
  Forall (λ row, count_char "-" (row_time row) = 1%nat) courses_df →
  Forall (λ rr, rrow_type rr = "lab" ∨ rrow_type rr = "sala") rooms_df →
  ∃ groups rooms,
    load_data courses_df rooms_df = Ok (mjoin groups, rooms)
    ∧ Forall2 row_outcome courses_df groups.
Proof.
  intros Hc Hr.
  assert (∃ groups, rmap load_course courses_df = Ok groups
                    ∧ Forall2 row_outcome courses_df groups)
    as (groups & Hg & Hout).
  { induction Hc as [|row rows Hrow _ (gs & Hgs & IH)].
    - exists []. by split.
    - destruct (load_course_outcome row Hrow) as (g & Hg & Ho).
      exists (g :: gs). simpl. rewrite Hg, Hgs. by split; [|constructor]. }
  destruct (rmap_is_ok load_room rooms_df) as [rooms Hrooms].
  { eapply Forall_impl; [exact Hr|]. apply load_room_ok. }
  exists groups, rooms. split; [|done].
  unfold load_data. by rewrite Hg, Hrooms.
Qed.

Lemma load_data_splits_eligible_courses_witness :
  ∃ groups rooms,
    load_data split_courses_df split_rooms_df
      = Ok (mjoin groups, rooms)
    ∧ Forall2 row_outcome split_courses_df groups.
Proof.
  apply (load_data_splits_eligible_courses split_courses_df split_rooms_df).
  - repeat constructor.
  - repeat constructor; by right.
Defined.

End CourseSplitter.

(** ** The model builder *)

Section ModelBuilder.
Import ScheduleOptimizer.

Lemma Forall_imap {A B : Type} (P : B → Prop) (f : nat → A → B) (l : list A) :
  (∀ i a, l !! i = Some a → P (f i a)) → Forall P (imap f l).
Proof.
  intros H. apply Forall_forall. intros b Hb.
  apply elem_of_lookup_imap in Hb as (i & a & -> & Hl). eauto.
Qed.

Lemma room_floor_matches_snoc (l : list Course.t) (c : Course.t)
    (room : Room.t) :
  room_floor_matches (l ++ [c]) room =
    let room' := room_floor_matches l room in
    if Course.preferred_floor c <=? 0
    then Room.set_floor_match room' (Course.name c) 1
    else Room.set_floor_match room' (Course.name c)
           (if Room.floor room' =? Course.preferred_floor c then 1 else 0).
Proof. unfold room_floor_matches. by rewrite foldl_snoc. Qed.

(** [_calculate_floor_matches] touches nothing but the dictionary. *)
Lemma room_floor_matches_fields (courses : list Course.t) (room : Room.t) :
  Room.name (room_floor_matches courses room) = Room.name room
  ∧ Room.room_type (room_floor_matches courses room) = Room.room_type room
  ∧ Room.capacity (room_floor_matches courses room) = Room.capacity room
  ∧ Room.floor (room_floor_matches courses room) = Room.floor room
  ∧ Room.is_blocked (room_floor_matches courses room) = Room.is_blocked room.
Proof.
  induction courses as [|c l IH] using rev_ind; [done|].
  rewrite room_floor_matches_snoc. simpl.
  by destruct (Course.preferred_floor c <=? 0).
Qed.

(** After the precomputation every course name has an entry. *)
Lemma room_floor_matches_key (courses : list Course.t) (room : Room.t)
    (key : string) :
  is_Some (Room.floor_matches room !! key) ∨ key ∈ Course.name <$> courses →
  is_Some (Room.floor_matches (room_floor_matches courses room) !! key).
Proof.
  revert room. induction courses as [|c l IH]; intros room H; simpl.
  - destruct H as [H|H]; [done|]. by apply elem_of_nil in H.
  - apply IH.
    destruct (decide (Course.name c = key)) as [<-|Hne].
    + left. destruct (Course.preferred_floor c <=? 0); simpl;
        rewrite lookup_insert_eq; by eexists.
    + destruct H as [H|H].
      * left. destruct (Course.preferred_floor c <=? 0); simpl;
          by rewrite lookup_insert_ne.
      * right. rewrite fmap_cons in H.
        apply elem_of_cons in H as [H|H]; [congruence|done].
Qed.

Lemma get_floor_match_ok (courses : list Course.t) (room : Room.t)
    (course : Course.t) :
  course ∈ courses →
  is_ok (Room.get_floor_match (room_floor_matches courses room)
           (Course.name course)).
Proof.
  intros Hin. unfold Room.get_floor_match.
  destruct (room_floor_matches_key courses room (Course.name course))
    as [m Hm].
  { right. by apply list_elem_of_fmap_2. }
  rewrite Hm. by eexists.
Qed.

Lemma no_double_booking_ok (self : t) :
  Forall (λ c, length (Course.time_slots c) = 48%nat) (courses self) →
  is_ok (no_double_booking self).
Proof.
  intros Hlen. unfold no_double_booking.
  match goal with |- is_ok (rbind ?m _) => assert (is_ok m) as [bs ->] end;
    [|by eexists].
  apply rmap_is_ok, Forall_forall. intros r _.
  apply rmap_is_ok, Forall_forall. intros h Hh.
  apply elem_of_seq in Hh.
  match goal with |- is_ok (rbind ?m _) => assert (is_ok m) as [ts ->] end;
    [|by eexists].
  apply rmap_is_ok, Forall_imap. intros d c Hc. simpl.
  rewrite Forall_forall in Hlen.
  assert (c ∈ courses self) as Hin by (apply list_elem_of_lookup; eauto).
  specialize (Hlen c Hin). unfold list_getitem.
  destruct (lookup_lt_is_Some_2 (Course.time_slots c) h) as [s ->]; [lia|].
  by eexists.
Qed.

Lemma _create_objective_function_ok (courses : list Course.t)
    (rooms : list Room.t) :
  is_ok (_create_objective_function (__init__ courses rooms)).
Proof.
  unfold _create_objective_function.
  match goal with |- is_ok (rbind ?m _) => assert (is_ok m) as [bs ->] end;
    [|by eexists].
  apply rmap_is_ok, Forall_imap. intros d c Hc. simpl.
  apply rmap_is_ok, Forall_imap. intros r room' Hr. simpl.
  unfold _calculate_floor_matches in Hr.
  rewrite list_lookup_fmap in Hr.
  destruct (rooms !! r) as [room|]; [|done]. injection Hr as <-.
  unfold floor_term.
  destruct (get_floor_match_ok courses room c) as [m ->]; [|by eexists].
  apply list_elem_of_lookup; eauto.
Qed.

(** The model is built whenever every occupancy vector has its 48
    entries, which [Course.new] guarantees. *)
Lemma _create_model_ok (courses : list Course.t) (rooms : list Room.t) :
  Forall (λ c, length (Course.time_slots c) = 48%nat) courses →
  ∃ slot_rows obj,
    no_double_booking (__init__ courses rooms) = Ok slot_rows
    ∧ _create_objective_function (__init__ courses rooms) = Ok obj
    ∧ _create_model (__init__ courses rooms) =
        Ok {| constraints :=
                completeness (__init__ courses rooms) ++ slot_rows
                ++ room_type_constraints (__init__ courses rooms)
                ++ distance_constraints (__init__ courses rooms)
                ++ capacity_constraints (__init__ courses rooms)
                ++ blocked_constraints (__init__ courses rooms);
              objective := obj |}.
Proof.
  intros Hlen.
  destruct (no_double_booking_ok (__init__ courses rooms) Hlen) as [sr Hsr].
  destruct (_create_objective_function_ok courses rooms) as [obj Hobj].
  exists sr, obj. split; [done|]. split; [done|].
  unfold _create_model, _create_constraints. by rewrite Hsr, Hobj.
Qed.

End ModelBuilder.

Section CapacityCeiling.
Import ScheduleOptimizer.

Lemma completeness_elem (self : t) (d : nat) (course : Course.t) :
  courses self !! d = Some course →
  LpEQ (lpSum (imap (λ r _, Var (Var_x d r)) (rooms self))) (Const 1)
    ∈ completeness self.
Proof.
  intros Hd. unfold completeness.
  apply (elem_of_lookup_imap_2
           (λ d _, LpEQ (lpSum (imap (λ r _, Var (Var_x d r)) (rooms self)))
                        (Const 1)) _ _ _ Hd).
Qed.

Lemma ceiling_elem (self : t) (d r : nat) (course : Course.t) (room : Room.t) :
  courses self !! d = Some course → rooms self !! r = Some room →
  ceiling_constraint d r course room ∈ capacity_constraints self.
Proof.
  intros Hd Hr. unfold capacity_constraints.
  apply list_elem_of_join. eexists. split; last first.
  { apply (elem_of_lookup_imap_2 _ _ _ _ Hd). }
  simpl. apply list_elem_of_join. eexists. split; last first.
  { apply (elem_of_lookup_imap_2 _ _ _ _ Hr). }
  simpl. set_solver.
Qed.

Lemma distance_elem (self : t) (d r : nat) (course : Course.t) (room : Room.t) :
  courses self !! d = Some course → rooms self !! r = Some room →
  distance_constraint d r course room ∈ distance_constraints self.
Proof.
  intros Hd Hr. unfold distance_constraints.
  apply list_elem_of_join. eexists. split; last first.
  { apply (elem_of_lookup_imap_2 _ _ _ _ Hd). }
  simpl.
  apply (elem_of_lookup_imap_2
           (λ r room, distance_constraint d r course room) _ _ _ Hr).
Qed.

Lemma binary_x_elem (self : t) (d r : nat) :
  (d < length (courses self))%nat → (r < length (rooms self))%nat →
  Binary (Var_x d r) ∈ _create_decision_variables self.
Proof.
  intros Hd Hr. unfold _create_decision_variables.
  apply elem_of_app. left.
  apply list_elem_of_bind. exists d. split.
  - apply list_elem_of_fmap. exists r. split; [done|].
    apply elem_of_seq. lia.
  - apply elem_of_seq. lia.
Qed.

Lemma binary_value (val : var → Q) (v : var) :
  in_domain val (Binary v) → (val v == 0)%Q ∨ (val v == 1)%Q.
Proof.
  intros (n & Hn & Hlo & Hup). simpl in *.
  specialize (Hlo 0 eq_refl). specialize (Hup 1 eq_refl).
  assert (n = 0 ∨ n = 1) as [-> | ->] by lia; [by left|by right].
Qed.

(** A sum of 0/1 values equal to 1 has a summand equal to 1. *)
Lemma binary_sum_pick (val : var → Q) (vs : list var) :
  (∀ v, v ∈ vs → (val v == 0)%Q ∨ (val v == 1)%Q) →
  (eval val (lpSum (Var <$> vs)) == 1)%Q →
  ∃ v, v ∈ vs ∧ (val v == 1)%Q.
Proof.
  induction vs as [|a vs IH]; intros Hb Hs.
  - simpl in Hs. exfalso. lra.
  - destruct (Hb a) as [H0|H1]; [set_solver| |].
    + destruct IH as (v & Hv & H1).
      * intros v Hv. apply Hb. set_solver.
      * change (val a + eval val (lpSum (Var <$> vs)) == 1)%Q in Hs. lra.
      * exists v. split; [set_solver|done].
    + exists a. split; [set_solver|done].
Qed.

(** In a feasible point every course sits in some room. *)
Lemma feasible_assigns (self : t) (cs : list LpConstraint)
    (val : var → Q) (d : nat) (course : Course.t) :
  courses self !! d = Some course →
  Forall (in_domain val) (_create_decision_variables self) →
  Forall (holds val) cs →
  completeness self ⊆ cs →
  ∃ r room, rooms self !! r = Some room ∧ (val (Var_x d r) == 1)%Q.
Proof.
  intros Hd Hdom Hcs Hsub.
  rewrite Forall_forall in Hdom. rewrite Forall_forall in Hcs.
  pose proof (Hcs _ (Hsub _ (completeness_elem self d course Hd))) as Hsum.
  simpl in Hsum.
  rewrite (imap_seq_0 (rooms self) (λ r, Var (Var_x d r))) in Hsum.
  rewrite (list_fmap_compose (Var_x d) Var) in Hsum.
  destruct (binary_sum_pick val (Var_x d <$> seq 0 (length (rooms self))))
    as (v & Hv & H1).
  - intros v Hv. apply list_elem_of_fmap in Hv as (r & -> & Hr).
    apply elem_of_seq in Hr. apply binary_value, Hdom, binary_x_elem; [|lia].
    by apply lookup_lt_Some in Hd.
  - exact Hsum.
  - apply list_elem_of_fmap in Hv as (r & -> & Hr).
    apply elem_of_seq in Hr.
    destruct (lookup_lt_is_Some_2 (rooms self) r) as [room Hroom]; [lia|].
    by exists r, room.
Qed.

(** C2. The model built for any courses and rooms contains, for every
    course d and room r, the constraint
    size(d) <= capacity(r) * 1.2 + (1 - x[d,r]) * 9999; and when some
    course is larger than 1.2 times the capacity of every room, no
    assignment of the declared variables satisfies the constraints, so
    the model is infeasible. *)
Theorem capacity_ceiling_infeasible (courses : list Course.t)
    (rooms : list Room.t) :
  Forall (λ c, length (Course.time_slots c) = 48%nat) courses →
  ∃ model,
    _create_model (__init__ courses rooms) = Ok model
    ∧ (∀ d r course room,
         courses !! d = Some course → rooms !! r = Some room →
         LpLE (Const (inject_Z (Course.class_size course)))
              (Plus (Const (inject_Z (Room.capacity room) * (12 # 10)))
                    (Scale 9999 (Minus (Const 1) (Var (Var_x d r)))))
           ∈ constraints model)
    ∧ (∀ d course,
         courses !! d = Some course →
         (∀ room, room ∈ rooms →
            (inject_Z (Room.capacity room) * (12 # 10)
             < inject_Z (Course.class_size course))%Q) →
         ∀ val,
           ¬ feasible (_create_decision_variables (__init__ courses rooms))
               model val).
Proof.
  intros Hlen.
  destruct (_create_model_ok courses rooms Hlen) as (sr & obj & _ & _ & Hm).
  eexists. split; [exact Hm|]. simpl.
  assert (∀ d r course room,
            courses !! d = Some course → rooms !! r = Some room →
            ceiling_constraint d r course (room_floor_matches courses room)
              ∈ capacity_constraints (__init__ courses rooms)) as Hceil.
  { intros d r course room Hd Hr. apply ceiling_elem; [done|].
    simpl. unfold _calculate_floor_matches.
    by rewrite list_lookup_fmap, Hr. }
  split.
  - intros d r course room Hd Hr.
    specialize (Hceil d r course room Hd Hr).
    unfold ceiling_constraint in Hceil.
    destruct (room_floor_matches_fields courses room) as (_ & _ & Hcap & _).
    rewrite Hcap in Hceil. set_solver.
  - intros d course Hd Hbig val [Hdom Hcs]. simpl in Hcs.
    destruct (feasible_assigns (__init__ courses rooms) _ val d course
                Hd Hdom Hcs) as (r & room' & Hr & Hx); [set_solver|].
    simpl in Hr. unfold _calculate_floor_matches in Hr.
    rewrite list_lookup_fmap in Hr.
    destruct (rooms !! r) as [room|] eqn:Hroom; [|done].
    injection Hr as <-.
    specialize (Hceil d r course room Hd Hroom).
    rewrite Forall_forall in Hcs.
    assert (holds val (ceiling_constraint d r course
                         (room_floor_matches courses room))) as Hh.
    { apply Hcs. set_solver. }
    unfold ceiling_constraint in Hh. simpl in Hh.
    destruct (room_floor_matches_fields courses room) as (_ & _ & Hcap & _).
    rewrite Hcap in Hh.
    assert (room ∈ rooms) as Hin by (apply list_elem_of_lookup; eauto).
    specialize (Hbig room Hin). lra.
Qed.

End CapacityCeiling.

Section CapacityCeilingScenario.
Import ScheduleOptimizer.

Lemma capacity_ceiling_infeasible_witness :
  ∃ model,
    _create_model (__init__ [scenario4_course] [scenario4_room]) = Ok model
    ∧ LpLE (Const (inject_Z 70))
           (Plus (Const (inject_Z 50 * (12 # 10)))
                 (Scale 9999 (Minus (Const 1) (Var (Var_x 0 0)))))
        ∈ constraints model
    ∧ ∀ val,
        ¬ feasible
            (_create_decision_variables
               (__init__ [scenario4_course] [scenario4_room]))
            model val.
Proof.
  destruct (capacity_ceiling_infeasible [scenario4_course] [scenario4_room])
    as (model & Hm & Hin & Hinf).
  { repeat constructor. }
  exists model. split; [exact Hm|]. split.
  - apply (Hin 0%nat 0%nat scenario4_course scenario4_room); reflexivity.
  - apply (Hinf 0%nat scenario4_course eq_refl).
    intros room Hroom. apply list_elem_of_singleton in Hroom. subst room.
    reflexivity.
Defined.

End CapacityCeilingScenario.

(** ** The result extractor *)

Section ResultExtractor.
Import ScheduleOptimizer.
Variable solver : LpProblem → LpStatus * (var → Q).

Lemma _format_results_ok (courses : list Course.t) (rooms : list Room.t)
    (val : var → Q) :
  Forall (λ room, Room.capacity room ≠ 0) rooms →
  is_ok (_format_results (__init__ courses rooms) val).
Proof.
  intros Hcap.
  unfold _format_results.
  match goal with |- is_ok (rbind ?m _) => assert (is_ok m) as [gs ->] end;
    [|by eexists].
  apply rmap_is_ok, Forall_imap. intros d c Hc. simpl.
  match goal with |- is_ok (rbind ?m _) => assert (is_ok m) as [rs ->] end;
    [|by eexists].
  apply rmap_is_ok, Forall_imap. intros r room' Hr. simpl.
  destruct (Qeq_bool (val (Var_x d r)) 1); [|by eexists].
  unfold _calculate_floor_matches in Hr.
  rewrite list_lookup_fmap in Hr.
  destruct (rooms !! r) as [room|] eqn:Hroom; [|done]. injection Hr as <-.
  unfold format_row.
  destruct (get_floor_match_ok courses room c) as [m ->];
    [apply list_elem_of_lookup; eauto|].
  simpl. unfold truediv.
  destruct (room_floor_matches_fields courses room) as (_ & _ & -> & _).
  rewrite Forall_forall in Hcap.
  assert (Room.capacity room ≠ 0) as Hne.
  { apply Hcap, list_elem_of_lookup. eauto. }
  apply Z.eqb_neq in Hne. rewrite Hne. by eexists.
Qed.

Lemma format_row_describes (course : Course.t) (room : Room.t) (rw : row) :
  format_row course room = Ok rw → row_describes course room rw.
Proof.
  unfold format_row, row_describes.
  destruct (Room.get_floor_match room (Course.name course)) as [m|]; simpl;
    [|discriminate].
  unfold truediv.
  destruct (Room.capacity room =? 0); simpl; [discriminate|].
  intros [= <-]. simpl. repeat split.
  - unfold is_lab. by destruct (Room.room_type room).
  - by destruct (Course.requires_lab course), (is_lab room).
Qed.

(** The rows of a group of lists, each list described by the pairs its
    index contributes. *)
Lemma Forall2_bind_mjoin {B C : Type} (P : C → B → Prop) (h : nat → list C)
    (gs : list (list B)) (s : nat) :
  (∀ i g, gs !! i = Some g → Forall2 P (h (s + i)%nat) g) →
  Forall2 P (seq s (length gs) ≫= h) (mjoin gs).
Proof.
  revert s. induction gs as [|g gs IH]; intros s H; simpl; [constructor|].
  apply Forall2_app.
  - specialize (H 0%nat g eq_refl). by rewrite Nat.add_0_r in H.
  - apply IH. intros i g' Hi. specialize (H (S i) g' Hi).
    by rewrite Nat.add_succ_r in H.
Qed.

Lemma rmap_imap_ok_inv {A B : Type} (f : nat * A → res B) (l : list A)
    (bs : list B) :
  rmap f (imap (λ i a, (i, a)) l) = Ok bs →
  length bs = length l
  ∧ ∀ i b, bs !! i = Some b → ∃ a, l !! i = Some a ∧ f (i, a) = Ok b.
Proof.
  intros H. apply rmap_ok_inv in H. split.
  - apply Forall2_length in H. by rewrite length_imap in H.
  - intros i b Hb.
    destruct (Forall2_lookup_r _ _ _ i b H Hb) as ([i' a] & Hp & Hf).
    rewrite list_lookup_imap in Hp.
    destruct (l !! i) as [a'|]; [|done].
    injection Hp as <- <-. by exists a'.
Qed.

Lemma _format_results_selected (self : t) (val : var → Q) (rows : list row) :
  _format_results self val = Ok rows →
  Forall2 (λ (p : nat * nat) rw,
             ∃ course room,
               courses self !! p.1 = Some course
               ∧ rooms self !! p.2 = Some room
               ∧ format_row course room = Ok rw)
          (selected_pairs val (length (courses self)) (length (rooms self)))
          rows.
Proof.
  unfold _format_results, selected_pairs.
  match goal with
  | |- rbind ?m _ = _ → _ => destruct m as [groups|e] eqn:Hg
  end; simpl; [|discriminate].
  intros [= <-].
  apply rmap_imap_ok_inv in Hg as [Hlen Hg]. rewrite <- Hlen.
  apply Forall2_bind_mjoin. intros d g Hd. simpl.
  destruct (Hg d g Hd) as (course & Hc & Hbody). cbv beta in Hbody.
  simpl in Hbody.
  match type of Hbody with
  | rbind ?m _ = _ => destruct m as [rowsl|e] eqn:Hr
  end; simpl in Hbody; [|discriminate].
  injection Hbody as <-.
  apply rmap_imap_ok_inv in Hr as [Hlen' Hr]. rewrite <- Hlen'.
  apply Forall2_bind_mjoin. intros r l Hl. simpl.
  destruct (Hr r l Hl) as (room & Hroom & Hcell). simpl in Hcell.
  destruct (Qeq_bool (val (Var_x d r)) 1).
  - destruct (format_row course room) as [rw|e] eqn:Hrw; simpl in Hcell;
      [|discriminate].
    injection Hcell as <-. constructor; [|constructor].
    by exists course, room.
  - injection Hcell as <-. constructor.
Qed.

Lemma selected_pairs_elem (val : var → Q) (nd nr d r : nat) :
  (d, r) ∈ selected_pairs val nd nr
  ↔ (d < nd)%nat ∧ (r < nr)%nat ∧ Qeq_bool (val (Var_x d r)) 1 = true.
Proof.
  unfold selected_pairs. rewrite list_elem_of_bind. split.
  - intros (d' & Hin & Hd). apply list_elem_of_bind in Hin as (r' & Hin & Hr).
    apply elem_of_seq in Hd. apply elem_of_seq in Hr.
    destruct (Qeq_bool (val (Var_x d' r')) 1) eqn:Hx;
      [|by apply elem_of_nil in Hin].
    apply list_elem_of_singleton in Hin. injection Hin as -> ->.
    repeat split; [lia|lia|done].
  - intros (Hd & Hr & Hx). exists d. split; [|apply elem_of_seq; lia].
    apply list_elem_of_bind. exists r. split; [|apply elem_of_seq; lia].
    rewrite Hx. by left.
Qed.

(** Formatting raises [ZeroDivisionError] as soon as a room of capacity
    0 is selected: the floor-match entry is always there, so the
    division is the only step that can fail. *)
Lemma _format_results_zero_capacity (courses : list Course.t)
    (rooms : list Room.t) (val : var → Q) (d r : nat) (room : Room.t) :
  (d, r) ∈ selected_pairs val (length courses) (length rooms) →
  rooms !! r = Some room → Room.capacity room = 0 →
  _format_results (__init__ courses rooms) val = Raise ZeroDivisionError.
Proof.
  intros Hsel Hr Hzero.
  apply selected_pairs_elem in Hsel as (Hd & _ & Hx).
  destruct (lookup_lt_is_Some_2 courses d Hd) as [course Hc].
  assert (∀ c room', c ∈ courses → room' ∈ rooms →
            is_ok (format_row c (room_floor_matches courses room'))
            ∨ format_row c (room_floor_matches courses room')
              = Raise ZeroDivisionError) as Hcell.
  { intros c room' Hin _. unfold format_row.
    destruct (get_floor_match_ok courses room' c Hin) as [m ->]. simpl.
    unfold truediv.
    destruct (Room.capacity (room_floor_matches courses room') =? 0); simpl;
      [by right|left; by eexists]. }
  assert (format_row course (room_floor_matches courses room)
          = Raise ZeroDivisionError) as Hbad.
  { unfold format_row.
    destruct (get_floor_match_ok courses room course) as [m ->];
      [apply list_elem_of_lookup; eauto|].
    simpl. unfold truediv.
    destruct (room_floor_matches_fields courses room) as (_ & _ & -> & _).
    by rewrite Hzero. }
  unfold _format_results.
  match goal with
  | |- rbind ?m _ = _ =>
      assert (is_ok m ∨ m = Raise ZeroDivisionError) as [[gs Hgs]|Hraise]
  end.
  - apply rmap_raise_uniform, Forall_imap. intros d' c Hc'. simpl.
    match goal with
    | |- is_ok (rbind ?m _) ∨ _ =>
        assert (is_ok m ∨ m = Raise ZeroDivisionError) as [[rs Hrs]|Hrs]
    end; [|rewrite Hrs; left; by eexists|rewrite Hrs; by right].
    apply rmap_raise_uniform, Forall_imap. intros r' room' Hr'. simpl.
    destruct (Qeq_bool (val (Var_x d' r')) 1); [|left; by eexists].
    unfold _calculate_floor_matches in Hr'. rewrite list_lookup_fmap in Hr'.
    destruct (rooms !! r') as [room0|] eqn:Hroom0; [|done].
    injection Hr' as <-.
    destruct (Hcell c room0) as [[rw Hrw]|Hrw];
      [apply list_elem_of_lookup; eauto|apply list_elem_of_lookup; eauto
      |rewrite Hrw; left; by eexists|rewrite Hrw; by right].
  - exfalso.
    apply rmap_imap_ok_inv in Hgs as [Hlen Hgs].
    destruct (lookup_lt_is_Some_2 gs d) as [g Hg]; [by rewrite Hlen|].
    destruct (Hgs d g Hg) as (course' & Hc' & Hbody).
    simpl in Hc'. rewrite Hc in Hc'. injection Hc' as <-. simpl in Hbody.
    match type of Hbody with
    | rbind ?m _ = _ => destruct m as [rowsl|e] eqn:Hrows
    end; simpl in Hbody; [|discriminate].
    apply rmap_imap_ok_inv in Hrows as [Hlen' Hrows].
    assert (_calculate_floor_matches courses rooms !! r
            = Some (room_floor_matches courses room)) as Hr'.
    { unfold _calculate_floor_matches. by rewrite list_lookup_fmap, Hr. }
    destruct (lookup_lt_is_Some_2 rowsl r) as [l Hl].
    { rewrite Hlen'. by eapply lookup_lt_Some. }
    destruct (Hrows r l Hl) as (room' & Hroom' & Hbody').
    simpl in Hroom'. rewrite Hr' in Hroom'. injection Hroom' as <-.
    simpl in Hbody'. rewrite Hx, Hbad in Hbody'. discriminate.
  - by rewrite Hraise.
Qed.

(** C4. For any solver, once the model is built the optimize operation
    returns the empty sequence of rows whenever the solver's status is
    anything other than optimal (not-solved, infeasible, unbounded,
    undefined). When the status is optimal it returns what the
    formatting of the solver's assignment returns; when no room has
    capacity 0 these are the formatted schedule rows: one row for every
    pair of a course and a room whose assignment variable has the value
    1, in course-major order, each row describing that course and that
    room. A selected room of capacity 0 makes it raise
    [ZeroDivisionError]. *)
Theorem optimize_empty_unless_optimal
    (courses : list Course.t) (rooms : list Room.t) :
  Forall (λ c, length (Course.time_slots c) = 48%nat) courses →
  ∃ model,
    _create_model (__init__ courses rooms) = Ok model
    ∧ (∀ status val,
         solver model = (status, val) → status ≠ LpStatusOptimal →
         optimize solver (__init__ courses rooms) = Ok [])
    ∧ (∀ val,
         solver model = (LpStatusOptimal, val) →
         optimize solver (__init__ courses rooms)
           = _format_results (__init__ courses rooms) val
         ∧ (Forall (λ room, Room.capacity room ≠ 0) rooms →
            ∃ rows,
              optimize solver (__init__ courses rooms) = Ok rows
              ∧ Forall2 (λ (p : nat * nat) rw,
                           ∃ course room,
                             courses !! p.1 = Some course
                             ∧ ScheduleOptimizer.rooms (__init__ courses rooms)
                                 !! p.2 = Some room
                             ∧ row_describes course room rw)
                        (selected_pairs val (length courses) (length rooms))
                        rows)
         ∧ (∀ d r room,
              (d, r) ∈ selected_pairs val (length courses) (length rooms) →
              rooms !! r = Some room → Room.capacity room = 0 →
              optimize solver (__init__ courses rooms)
                = Raise ZeroDivisionError)).
Proof.
  intros Hlen.
  destruct (_create_model_ok courses rooms Hlen) as (sr & obj & _ & _ & Hm).
  eexists. split; [exact Hm|]. split.
  - intros status val Hs Hne. unfold optimize. rewrite Hm. simpl.
    rewrite Hs. by destruct status.
  - intros val Hs.
    assert (optimize solver (__init__ courses rooms)
            = _format_results (__init__ courses rooms) val) as Heq.
    { unfold optimize. rewrite Hm. simpl. by rewrite Hs. }
    split; [done|]. rewrite Heq. split.
    + intros Hcap.
      destruct (_format_results_ok courses rooms val Hcap) as [rows Hrows].
      exists rows. split; [done|].
      pose proof (_format_results_selected _ val rows Hrows) as H2.
      assert (length (ScheduleOptimizer.rooms (__init__ courses rooms))
              = length rooms) as Hl.
      { simpl. unfold _calculate_floor_matches. apply length_fmap. }
      rewrite Hl in H2.
      eapply Forall2_impl; [exact H2|].
      intros p rw (course & room & Hc & Hr & Hfmt).
      exists course, room. split; [done|]. split; [done|].
      by apply format_row_describes.
    + intros d r room. apply _format_results_zero_capacity.
Qed.

End ResultExtractor.

Lemma optimize_empty_unless_optimal_witness :
  ScheduleOptimizer.optimize (λ _, (LpStatusInfeasible, λ _, 0%Q))
    (ScheduleOptimizer.__init__ [scenario4_course] [scenario4_room]) = Ok []
  ∧ ∃ rows,
      ScheduleOptimizer.optimize (λ _, (LpStatusOptimal, shared_assignment))
        shared_optimizer = Ok rows
      ∧ Forall2 (λ (p : nat * nat) rw,
                   ∃ course room,
                     ScheduleOptimizer.courses shared_optimizer !! p.1
                       = Some course
                     ∧ ScheduleOptimizer.rooms shared_optimizer !! p.2
                       = Some room
                     ∧ row_describes course room rw)
                [(0, 0); (1, 0)]%nat rows.
Proof.
  split.
  - destruct (optimize_empty_unless_optimal
                (λ _, (LpStatusInfeasible, λ _, 0%Q))
                [scenario4_course] [scenario4_room])
      as (model & _ & Hempty & _).
    { repeat constructor. }
    apply (Hempty LpStatusInfeasible (λ _, 0%Q) eq_refl). discriminate.
  - destruct (optimize_empty_unless_optimal
                (λ _, (LpStatusOptimal, shared_assignment))
                (loaded_or_empty same_name_courses_df same_name_rooms_df).1
                (loaded_or_empty same_name_courses_df same_name_rooms_df).2)
      as (model & _ & _ & Hoptimal).
    { match goal with
      | |- Forall _ ?l => let l' := eval vm_compute in l in change l with l'
      end.
      repeat (apply Forall_cons; split; [vm_compute; reflexivity|]).
      apply Forall_nil_2. }
    destruct (Hoptimal shared_assignment eq_refl) as (_ & Hrows & _).
    apply Hrows.
    match goal with
    | |- Forall _ ?l => let l' := eval vm_compute in l in change l with l'
    end.
    repeat (apply Forall_cons; split; [vm_compute; discriminate|]).
    apply Forall_nil_2.
Defined.

(** ** The floor-match dictionary *)

Section FloorMatch.
Import ScheduleOptimizer.

(** When no two courses share a name, the entry read for a course is the
    value computed from the room's floor and that course's preference. *)
Lemma floor_match_distinct_names (courses : list Course.t) (room : Room.t)
    (course : Course.t) :
  NoDup (Course.name <$> courses) → course ∈ courses →
  Room.get_floor_match (room_floor_matches courses room) (Course.name course)
  = Ok (if Course.preferred_floor course <=? 0 then 1
        else if Room.floor room =? Course.preferred_floor course then 1
             else 0).
Proof.
  induction courses as [|c l IH] using rev_ind; intros Hnd Hin.
  - by apply elem_of_nil in Hin.
  - rewrite fmap_app in Hnd. apply NoDup_app in Hnd as (Hl & Hdisj & _).
    rewrite room_floor_matches_snoc. simpl.
    destruct (room_floor_matches_fields l room) as (_ & _ & _ & Hfloor & _).
    rewrite Hfloor.
    apply elem_of_app in Hin as [Hin|Hin].
    + assert (Course.name c ≠ Course.name course) as Hne.
      { intros Heq. apply (Hdisj (Course.name course)).
        - by apply list_elem_of_fmap_2.
        - rewrite <- Heq. set_solver. }
      specialize (IH Hl Hin). unfold Room.get_floor_match in *.
      destruct (Course.preferred_floor c <=? 0); simpl;
        by rewrite lookup_insert_ne.
    + apply list_elem_of_singleton in Hin as ->.
      unfold Room.get_floor_match.
      destruct (Course.preferred_floor c <=? 0); simpl;
        by rewrite lookup_insert_eq.
Qed.

(** C3, evaluated on the loaded tables [same_name_courses_df] and
    [same_name_rooms_df]: the first course prefers floor 2 and the only
    room is on floor 2, yet the floor-match value read for that pair is
    0, because the second course, which has the same name and prefers
    floor 3, stored its value under the same key afterwards. The value
    read is therefore not a function of the room's floor and the
    course's preferred floor alone. *)
Theorem floor_match_same_name_overwritten :
  ∃ c1 c2 room room',
    DataLoader.load_data same_name_courses_df same_name_rooms_df
      = Ok ([c1; c2], [room])
    ∧ rooms (__init__ [c1; c2] [room]) = [room']
    ∧ Course.name c1 = Course.name c2
    ∧ 0 < Course.preferred_floor c1
    ∧ Course.preferred_floor c1 = Room.floor room'
    ∧ Room.get_floor_match room' (Course.name c1) = Ok 0.
Proof.
  eexists _, _, _, _.
  split; [vm_compute; reflexivity|].
  split; [reflexivity|].
  vm_compute. repeat split; reflexivity.
Qed.

(** The distance constraint is present for every pair, whatever the
    preference, and forces the slack of an assigned course up to the
    floor distance. *)
Lemma distance_slack_no_preference (courses : list Course.t)
    (rooms : list Room.t) (d r : nat) (course : Course.t) (room : Room.t) :
  Forall (λ c, length (Course.time_slots c) = 48%nat) courses →
  courses !! d = Some course → rooms !! r = Some room →
  ∃ model,
    _create_model (__init__ courses rooms) = Ok model
    ∧ LpGE (Var (Var_y d))
           (Scale (inject_Z (Z.abs (Course.preferred_floor course
                                    - Room.floor room)))
                  (Var (Var_x d r)))
        ∈ constraints model
    ∧ ∀ val,
        Forall (holds val) (constraints model) →
        (val (Var_x d r) == 1)%Q →
        (inject_Z (Z.abs (Course.preferred_floor course - Room.floor room))
         <= val (Var_y d))%Q.
Proof.
  intros Hlen Hd Hr.
  destruct (_create_model_ok courses rooms Hlen) as (sr & obj & _ & _ & Hm).
  eexists. split; [exact Hm|]. simpl.
  assert (distance_constraint d r course (room_floor_matches courses room)
            ∈ distance_constraints (__init__ courses rooms)) as Hin.
  { apply distance_elem; [done|]. simpl. unfold _calculate_floor_matches.
    by rewrite list_lookup_fmap, Hr. }
  unfold distance_constraint in Hin.
  destruct (room_floor_matches_fields courses room) as (_ & _ & _ & Hfl & _).
  rewrite Hfl in Hin.
  split; [set_solver|].
  intros val Hcs Hx. rewrite Forall_forall in Hcs.
  match type of Hin with ?c ∈ _ => assert (holds val c) as Hh end.
  { apply Hcs. set_solver. }
  simpl in Hh. rewrite Hx in Hh. lra.
Qed.

(** C10, evaluated on the loaded tables [same_name_no_preference_df] and
    [same_name_rooms_df]: the first course has no floor preference, the
    model holds its distance constraint y[0] >= 2 * x[0,0] for the room
    on floor 2, and the summand of the floor-match term for that pair is
    1 * x[0,0], not 0: the second course, of the same name and preferring
    floor 3, overwrote the entry, so the floor-match term does charge the
    no-preference course. *)
Theorem no_preference_course_charged_by_floor_term :
  ∃ c1 c2 room room' model,
    DataLoader.load_data same_name_no_preference_df same_name_rooms_df
      = Ok ([c1; c2], [room])
    ∧ rooms (__init__ [c1; c2] [room]) = [room']
    ∧ Course.preferred_floor c1 ≤ 0
    ∧ _create_model (__init__ [c1; c2] [room]) = Ok model
    ∧ LpGE (Var (Var_y 0)) (Scale (inject_Z 2) (Var (Var_x 0 0)))
        ∈ constraints model
    ∧ Room.get_floor_match room' (Course.name c1) = Ok 0
    ∧ floor_term 0 0 c1 room' = Ok (Scale (1 * (1 - inject_Z 0)) (Var (Var_x 0 0))).
Proof.
  eexists _, _, _, _, _.
  split; [vm_compute; reflexivity|].
  split; [reflexivity|].
  split; [vm_compute; discriminate|].
  split; [vm_compute; reflexivity|].
  split; [|split; vm_compute; reflexivity].
  vm_compute. set_solver.
Qed.

End FloorMatch.

(** ** The split-class report *)

Section SplitReport.
Import ScheduleOptimizer ScheduleAnalyzer.

Lemma in_domain_integer (val : var → Q) (decl : LpVariable) :
  Qden (val (lp_var decl)) = 1%positive →
  from_option (λ lo, lo <=? Qnum (val (lp_var decl))) true (lowBound decl)
    = true →
  from_option (λ up, Qnum (val (lp_var decl)) <=? up) true (upBound decl)
    = true →
  in_domain val decl.
Proof.
  intros Hden Hlo Hup. exists (Qnum (val (lp_var decl))).
  destruct (val (lp_var decl)) as [n dn] eqn:Hq. simpl in *. subst dn.
  split; [reflexivity|]. split.
  - intros lo Hl. rewrite Hl in Hlo. simpl in Hlo. lia.
  - intros up Hu. rewrite Hu in Hup. simpl in Hup. lia.
Qed.

(** The assignment used below is a feasible point of the model built
    for the two loaded sections, and its objective value is 0. *)
Lemma split_assignment_feasible :
  ∃ courses rooms model,
    DataLoader.load_data split_courses_df split_rooms_df = Ok (courses, rooms)
    ∧ _create_model (__init__ courses rooms) = Ok model
    ∧ (eval split_assignment (objective model) == 0)%Q
    ∧ feasible (_create_decision_variables (__init__ courses rooms)) model
        split_assignment.
Proof.
  eexists _, _, _.
  split; [vm_compute; reflexivity|].
  split; [vm_compute; reflexivity|].
  split; [by vm_compute|].
  split.
  - match goal with
    | |- Forall _ ?l => let l' := eval vm_compute in l in change l with l'
    end.
    repeat (apply Forall_cons; split;
            [apply in_domain_integer; vm_compute; reflexivity|]).
    apply Forall_nil_2.
  - match goal with
    | |- Forall _ ?l => let l' := eval vm_compute in l in change l with l'
    end.
    repeat (apply Forall_cons; split; [by vm_compute|]).
    apply Forall_nil_2.
Qed.

(** C8, evaluated on the run of [main] over the tables [split_courses_df]
    and [split_rooms_df] with both sections scheduled: the record of size
    121 is loaded as sections ENG-A (60) and ENG-B (61); the report has
    one entry per scheduled section code, both for base code ENG and both
    listing the two section rows, and each gives 61 as original_size,
    the size of section B, not the 121 of the course before the split,
    because the loaded course list no longer holds the original course
    and the last course filed under the base code is section B. *)
Theorem split_report_original_size_is_section_size :
  ∃ schedule report,
    main split_solver split_courses_df split_rooms_df
      = Ok (Some (schedule, report))
    ∧ DataLoader.row_class_size <$> split_courses_df = [121]
    ∧ Curso <$> schedule = ["ENG-A"; "ENG-B"]
    ∧ Tamanho_Turma <$> schedule = [60; 61]
    ∧ original_course <$> report = ["ENG"; "ENG"]
    ∧ original_size <$> report = [61; 61]
    ∧ (fmap sec_Curso ∘ split_sections) <$> report
      = [["ENG-A"; "ENG-B"]; ["ENG-A"; "ENG-B"]].
Proof.
  eexists _, _.
  split; [vm_compute; reflexivity|].
  repeat split; vm_compute; reflexivity.
Qed.

End SplitReport.

(** * Further properties of the code *)

(** ** Conflicts between occupancy vectors *)

Section Conflicts.
Import TimeSlotManager.

Ltac list_cases H :=
  repeat (apply elem_of_cons in H as [->|H]); [..|by apply elem_of_nil in H].

Lemma has_conflict_index (slots1 slots2 : list Z) :
  has_conflict slots1 slots2 = true
  ↔ ∃ (i : nat) (a b : Z),
      slots1 !! i = Some a ∧ slots2 !! i = Some b ∧ a ≠ 0 ∧ b ≠ 0.
Proof.
  revert slots2. induction slots1 as [|s1 r1 IH]; intros [|s2 r2]; simpl.
  - split; [done|]. by intros (i & a & b & H & _).
  - split; [done|]. by intros (i & a & b & H & _).
  - split; [done|]. intros (i & a & b & _ & H & _). by destruct i.
  - rewrite orb_true_iff, andb_true_iff, !negb_true_iff, !Z.eqb_neq, IH.
    split.
    + intros [[H1 H2]|(i & a & b & Ha & Hb & Hn)].
      * by exists 0%nat, s1, s2.
      * by exists (S i), a, b.
    + intros ([|i] & a & b & Ha & Hb & Hna & Hnb); simpl in *.
      * left. by simplify_eq.
      * right. by exists i, a, b.
Qed.

(** X1. [has_conflict] holds exactly when some index is set in both vectors;
    indices beyond the shorter vector are not compared. *)
Theorem has_conflict_iff (slots1 slots2 : list Z) :
  has_conflict slots1 slots2 = true
  ↔ ∃ (i : nat) (a b : Z),
      slots1 !! i = Some a ∧ slots2 !! i = Some b ∧ a ≠ 0 ∧ b ≠ 0.
Proof. apply has_conflict_index. Qed.

(** The interval an encoded session occupies lies inside the eight
    slots of its day. *)
Lemma encoded_interval_bounds (day start_time end_time : string) :
  count_char "-" start_time = 0%nat → count_char "-" end_time = 0%nat →
  let b := default 0 (DAY_TO_BASE_INDEX !! day) in
  let i := default 0 (TIME_TO_INDEX !! start_time) in
  let k := if decide (start_time +:+ "-" +:+ end_time = "19h00-22h30")
           then 4 else 2 in
  b ∈ [0; 8; 16; 24; 32; 40] ∧ 0 ≤ i ∧ 0 < k ∧ i + k ≤ 8.
Proof.
  intros Hs He b i k.
  pose proof (day_base_cases day) as Hb.
  pose proof (time_index_cases start_time) as Hi.
  split; [done|]. fold i in Hi. subst k.
  case_decide as Heq.
  - pose proof (split_start_end _ _ Hs He) as Hsplit.
    rewrite Heq in Hsplit. vm_compute in Hsplit.
    injection Hsplit as <- <-. subst i. vm_compute. done.
  - list_cases Hi; lia.
Qed.

Lemma has_conflict_window (a1 k1 a2 k2 : Z) :
  0 ≤ a1 → 0 ≤ a2 → a1 + k1 ≤ 48 → a2 + k2 ≤ 48 →
  has_conflict (window a1 k1) (window a2 k2) = true
  ↔ a1 < a2 + k2 ∧ a2 < a1 + k1 ∧ 0 < k1 ∧ 0 < k2.
Proof.
  intros H1 H2 H3 H4. rewrite has_conflict_index. split.
  - intros (j & a & b & Ha & Hb & Hna & Hnb).
    assert (j < 48)%nat as Hj.
    { apply lookup_lt_Some in Ha. by rewrite window_length in Ha. }
    rewrite window_lookup in Ha, Hb by done.
    injection Ha as <-. injection Hb as <-.
    repeat case_bool_decide; try done. lia.
  - intros (Ha & Hb & Hk1 & Hk2).
    exists (Z.to_nat (Z.max a1 a2)), 1, 1.
    rewrite !window_lookup by lia.
    rewrite !bool_decide_eq_true_2 by lia. done.
Qed.

Lemma encoded_overlap
    (day1 start1 end1 day2 start2 end2 : string) :
  count_char "-" start1 = 0%nat → count_char "-" end1 = 0%nat →
  count_char "-" start2 = 0%nat → count_char "-" end2 = 0%nat →
  let range1 := start1 +:+ "-" +:+ end1 in
  let range2 := start2 +:+ "-" +:+ end2 in
  let a1 := default 0 (DAY_TO_BASE_INDEX !! day1)
            + default 0 (TIME_TO_INDEX !! start1) in
  let a2 := default 0 (DAY_TO_BASE_INDEX !! day2)
            + default 0 (TIME_TO_INDEX !! start2) in
  let k1 := if decide (range1 = "19h00-22h30") then 4 else 2 in
  let k2 := if decide (range2 = "19h00-22h30") then 4 else 2 in
  ∃ v1 v2,
    create_time_slots day1 range1 = Ok v1
    ∧ create_time_slots day2 range2 = Ok v2
    ∧ (has_conflict v1 v2 = true ↔ a1 < a2 + k2 ∧ a2 < a1 + k1).
Proof.
  intros Hs1 He1 Hs2 He2 range1 range2 a1 a2 k1 k2.
  pose proof (split_start_end _ _ Hs1 He1) as Hsp1.
  pose proof (split_start_end _ _ Hs2 He2) as Hsp2.
  pose proof (create_time_slots_window day1 _ _ _ Hsp1) as Hv1.
  pose proof (create_time_slots_window day2 _ _ _ Hsp2) as Hv2.
  rewrite eqb_range_decide in Hv1, Hv2.
  exists (window a1 k1), (window a2 k2). split; [done|]. split; [done|].
  destruct (encoded_interval_bounds day1 _ _ Hs1 He1) as (Hb1 & Hi1 & Hk1 & Hik1).
  destruct (encoded_interval_bounds day2 _ _ Hs2 He2) as (Hb2 & Hi2 & Hk2 & Hik2).
  fold range1 k1 in Hk1, Hik1. fold range2 k2 in Hk2, Hik2.
  assert (0 ≤ default 0 (DAY_TO_BASE_INDEX !! day1) ≤ 40) by (list_cases Hb1; lia).
  assert (0 ≤ default 0 (DAY_TO_BASE_INDEX !! day2) ≤ 40) by (list_cases Hb2; lia).
  rewrite has_conflict_window by lia. lia.
Qed.

(** X2. Two encoded sessions conflict exactly when their slot intervals
    overlap: each starts at base offset plus label index and runs for 4
    slots when its range is "19h00-22h30" and for 2 otherwise. *)
Theorem has_conflict_encoded_overlap
    (day1 start1 end1 day2 start2 end2 : string) :
  count_char "-" start1 = 0%nat → count_char "-" end1 = 0%nat →
  count_char "-" start2 = 0%nat → count_char "-" end2 = 0%nat →
  let range1 := start1 +:+ "-" +:+ end1 in
  let range2 := start2 +:+ "-" +:+ end2 in
  let a1 := default 0 (DAY_TO_BASE_INDEX !! day1)
            + default 0 (TIME_TO_INDEX !! start1) in
  let a2 := default 0 (DAY_TO_BASE_INDEX !! day2)
            + default 0 (TIME_TO_INDEX !! start2) in
  let k1 := if decide (range1 = "19h00-22h30") then 4 else 2 in
  let k2 := if decide (range2 = "19h00-22h30") then 4 else 2 in
  ∃ v1 v2,
    create_time_slots day1 range1 = Ok v1
    ∧ create_time_slots day2 range2 = Ok v2
    ∧ (has_conflict v1 v2 = true ↔ a1 < a2 + k2 ∧ a2 < a1 + k1).
Proof. apply encoded_overlap. Qed.

Lemma has_conflict_encoded_overlap_witness :
  ∃ v1 v2,
    create_time_slots "Segunda" ("17h20" +:+ "-" +:+ "19h00") = Ok v1
    ∧ create_time_slots "Segunda" ("18h10" +:+ "-" +:+ "19h50") = Ok v2
    ∧ (has_conflict v1 v2 = true ↔ 0 + 0 < 0 + 1 + 2 ∧ 0 + 1 < 0 + 0 + 2).
Proof.
  apply (has_conflict_encoded_overlap
           "Segunda" "17h20" "19h00" "Segunda" "18h10" "19h50");
    vm_compute; reflexivity.
Defined.

(** X3. Sessions on days with different base offsets never conflict: no
    session runs past the eight slots of its day. (An unrecognized day
    has base offset 0, like "Segunda".) *)
Theorem sessions_on_different_days_never_conflict
    (day1 start1 end1 day2 start2 end2 : string) :
  count_char "-" start1 = 0%nat → count_char "-" end1 = 0%nat →
  count_char "-" start2 = 0%nat → count_char "-" end2 = 0%nat →
  default 0 (DAY_TO_BASE_INDEX !! day1) ≠ default 0 (DAY_TO_BASE_INDEX !! day2) →
  ∃ v1 v2,
    create_time_slots day1 (start1 +:+ "-" +:+ end1) = Ok v1
    ∧ create_time_slots day2 (start2 +:+ "-" +:+ end2) = Ok v2
    ∧ has_conflict v1 v2 = false.
Proof.
  intros Hs1 He1 Hs2 He2 Hne.
  destruct (encoded_overlap day1 start1 end1 day2 start2 end2
              Hs1 He1 Hs2 He2) as (v1 & v2 & Hv1 & Hv2 & Hiff).
  exists v1, v2. split; [done|]. split; [done|].
  destruct (has_conflict v1 v2); [|done]. exfalso.
  destruct Hiff as [Hiff _]. specialize (Hiff eq_refl).
  destruct (encoded_interval_bounds day1 _ _ Hs1 He1) as (Hb1 & Hi1 & Hk1 & Hik1).
  destruct (encoded_interval_bounds day2 _ _ Hs2 He2) as (Hb2 & Hi2 & Hk2 & Hik2).
  revert Hiff Hne Hi1 Hk1 Hik1 Hi2 Hk2 Hik2.
  generalize (default 0 (TIME_TO_INDEX !! start1)).
  generalize (default 0 (TIME_TO_INDEX !! start2)).
  generalize (if decide (start1 +:+ "-" +:+ end1 = "19h00-22h30") then 4 else 2).
  generalize (if decide (start2 +:+ "-" +:+ end2 = "19h00-22h30") then 4 else 2).
  intros k2 k1 i2 i1.
  list_cases Hb1; list_cases Hb2; lia.
Qed.

Lemma sessions_on_different_days_never_conflict_witness :
  ∃ v1 v2,
    create_time_slots "Segunda" ("21h40" +:+ "-" +:+ "23h20") = Ok v1
    ∧ create_time_slots "Terça" ("17h20" +:+ "-" +:+ "19h00") = Ok v2
    ∧ has_conflict v1 v2 = false.
Proof.
  apply (sessions_on_different_days_never_conflict
           "Segunda" "21h40" "23h20" "Terça" "17h20" "19h00");
    vm_compute; (reflexivity || discriminate).
Defined.

End Conflicts.

(** ** Loading: when it succeeds and what it returns *)

Section Loading.
Import DataLoader.

Lemma rmap_ok_iff {A B : Type} (f : A → res B) (l : list A) :
  is_ok (rmap f l) ↔ Forall (λ a, is_ok (f a)) l.
Proof.
  split; [|apply rmap_is_ok].
  intros [bs Hbs]. apply rmap_ok_inv in Hbs.
  induction Hbs as [|a b l' bs' Hab _ IH]; constructor; [by exists b|done].
Qed.

Lemma create_time_slots_ok_inv (day time_range : string) (v : list Z) :
  TimeSlotManager.create_time_slots day time_range = Ok v →
  count_char "-" time_range = 1%nat ∧ ∃ a k, v = window a k.
Proof.
  intros Hv. pose proof (split_length "-" time_range) as Hlen.
  destruct (split "-" time_range) as [|s [|e [|x l]]] eqn:Hsplit;
    try (unfold TimeSlotManager.create_time_slots in Hv;
         rewrite Hsplit in Hv; discriminate).
  simpl in Hlen. split; [lia|].
  rewrite (create_time_slots_window day time_range s e Hsplit) in Hv.
  injection Hv as <-. by eexists _, _.
Qed.

Lemma create_time_slots_ok_or_raise (day time_range : string) :
  (count_char "-" time_range = 1%nat
   ∧ is_ok (TimeSlotManager.create_time_slots day time_range))
  ∨ (count_char "-" time_range ≠ 1%nat
     ∧ TimeSlotManager.create_time_slots day time_range = Raise ValueError).
Proof.
  destruct (decide (count_char "-" time_range = 1%nat)) as [H1|Hn].
  - left. split; [done|].
    destruct (create_time_slots_one_dash day _ H1) as (v & Hv & _).
    by exists v.
  - right. split; [done|]. unfold TimeSlotManager.create_time_slots.
    pose proof (split_length "-" time_range) as Hlen.
    destruct (split "-" time_range) as [|a [|b [|c l]]]; simpl in Hlen;
      try done. lia.
Qed.

Lemma load_course_ok_or_raise (row : course_row) :
  (count_char "-" (row_time row) = 1%nat ∧ is_ok (load_course row))
  ∨ (count_char "-" (row_time row) ≠ 1%nat
     ∧ load_course row = Raise ValueError).
Proof.
  destruct (create_time_slots_ok_or_raise (row_day row) (row_time row))
    as [[H1 _]|[Hn Hr]].
  - left. split; [done|].
    destruct (load_course_outcome row H1) as (g & Hg & _). by exists g.
  - right. split; [done|]. unfold load_course, Course.new. by rewrite Hr.
Qed.

Lemma load_room_ok_or_raise (rr : room_row) :
  ((rrow_type rr = "lab" ∨ rrow_type rr = "sala") ∧ is_ok (load_room rr))
  ∨ (¬ (rrow_type rr = "lab" ∨ rrow_type rr = "sala")
     ∧ load_room rr = Raise ValueError).
Proof.
  unfold load_room, RoomTypeEnum.of_value.
  destruct (String.eqb_spec (rrow_type rr) "lab") as [Hl|Hl].
  { left. split; [by left|]. by eexists. }
  destruct (String.eqb_spec (rrow_type rr) "sala") as [Hs|Hs].
  { left. split; [by right|]. by eexists. }
  right. split; [|done]. by intros [?|?].
Qed.

(** X4. The loader succeeds exactly on tables in which every time string
    has exactly one '-' and every room type is "lab" or "sala"; on every
    other table it raises [ValueError]. *)
Theorem load_data_ok_iff (courses_df : list course_row)
    (rooms_df : list room_row) :
  (is_ok (load_data courses_df rooms_df)
   ↔ Forall (λ row, count_char "-" (row_time row) = 1%nat) courses_df
     ∧ Forall (λ rr, rrow_type rr = "lab" ∨ rrow_type rr = "sala") rooms_df)
  ∧ (is_ok (load_data courses_df rooms_df)
     ∨ load_data courses_df rooms_df = Raise ValueError).
Proof.
  assert (is_ok (rmap load_course courses_df)
          ↔ Forall (λ row, count_char "-" (row_time row) = 1%nat) courses_df)
    as Hc.
  { rewrite rmap_ok_iff. apply Forall_iff. intros row.
    destruct (load_course_ok_or_raise row) as [[H1 Hok]|[Hn Hr]];
      [done|]. split; [|done]. intros [g Hg]. congruence. }
  assert (is_ok (rmap load_room rooms_df)
          ↔ Forall (λ rr, rrow_type rr = "lab" ∨ rrow_type rr = "sala") rooms_df)
    as Hr.
  { rewrite rmap_ok_iff. apply Forall_iff. intros rr.
    destruct (load_room_ok_or_raise rr) as [[H1 Hok]|[Hn Hraise]];
      [done|]. split; [|done]. intros [g Hg]. congruence. }
  assert (is_ok (rmap load_course courses_df)
          ∨ rmap load_course courses_df = Raise ValueError) as Hc'.
  { apply rmap_raise_uniform, Forall_forall. intros row _.
    destruct (load_course_ok_or_raise row) as [[_ ?]|[_ ?]]; auto. }
  assert (is_ok (rmap load_room rooms_df)
          ∨ rmap load_room rooms_df = Raise ValueError) as Hr'.
  { apply rmap_raise_uniform, Forall_forall. intros rr _.
    destruct (load_room_ok_or_raise rr) as [[_ ?]|[_ ?]]; auto. }
  rewrite <- Hc, <- Hr. unfold load_data.
  destruct Hc' as [[gs ->]| ->]; simpl.
  - destruct Hr' as [[rs ->]| ->]; simpl.
    + split; [|left; by eexists]. split; [|by eexists].
      intros _. split; by eexists.
    + split; [|by right]. split.
      * by intros [? ?].
      * by intros [_ [? ?]].
  - split; [|by right]. split.
    + by intros [? ?].
    + by intros [[? ?] _].
Qed.

End Loading.

Section LoadedTables.
Import DataLoader ScheduleOptimizer.

Lemma window_binary (a k : Z) : binary_vector (window a k).
Proof.
  split; [apply window_length|].
  unfold window. apply Forall_fmap, Forall_forall. intros j _. simpl.
  case_bool_decide; auto.
Qed.

Lemma load_course_inv (row : course_row) (g : list Course.t) :
  load_course row = Ok g → Forall loaded_course_ok g.
Proof.
  unfold load_course, Course.new.
  destruct (TimeSlotManager.create_time_slots (row_day row) (row_time row))
    as [v|e] eqn:Hv; simpl; [|discriminate].
  assert (binary_vector v) as Hbin.
  { destruct (create_time_slots_ok_inv _ _ _ Hv) as (_ & a & k & ->).
    apply window_binary. }
  match goal with |- context [Course.can_be_split ?c] => set (c0 := c) end.
  destruct (Course.can_be_split c0) eqn:Hs.
  - unfold Course.can_be_split in Hs. subst c0. cbn [Course.class_size
      Course.split_authorized Course.assigned_professors] in *.
    destruct (row_assigned_professors row) as [|p0 [|p1 rest]];
      cbn [length Nat.leb] in Hs; rewrite ?andb_false_r in Hs;
      try discriminate.
    cbn [list_getitem lookup list_lookup rbind]. rewrite Hv.
    cbn [rbind]. intros [= <-].
    apply Forall_cons; split; [|apply Forall_cons; split; [|apply Forall_nil_2]];
      (split; [unfold Course.can_be_split; cbn; by rewrite andb_false_r|];
       split; [exact Hbin|done]).
  - intros [= <-]. apply Forall_cons; split; [|apply Forall_nil_2].
    split; [done|]. split; [done|]. subst c0. cbn. discriminate.
Qed.

Lemma load_data_inv (courses_df : list course_row) (rooms_df : list room_row)
    (courses : list Course.t) (rooms : list Room.t) :
  load_data courses_df rooms_df = Ok (courses, rooms) →
  Forall loaded_course_ok courses
  ∧ Forall2 (λ rr room,
               Room.name room = rrow_name rr
               ∧ Room.capacity room = rrow_capacity rr
               ∧ Room.floor room = rrow_floor rr
               ∧ Room.is_blocked room = default false (rrow_is_blocked rr)
               ∧ Room.floor_matches room = ∅) rooms_df rooms.
Proof.
  unfold load_data.
  destruct (rmap load_course courses_df) as [gs|e] eqn:Hg; simpl; [|discriminate].
  destruct (rmap load_room rooms_df) as [rs|e] eqn:Hr; simpl; [|discriminate].
  intros [= <- <-]. split.
  - apply rmap_ok_inv in Hg. apply Forall_join.
    induction Hg as [|row g rows gs' Hrow _ IH]; constructor; [|done].
    by apply load_course_inv in Hrow.
  - apply rmap_ok_inv in Hr.
    eapply Forall2_impl; [exact Hr|]. intros rr room Hroom. simpl in Hroom.
    unfold load_room in Hroom.
    destruct (RoomTypeEnum.of_value (rrow_type rr)); simpl in Hroom;
      [|discriminate].
    by injection Hroom as <-.
Qed.

(** X5. Every course the loader returns can no longer be split, carries an
    occupancy vector of 48 entries that are 0 or 1, and, when it is a
    derived section, has exactly one instructor; the rooms come back in
    table order, one per record, each with an empty floor-match
    dictionary. *)
Theorem load_data_invariants (courses_df : list course_row)
    (rooms_df : list room_row) (courses : list Course.t)
    (rooms : list Room.t) :
  load_data courses_df rooms_df = Ok (courses, rooms) →
  Forall loaded_course_ok courses
  ∧ length rooms = length rooms_df
  ∧ Forall (λ room, Room.floor_matches room = ∅) rooms.
Proof.
  intros H. destruct (load_data_inv _ _ _ _ H) as [Hc Hr].
  split; [done|]. split.
  - symmetry. by eapply Forall2_length.
  - clear H Hc. induction Hr as [|rr room l1 l2 (_ & _ & _ & _ & He) _ IH];
      constructor; done.
Qed.

Lemma load_data_invariants_witness :
  ∃ courses rooms,
    load_data split_courses_df split_rooms_df = Ok (courses, rooms)
    ∧ Forall loaded_course_ok courses
    ∧ length rooms = length split_rooms_df
    ∧ Forall (λ room, Room.floor_matches room = ∅) rooms.
Proof.
  eexists _, _. split; [vm_compute; reflexivity|].
  apply (load_data_invariants split_courses_df split_rooms_df).
  vm_compute. reflexivity.
Defined.

Section AnySolver.
Variable solver : LpProblem → LpStatus * (var → Q).

(** X6. On well-formed tables in which no room has capacity 0, the run
    loads the tables, builds the model and returns without raising,
    whatever the solver answers; when the solver's status is not
    optimal the run reports no schedule and no analysis. *)
Theorem main_returns_on_well_formed_tables (courses_df : list course_row)
    (rooms_df : list room_row) :
  Forall (λ row, count_char "-" (row_time row) = 1%nat) courses_df →
  Forall (λ rr, rrow_type rr = "lab" ∨ rrow_type rr = "sala") rooms_df →
  Forall (λ rr, rrow_capacity rr ≠ 0) rooms_df →
  ∃ courses rooms model,
    load_data courses_df rooms_df = Ok (courses, rooms)
    ∧ _create_model (__init__ courses rooms) = Ok model
    ∧ is_ok (main solver courses_df rooms_df)
    ∧ ((solver model).1 ≠ LpStatusOptimal →
       main solver courses_df rooms_df = Ok None).
Proof.
  intros Hc Hr Hcap.
  destruct (rmap_is_ok load_course courses_df) as [gs Hgs].
  { eapply Forall_impl; [exact Hc|]. intros row Hrow.
    destruct (load_course_outcome row Hrow) as (g & Hg & _). by exists g. }
  destruct (rmap_is_ok load_room rooms_df) as [rs Hrs].
  { eapply Forall_impl; [exact Hr|]. apply load_room_ok. }
  assert (load_data courses_df rooms_df = Ok (mjoin gs, rs)) as Hload.
  { unfold load_data. by rewrite Hgs, Hrs. }
  destruct (load_data_inv _ _ _ _ Hload) as [Hok Hrooms].
  assert (Forall (λ c, length (Course.time_slots c) = 48%nat) (mjoin gs))
    as Hlen.
  { eapply Forall_impl; [exact Hok|]. by intros c (_ & [? _] & _). }
  assert (Forall (λ room, Room.capacity room ≠ 0) rs) as Hcap'.
  { clear Hload Hrs. induction Hrooms as [|rr room l1 l2 (_ & Hq & _) _ IH].
    - constructor.
    - apply Forall_cons in Hcap as [Hne Hcap].
      apply Forall_cons in Hr as [_ Hr].
      constructor; [congruence|by apply IH]. }
  destruct (_create_model_ok (mjoin gs) rs Hlen) as (sr & obj & _ & _ & Hm).
  eexists _, _, _. split; [exact Hload|]. split; [exact Hm|].
  unfold main. rewrite Hload. simpl. unfold optimize. rewrite Hm. simpl.
  destruct (solver _) as [status val]. simpl.
  destruct (_format_results_ok (mjoin gs) rs val Hcap') as [rows Hrows].
  destruct status; simpl; rewrite ?Hrows; simpl;
    (split; [destruct rows; by eexists || by eexists|]);
    intros Hne; done.
Qed.

End AnySolver.

Lemma main_returns_on_well_formed_tables_witness :
  is_ok (main (λ _, (LpStatusInfeasible, λ _, 0%Q))
           split_courses_df split_rooms_df)
  ∧ main (λ _, (LpStatusInfeasible, λ _, 0%Q))
      split_courses_df split_rooms_df = Ok None.
Proof.
  destruct (main_returns_on_well_formed_tables
              (λ _, (LpStatusInfeasible, λ _, 0%Q))
              split_courses_df split_rooms_df)
    as (courses & rooms & model & _ & _ & Hok & Hnone).
  - repeat constructor.
  - repeat constructor; by right.
  - repeat constructor; discriminate.
  - split; [exact Hok|]. apply Hnone. discriminate.
Defined.

End LoadedTables.

(** ** What a feasible point of the built model guarantees *)

(** Proves a concrete [feasible] goal by evaluating every declaration
    and every constraint. *)
Ltac normalize_list :=
  match goal with
  | |- Forall _ ?l => let l' := eval vm_compute in l in change l with l'
  end.

Ltac prove_feasible :=
  split;
  [ normalize_list;
    repeat (apply Forall_cons; split;
            [apply in_domain_integer; vm_compute; reflexivity|]);
    apply Forall_nil_2
  | normalize_list;
    repeat (apply Forall_cons; split; [by vm_compute|]);
    apply Forall_nil_2 ].

Ltac prove_binary_vectors :=
  normalize_list;
  repeat (apply Forall_cons; split;
          [split; [reflexivity|];
           repeat (apply Forall_cons; split; [first [by left | by right]|]);
           apply Forall_nil_2|]);
  apply Forall_nil_2.

Section FeasiblePoints.
Import ScheduleOptimizer.

Lemma create_model_inv (self : t) (model : LpProblem) :
  _create_model self = Ok model →
  ∃ slot_rows,
    no_double_booking self = Ok slot_rows
    ∧ constraints model =
        completeness self ++ slot_rows ++ room_type_constraints self
        ++ distance_constraints self ++ capacity_constraints self
        ++ blocked_constraints self.
Proof.
  unfold _create_model, _create_constraints.
  destruct (no_double_booking self) as [sr|e]; simpl; [|discriminate].
  destruct (_create_objective_function self) as [obj|e]; simpl;
    [|discriminate].
  intros [= <-]. by exists sr.
Qed.

(** Sums of non-negative summands. *)
Lemma lpSum_nonneg (val : var → Q) (es : list LpAffineExpression) :
  Forall (λ e, (0 <= eval val e)%Q) es → (0 <= eval val (lpSum es))%Q.
Proof.
  induction 1 as [|e es He _ IH]; simpl in *; lra.
Qed.

Lemma lpSum_ge_elem (val : var → Q) (es : list LpAffineExpression)
    (i : nat) (e : LpAffineExpression) :
  Forall (λ e, (0 <= eval val e)%Q) es → es !! i = Some e →
  (eval val e <= eval val (lpSum es))%Q.
Proof.
  intros Hnn. revert i.
  induction Hnn as [|e0 es He Hes IH]; intros i Hi; [done|].
  destruct i as [|i]; simpl in Hi.
  - injection Hi as ->. pose proof (lpSum_nonneg val es Hes) as Hs.
    change (eval val e <= eval val e + eval val (lpSum es))%Q. lra.
  - specialize (IH i Hi).
    change (eval val e <= eval val e0 + eval val (lpSum es))%Q. lra.
Qed.

Lemma lpSum_ge_two (val : var → Q) (es : list LpAffineExpression)
    (i j : nat) (e1 e2 : LpAffineExpression) :
  Forall (λ e, (0 <= eval val e)%Q) es →
  es !! i = Some e1 → es !! j = Some e2 → i ≠ j →
  (eval val e1 + eval val e2 <= eval val (lpSum es))%Q.
Proof.
  intros Hnn. revert i j.
  induction Hnn as [|e0 es He Hes IH]; intros i j Hi Hj Hne; [done|].
  change (eval val e1 + eval val e2
          <= eval val e0 + eval val (lpSum es))%Q.
  destruct i as [|i], j as [|j]; simpl in Hi, Hj; try done.
  - injection Hi as ->.
    pose proof (lpSum_ge_elem val es j e2 Hes Hj). lra.
  - injection Hj as ->.
    pose proof (lpSum_ge_elem val es i e1 Hes Hi). lra.
  - assert (i ≠ j) as Hne' by congruence.
    specialize (IH i j Hi Hj Hne'). lra.
Qed.

Section Point.
Variables (self : t) (model : LpProblem) (val : var → Q).
Hypothesis Hmodel : _create_model self = Ok model.
Hypothesis Hfeasible : feasible (_create_decision_variables self) model val.

Lemma feasible_x_binary (d r : nat) :
  (d < length (courses self))%nat → (r < length (rooms self))%nat →
  (val (Var_x d r) == 0)%Q ∨ (val (Var_x d r) == 1)%Q.
Proof.
  intros Hd Hr. destruct Hfeasible as [Hdom _].
  rewrite Forall_forall in Hdom.
  by apply binary_value, Hdom, binary_x_elem.
Qed.

Lemma feasible_holds (c : LpConstraint) :
  c ∈ constraints model → holds val c.
Proof.
  intros Hc. destruct Hfeasible as [_ Hcs].
  rewrite Forall_forall in Hcs. by apply Hcs.
Qed.

Lemma feasible_x_row_nonneg (d : nat) :
  (d < length (courses self))%nat →
  Forall (λ e, (0 <= eval val e)%Q)
         (imap (λ r _, Var (Var_x d r)) (rooms self)).
Proof.
  intros Hd. apply Forall_imap. intros r room Hr. simpl.
  apply lookup_lt_Some in Hr.
  destruct (feasible_x_binary d r Hd Hr) as [H|H]; lra.
Qed.

Lemma feasible_one_room (d : nat) (course : Course.t) :
  courses self !! d = Some course →
  ∃ r room,
    rooms self !! r = Some room
    ∧ (val (Var_x d r) == 1)%Q
    ∧ ∀ r', r' ≠ r → (r' < length (rooms self))%nat →
        (val (Var_x d r') == 0)%Q.
Proof.
  intros Hd.
  destruct (create_model_inv self model Hmodel) as (sr & _ & Hcs).
  destruct Hfeasible as [Hdom Hall].
  destruct (feasible_assigns self (constraints model) val d course Hd Hdom Hall)
    as (r & room & Hr & Hx).
  { rewrite Hcs. set_solver. }
  exists r, room. split; [done|]. split; [done|].
  intros r' Hne Hr'.
  assert (d < length (courses self))%nat as Hdl by (by eapply lookup_lt_Some).
  assert (holds val (LpEQ (lpSum (imap (λ r _, Var (Var_x d r)) (rooms self)))
                          (Const 1))) as Hsum.
  { apply feasible_holds. rewrite Hcs.
    apply elem_of_app. left. by eapply completeness_elem. }
  simpl in Hsum.
  destruct (lookup_lt_is_Some_2 (rooms self) r' Hr') as [room' Hroom'].
  pose proof (lpSum_ge_two val (imap (λ r _, Var (Var_x d r)) (rooms self))
                r r' (Var (Var_x d r)) (Var (Var_x d r'))
                (feasible_x_row_nonneg d Hdl)) as Htwo.
  rewrite !list_lookup_imap, Hr, Hroom' in Htwo.
  specialize (Htwo eq_refl eq_refl (not_eq_sym Hne)). simpl in Htwo.
  destruct (feasible_x_binary d r' Hdl Hr') as [H|H]; [done|]. lra.
Qed.

End Point.

(** X7. In every feasible point of the built model each course sits in
    exactly one room: one assignment variable of the course is 1 and all
    its others are 0. *)
Theorem feasible_point_assigns_exactly_one_room
    (self : t) (model : LpProblem) (val : var → Q)
    (d : nat) (course : Course.t) :
  _create_model self = Ok model →
  feasible (_create_decision_variables self) model val →
  courses self !! d = Some course →
  ∃ r room,
    rooms self !! r = Some room
    ∧ (val (Var_x d r) == 1)%Q
    ∧ ∀ r', r' ≠ r → (r' < length (rooms self))%nat →
        (val (Var_x d r') == 0)%Q.
Proof. intros Hm Hf. by apply (feasible_one_room self model val). Qed.

Lemma feasible_point_assigns_exactly_one_room_witness :
  ∃ r room,
    rooms split_optimizer !! r = Some room
    ∧ (split_assignment (Var_x 1 r) == 1)%Q
    ∧ ∀ r', r' ≠ r → (r' < length (rooms split_optimizer))%nat →
        (split_assignment (Var_x 1 r') == 0)%Q.
Proof.
  destruct (feasible_point_assigns_exactly_one_room
              split_optimizer split_model split_assignment 1
              (default scenario4_course (courses split_optimizer !! 1%nat)))
    as (r & room & H); [vm_compute; reflexivity|prove_feasible|
                        vm_compute; reflexivity|].
  by exists r, room.
Defined.


Lemma room_indices_elem (P : Room.t → bool) (rooms : list Room.t)
    (r : nat) (room : Room.t) :
  rooms !! r = Some room → P room = true → r ∈ room_indices P rooms.
Proof.
  intros Hr HP. unfold room_indices. apply list_elem_of_fmap.
  exists (r, room). split; [done|]. apply list_elem_of_filter.
  split; [done|].
  apply (elem_of_lookup_imap_2 (λ r room, (r, room)) _ _ _ Hr).
Qed.

Lemma room_indices_inv (P : Room.t → bool) (rooms : list Room.t) (r : nat) :
  r ∈ room_indices P rooms →
  ∃ room, rooms !! r = Some room ∧ P room = true.
Proof.
  unfold room_indices. intros Hr.
  apply list_elem_of_fmap in Hr as ([i room] & -> & Hin).
  apply list_elem_of_filter in Hin as [HP Hin].
  apply elem_of_lookup_imap in Hin as (j & room' & [= -> ->] & Hl).
  by exists room'.
Qed.

Lemma overrun_elem (self : t) (d r : nat) (course : Course.t) (room : Room.t) :
  courses self !! d = Some course → rooms self !! r = Some room →
  overrun_constraint d r course room ∈ capacity_constraints self.
Proof.
  intros Hd Hr. unfold capacity_constraints.
  apply list_elem_of_join. eexists. split; last first.
  { apply (elem_of_lookup_imap_2 _ _ _ _ Hd). }
  simpl. apply list_elem_of_join. eexists. split; last first.
  { apply (elem_of_lookup_imap_2 _ _ _ _ Hr). }
  simpl. set_solver.
Qed.

Section PointCapacity.
Variables (self : t) (model : LpProblem) (val : var → Q).
Hypothesis Hmodel : _create_model self = Ok model.
Hypothesis Hfeasible : feasible (_create_decision_variables self) model val.

Lemma feasible_x_column_nonneg (r : nat) :
  (r < length (rooms self))%nat →
  Forall (λ e, (0 <= eval val e)%Q)
         (imap (λ d _, Var (Var_x d r)) (courses self)).
Proof.
  intros Hr. apply Forall_imap. intros d c Hd. simpl.
  apply lookup_lt_Some in Hd.
  destruct (feasible_x_binary self model val Hfeasible d r Hd Hr) as [H|H];
    lra.
Qed.

Lemma feasible_blocked_unused (d r : nat) (course : Course.t) (room : Room.t) :
  courses self !! d = Some course → rooms self !! r = Some room →
  Room.is_blocked room = true → (val (Var_x d r) == 0)%Q.
Proof.
  intros Hd Hr Hblocked.
  destruct (create_model_inv self model Hmodel) as (sr & _ & Hcs).
  assert (holds val (LpEQ (lpSum (imap (λ d _, Var (Var_x d r)) (courses self)))
                          (Const 0))) as Hsum.
  { apply (feasible_holds self model val Hfeasible). rewrite Hcs.
    do 5 (apply elem_of_app; right). unfold blocked_constraints.
    apply (list_elem_of_fmap_2
             (λ r, LpEQ (lpSum (imap (λ d _, Var (Var_x d r)) (courses self)))
                        (Const 0))).
    exact (room_indices_elem Room.is_blocked (rooms self) r room Hr Hblocked). }
  simpl in Hsum.
  assert (r < length (rooms self))%nat as Hrl by (by eapply lookup_lt_Some).
  pose proof (lpSum_ge_elem val _ d (Var (Var_x d r))
                (feasible_x_column_nonneg r Hrl)) as Hle.
  rewrite list_lookup_imap, Hd in Hle. specialize (Hle eq_refl).
  simpl in Hle.
  assert (d < length (courses self))%nat as Hdl by (by eapply lookup_lt_Some).
  destruct (feasible_x_binary self model val Hfeasible d r Hdl Hrl) as [H|H];
    [done|]. lra.
Qed.

Lemma feasible_ceiling (d r : nat) (course : Course.t) (room : Room.t) :
  courses self !! d = Some course → rooms self !! r = Some room →
  (inject_Z (Course.class_size course)
   <= inject_Z (Room.capacity room) * (12 # 10)
      + 9999 * (1 - val (Var_x d r)))%Q.
Proof.
  intros Hd Hr.
  destruct (create_model_inv self model Hmodel) as (sr & _ & Hcs).
  assert (holds val (ceiling_constraint d r course room)) as Hh.
  { apply (feasible_holds self model val Hfeasible). rewrite Hcs.
    do 4 (apply elem_of_app; right). apply elem_of_app. left.
    by apply ceiling_elem. }
  exact Hh.
Qed.

Lemma feasible_overrun (d r : nat) (course : Course.t) (room : Room.t) :
  courses self !! d = Some course → rooms self !! r = Some room →
  (inject_Z (Course.class_size course - Room.capacity room)
   * val (Var_x d r) <= val (Var_z d r))%Q.
Proof.
  intros Hd Hr.
  destruct (create_model_inv self model Hmodel) as (sr & _ & Hcs).
  assert (holds val (overrun_constraint d r course room)) as Hh.
  { apply (feasible_holds self model val Hfeasible). rewrite Hcs.
    do 4 (apply elem_of_app; right). apply elem_of_app. left.
    by apply overrun_elem. }
  exact Hh.
Qed.

End PointCapacity.

(** X8. In every feasible point of the built model no course is assigned
    to a blocked room. *)
Theorem feasible_point_avoids_blocked_rooms
    (self : t) (model : LpProblem) (val : var → Q)
    (d r : nat) (course : Course.t) (room : Room.t) :
  _create_model self = Ok model →
  feasible (_create_decision_variables self) model val →
  courses self !! d = Some course → rooms self !! r = Some room →
  Room.is_blocked room = true →
  (val (Var_x d r) == 0)%Q.
Proof. intros Hm Hf. by apply (feasible_blocked_unused self model val). Qed.

(** X9. In every feasible point of the built model a course assigned to a
    room is at most 20% over that room's capacity (5 * size <= 6 *
    capacity), and the overrun slack of the pair is at least
    size - capacity. *)
Theorem feasible_point_respects_capacity_tolerance
    (self : t) (model : LpProblem) (val : var → Q)
    (d r : nat) (course : Course.t) (room : Room.t) :
  _create_model self = Ok model →
  feasible (_create_decision_variables self) model val →
  courses self !! d = Some course → rooms self !! r = Some room →
  (val (Var_x d r) == 1)%Q →
  5 * Course.class_size course ≤ 6 * Room.capacity room
  ∧ (inject_Z (Course.class_size course - Room.capacity room)
     <= val (Var_z d r))%Q.
Proof.
  intros Hm Hf Hd Hr Hx.
  pose proof (feasible_ceiling self model val Hm Hf d r course room Hd Hr) as Hc.
  pose proof (feasible_overrun self model val Hm Hf d r course room Hd Hr) as Ho.
  split.
  - assert (inject_Z (Course.class_size course)
            <= inject_Z (Room.capacity room) * (12 # 10))%Q as Hle by lra.
    unfold Qle in Hle. simpl in Hle. lia.
  - rewrite Hx in Ho. lra.
Qed.

(** X10. The constant 9999 bounds every pair, chosen or not: when some
    course is larger than 1.2 times the capacity of some room plus 9999,
    the built model has no feasible point, whatever other rooms there
    are. *)
Theorem oversized_course_for_any_room_infeasible
    (self : t) (model : LpProblem) (val : var → Q)
    (d r : nat) (course : Course.t) (room : Room.t) :
  _create_model self = Ok model →
  courses self !! d = Some course → rooms self !! r = Some room →
  (inject_Z (Room.capacity room) * (12 # 10) + 9999
   < inject_Z (Course.class_size course))%Q →
  ¬ feasible (_create_decision_variables self) model val.
Proof.
  intros Hm Hd Hr Hbig Hf.
  pose proof (feasible_ceiling self model val Hm Hf d r course room Hd Hr) as Hc.
  assert (d < length (courses self))%nat as Hdl by (by eapply lookup_lt_Some).
  assert (r < length (rooms self))%nat as Hrl by (by eapply lookup_lt_Some).
  destruct (feasible_x_binary self model val Hf d r Hdl Hrl) as [H|H]; lra.
Qed.

Lemma feasible_point_avoids_blocked_rooms_witness :
  (blocked_assignment (Var_x 0 0) == 0)%Q.
Proof.
  apply (feasible_point_avoids_blocked_rooms
           blocked_optimizer blocked_model blocked_assignment 0 0
           (default scenario4_course (courses blocked_optimizer !! 0%nat))
           (default scenario4_room (rooms blocked_optimizer !! 0%nat)));
    [vm_compute; reflexivity | prove_feasible | vm_compute; reflexivity
    | vm_compute; reflexivity | vm_compute; reflexivity].
Defined.

Lemma feasible_point_respects_capacity_tolerance_witness :
  5 * 60 ≤ 6 * 70
  ∧ (inject_Z (60 - 70) <= split_assignment (Var_z 0 0))%Q.
Proof.
  refine (feasible_point_respects_capacity_tolerance
            split_optimizer split_model split_assignment 0 0
            (default scenario4_course (courses split_optimizer !! 0%nat))
            (default scenario4_room (rooms split_optimizer !! 0%nat))
            _ _ _ _ _);
    [vm_compute; reflexivity | prove_feasible | vm_compute; reflexivity
    | vm_compute; reflexivity | vm_compute; reflexivity].
Defined.

Lemma oversized_course_for_any_room_infeasible_witness :
  ¬ feasible (_create_decision_variables oversized_optimizer)
      oversized_model (λ _, 0%Q).
Proof.
  apply (oversized_course_for_any_room_infeasible
           oversized_optimizer oversized_model (λ _, 0%Q) 0 0
           (default scenario4_course (courses oversized_optimizer !! 0%nat))
           (default scenario4_room (rooms oversized_optimizer !! 0%nat)));
    [vm_compute; reflexivity | vm_compute; reflexivity
    | vm_compute; reflexivity | vm_compute; reflexivity].
Defined.

(** The double-booking row of room [r] and slot [h]: one summand per
    course, the course's entry for the slot times its assignment to the
    room. *)
Lemma no_double_booking_inv (self : t) (slot_rows : list LpConstraint)
    (r h : nat) :
  no_double_booking self = Ok slot_rows →
  (r < length (rooms self))%nat → (h < 48)%nat →
  ∃ terms,
    LpLE (lpSum terms) (Const 1) ∈ slot_rows
    ∧ Forall2 (λ (p : nat * Course.t) e,
                 ∃ s, Course.time_slots p.2 !! h = Some s
                      ∧ e = Scale (inject_Z s) (Var (Var_x p.1 r)))
              (imap (λ d c, (d, c)) (courses self)) terms.
Proof.
  unfold no_double_booking.
  match goal with
  | |- rbind ?m _ = _ → _ => destruct m as [blocks|e] eqn:Hb
  end; simpl; [|discriminate].
  intros [= <-] Hr Hh.
  apply rmap_ok_inv in Hb.
  destruct (Forall2_lookup_l _ _ _ r r Hb) as (block & Hblock & Hrow).
  { by apply lookup_seq_lt. }
  cbv beta in Hrow. apply rmap_ok_inv in Hrow.
  destruct (Forall2_lookup_l _ _ _ h h Hrow) as (c & Hc & Hbody).
  { by apply lookup_seq_lt. }
  cbv beta in Hbody.
  match type of Hbody with
  | rbind ?m _ = _ => destruct m as [terms|e] eqn:Ht
  end; simpl in Hbody; [|discriminate].
  injection Hbody as <-.
  exists terms. split.
  - apply list_elem_of_join. exists block.
    split; apply list_elem_of_lookup; eauto.
  - apply rmap_ok_inv in Ht.
    eapply Forall2_impl; [exact Ht|].
    intros [d c] e He. simpl in *. unfold list_getitem in He.
    destruct (Course.time_slots c !! h) as [s|]; simpl in He; [|discriminate].
    injection He as <-. by exists s.
Qed.

Lemma NoDup_room_indices (P : Room.t → bool) (rooms : list Room.t) :
  NoDup (room_indices P rooms).
Proof.
  unfold room_indices. apply NoDup_fmap_2_strong.
  - intros [i a] [j b] Hi Hj Hij. simpl in Hij. subst j.
    apply list_elem_of_filter in Hi as [_ Hi].
    apply list_elem_of_filter in Hj as [_ Hj].
    apply elem_of_lookup_imap in Hi as (i1 & a1 & [= -> ->] & Ha).
    apply elem_of_lookup_imap in Hj as (i2 & b1 & [= -> ->] & Hb).
    congruence.
  - apply NoDup_filter, NoDup_alt. intros i j [k a] Hi Hj.
    rewrite list_lookup_imap in Hi, Hj.
    destruct (rooms !! i); [|done]. destruct (rooms !! j); [|done].
    simpl in *. congruence.
Qed.

(** A sum of assignment variables of one course over distinct rooms,
    when the course sits in room [r] and nowhere else. *)
Lemma lpSum_assigned (val : var → Q) (d r : nat) (l : list nat) :
  NoDup l → (val (Var_x d r) == 1)%Q →
  (∀ r', r' ∈ l → r' ≠ r → (val (Var_x d r') == 0)%Q) →
  (eval val (lpSum ((λ r, Var (Var_x d r)) <$> l))
   == if bool_decide (r ∈ l) then 1 else 0)%Q.
Proof.
  intros Hnd Hx. induction Hnd as [|a l Ha Hnd IH]; intros Hz.
  - simpl. reflexivity.
  - change (val (Var_x d a)
            + eval val (lpSum ((λ r, Var (Var_x d r)) <$> l))
            == if bool_decide (r ∈ a :: l) then 1 else 0)%Q.
    rewrite IH by (intros r' Hr'; apply Hz; by apply elem_of_cons; right).
    destruct (decide (a = r)) as [->|Hne].
    + rewrite Hx, (bool_decide_eq_false_2 (r ∈ l)) by done.
      rewrite bool_decide_eq_true_2 by (by apply elem_of_cons; left).
      reflexivity.
    + rewrite (Hz a) by (by apply elem_of_cons; left) || done.
      destruct (decide (r ∈ l)) as [Hin|Hnin].
      * rewrite (bool_decide_eq_true_2 (r ∈ l)) by done.
        rewrite bool_decide_eq_true_2 by (by apply elem_of_cons; right).
        reflexivity.
      * rewrite (bool_decide_eq_false_2 (r ∈ l)) by done.
        rewrite bool_decide_eq_false_2
          by (apply not_elem_of_cons; split; [congruence|done]).
        reflexivity.
Qed.

Section PointSlots.
Variables (self : t) (model : LpProblem) (val : var → Q).
Hypothesis Hmodel : _create_model self = Ok model.
Hypothesis Hfeasible : feasible (_create_decision_variables self) model val.

Lemma feasible_no_double_booking (d1 d2 r : nat) (c1 c2 : Course.t) :
  Forall (λ c, binary_vector (Course.time_slots c)) (courses self) →
  courses self !! d1 = Some c1 → courses self !! d2 = Some c2 → d1 ≠ d2 →
  (r < length (rooms self))%nat →
  (val (Var_x d1 r) == 1)%Q → (val (Var_x d2 r) == 1)%Q →
  TimeSlotManager.has_conflict (Course.time_slots c1) (Course.time_slots c2)
  = false.
Proof.
  intros Hbin Hd1 Hd2 Hne Hr Hx1 Hx2.
  destruct (TimeSlotManager.has_conflict _ _) eqn:Hconf; [|done]. exfalso.
  apply has_conflict_index in Hconf as (h & a & b & Ha & Hb & Hna & Hnb).
  rewrite Forall_forall in Hbin.
  assert (c1 ∈ courses self) as Hin1 by (apply list_elem_of_lookup; eauto).
  assert (c2 ∈ courses self) as Hin2 by (apply list_elem_of_lookup; eauto).
  destruct (Hbin c1 Hin1) as [Hlen1 Hent1].
  destruct (Hbin c2 Hin2) as [Hlen2 Hent2].
  assert (h < 48)%nat as Hh.
  { apply lookup_lt_Some in Ha. lia. }
  assert (a = 1) as ->.
  { rewrite Forall_forall in Hent1.
    destruct (Hent1 a) as [?|?]; [apply list_elem_of_lookup; eauto|done|done]. }
  assert (b = 1) as ->.
  { rewrite Forall_forall in Hent2.
    destruct (Hent2 b) as [?|?]; [apply list_elem_of_lookup; eauto|done|done]. }
  destruct (create_model_inv self model Hmodel) as (sr & Hsr & Hcs).
  destruct (no_double_booking_inv self sr r h Hsr Hr Hh)
    as (terms & Hrow & Hterms).
  assert (holds val (LpLE (lpSum terms) (Const 1))) as Hle.
  { apply (feasible_holds self model val Hfeasible). rewrite Hcs.
    apply elem_of_app. right. apply elem_of_app. by left. }
  simpl in Hle.
  assert (Forall (λ e, (0 <= eval val e)%Q) terms) as Hnn.
  { apply Forall_forall. intros e He.
    apply list_elem_of_lookup in He as [i Hi].
    destruct (Forall2_lookup_r _ _ _ i e Hterms Hi) as ([d c] & Hp & s & Hs & ->).
    rewrite list_lookup_imap in Hp.
    destruct (courses self !! i) as [c'|] eqn:Hci; [|done].
    injection Hp as <- <-. simpl in *.
    assert (c' ∈ courses self) as Hin by (apply list_elem_of_lookup; eauto).
    destruct (Hbin c' Hin) as [_ Hent]. rewrite Forall_forall in Hent.
    assert (s = 0 ∨ s = 1) as Hs01.
    { apply Hent, list_elem_of_lookup. eauto. }
    assert (i < length (courses self))%nat as Hil by (by eapply lookup_lt_Some).
    destruct (feasible_x_binary self model val Hfeasible i r Hil Hr) as [H|H];
      destruct Hs01 as [-> | ->]; simpl; unfold inject_Z; rewrite H; lra. }
  destruct (Forall2_lookup_l _ _ _ d1 (d1, c1) Hterms)
    as (e1 & He1 & s1 & Hs1 & ->).
  { by rewrite list_lookup_imap, Hd1. }
  destruct (Forall2_lookup_l _ _ _ d2 (d2, c2) Hterms)
    as (e2 & He2 & s2 & Hs2 & ->).
  { by rewrite list_lookup_imap, Hd2. }
  simpl in Hs1, Hs2. rewrite Ha in Hs1. rewrite Hb in Hs2.
  injection Hs1 as <-. injection Hs2 as <-.
  pose proof (lpSum_ge_two val terms d1 d2 _ _ Hnn He1 He2 Hne) as Htwo.
  simpl in Htwo. rewrite Hx1, Hx2 in Htwo. unfold inject_Z in Htwo. lra.
Qed.

Lemma feasible_lab_indicator (d r : nat) (course : Course.t) (room : Room.t) :
  courses self !! d = Some course → rooms self !! r = Some room →
  (val (Var_x d r) == 1)%Q →
  if Course.requires_lab course
  then (val (Var_w_lab d) == if is_lab room then 0 else 1)%Q
  else (val (Var_w_sala d) == if is_lab room then 1 else 0)%Q.
Proof.
  intros Hd Hr Hx.
  destruct (create_model_inv self model Hmodel) as (sr & _ & Hcs).
  destruct (feasible_one_room self model val Hmodel Hfeasible d course Hd)
    as (r0 & room0 & Hr0 & Hx0 & Huniq).
  assert (r < length (rooms self))%nat as Hrl by (by eapply lookup_lt_Some).
  assert (r0 = r) as ->.
  { destruct (decide (r0 = r)) as [|Hne]; [done|]. exfalso.
    specialize (Huniq r (not_eq_sym Hne) Hrl). lra. }
  pose proof (lpSum_assigned val d r (room_indices is_lab (rooms self))
                (NoDup_room_indices _ _) Hx) as Hsum.
  assert (∀ r', r' ∈ room_indices is_lab (rooms self) → r' ≠ r →
            (val (Var_x d r') == 0)%Q) as Hz.
  { intros r' Hin Hne. apply Huniq; [done|].
    apply room_indices_inv in Hin as (room' & Hroom' & _).
    by eapply lookup_lt_Some. }
  specialize (Hsum Hz).
  assert (bool_decide (r ∈ room_indices is_lab (rooms self)) = is_lab room)
    as Hmem.
  { destruct (is_lab room) eqn:Hlab.
    - apply bool_decide_eq_true_2.
      exact (room_indices_elem is_lab (rooms self) r room Hr Hlab).
    - apply bool_decide_eq_false_2. intros Hin.
      apply room_indices_inv in Hin as (room' & Hroom' & Hlab').
      congruence. }
  rewrite Hmem in Hsum.
  pose proof (elem_of_lookup_imap_2
                (λ d course,
                   if Course.requires_lab course
                   then LpEQ (Var (Var_w_lab d))
                          (Minus (Const 1)
                             (lpSum ((λ r, Var (Var_x d r))
                                       <$> room_indices is_lab (rooms self))))
                   else LpEQ (Var (Var_w_sala d))
                          (lpSum ((λ r, Var (Var_x d r))
                                    <$> room_indices is_lab (rooms self))))
                (courses self) course d Hd) as Hin.
  assert (holds val
            (if Course.requires_lab course
             then LpEQ (Var (Var_w_lab d))
                    (Minus (Const 1)
                       (lpSum ((λ r, Var (Var_x d r))
                                 <$> room_indices is_lab (rooms self))))
             else LpEQ (Var (Var_w_sala d))
                    (lpSum ((λ r, Var (Var_x d r))
                              <$> room_indices is_lab (rooms self))))) as Hh.
  { apply (feasible_holds self model val Hfeasible). rewrite Hcs.
    do 2 (apply elem_of_app; right). apply elem_of_app. by left. }
  destruct (Course.requires_lab course); simpl in Hh;
    rewrite Hsum in Hh; destruct (is_lab room); lra.
Qed.

End PointSlots.

(** X11. In every feasible point of the built model two different courses
    placed in the same room have no slot in common. *)
Theorem feasible_point_has_no_double_booking
    (self : t) (model : LpProblem) (val : var → Q)
    (d1 d2 r : nat) (c1 c2 : Course.t) :
  _create_model self = Ok model →
  feasible (_create_decision_variables self) model val →
  Forall (λ c, binary_vector (Course.time_slots c)) (courses self) →
  courses self !! d1 = Some c1 → courses self !! d2 = Some c2 → d1 ≠ d2 →
  (r < length (rooms self))%nat →
  (val (Var_x d1 r) == 1)%Q → (val (Var_x d2 r) == 1)%Q →
  TimeSlotManager.has_conflict (Course.time_slots c1) (Course.time_slots c2)
  = false.
Proof.
  intros Hm Hf. by apply (feasible_no_double_booking self model val).
Qed.

(** X12. In every feasible point of the built model the mismatch indicator
    of a course reads off its room: for a course that requires a lab,
    w_lab is 1 exactly when its room is not a lab; for any other course,
    w_sala is 1 exactly when its room is a lab. *)
Theorem feasible_point_mismatch_indicators
    (self : t) (model : LpProblem) (val : var → Q)
    (d r : nat) (course : Course.t) (room : Room.t) :
  _create_model self = Ok model →
  feasible (_create_decision_variables self) model val →
  courses self !! d = Some course → rooms self !! r = Some room →
  (val (Var_x d r) == 1)%Q →
  if Course.requires_lab course
  then (val (Var_w_lab d) == if is_lab room then 0 else 1)%Q
  else (val (Var_w_sala d) == if is_lab room then 1 else 0)%Q.
Proof.
  intros Hm Hf. by apply (feasible_lab_indicator self model val).
Qed.

Lemma feasible_point_has_no_double_booking_witness :
  TimeSlotManager.has_conflict
    (Course.time_slots
       (default scenario4_course (courses shared_optimizer !! 0%nat)))
    (Course.time_slots
       (default scenario4_course (courses shared_optimizer !! 1%nat)))
  = false.
Proof.
  refine (feasible_point_has_no_double_booking
            shared_optimizer shared_model shared_assignment 0 1 0
            (default scenario4_course (courses shared_optimizer !! 0%nat))
            (default scenario4_course (courses shared_optimizer !! 1%nat))
            _ _ _ _ _ _ _ _ _);
    [vm_compute; reflexivity | prove_feasible | prove_binary_vectors
    | vm_compute; reflexivity | vm_compute; reflexivity | lia
    | vm_compute; lia | vm_compute; reflexivity | vm_compute; reflexivity].
Defined.

Lemma feasible_point_mismatch_indicators_witness :
  (blocked_assignment (Var_w_sala 0) == 1)%Q.
Proof.
  refine (feasible_point_mismatch_indicators
            blocked_optimizer blocked_model blocked_assignment 0 1
            (default scenario4_course (courses blocked_optimizer !! 0%nat))
            (default scenario4_room (rooms blocked_optimizer !! 1%nat))
            _ _ _ _ _);
    [vm_compute; reflexivity | prove_feasible | vm_compute; reflexivity
    | vm_compute; reflexivity | vm_compute; reflexivity].
Defined.

(** *** The schedule extracted from a feasible point *)

Lemma mjoin_all_nil {A : Type} (ls : list (list A)) :
  (∀ j l, ls !! j = Some l → l = []) → mjoin ls = [].
Proof.
  induction ls as [|l0 ls IH]; intros H; [done|].
  rewrite (H 0%nat l0 eq_refl). simpl. apply IH.
  intros j l Hj. by apply (H (S j)).
Qed.

Lemma mjoin_single {A : Type} (ls : list (list A)) (i : nat) (x : A) :
  ls !! i = Some [x] →
  (∀ j l, j ≠ i → ls !! j = Some l → l = []) →
  mjoin ls = [x].
Proof.
  revert i. induction ls as [|l0 ls IH]; intros i Hi Hz; [done|].
  destruct i as [|i]; simpl in Hi.
  - injection Hi as ->. simpl. rewrite mjoin_all_nil; [done|].
    intros j l Hj. by apply (Hz (S j)).
  - rewrite (Hz 0%nat l0) by done. simpl. apply (IH i Hi).
    intros j l Hne Hj. apply (Hz (S j)); [congruence|done].
Qed.

Lemma format_row_inv (course : Course.t) (room : Room.t) (rw : row) :
  format_row course room = Ok rw →
  Curso rw = Course.course_code course
  ∧ Disciplina rw = Course.name course
  ∧ Sala rw = Room.name room
  ∧ Dia rw = Course.day course
  ∧ Horario rw = Course.time course
  ∧ Tamanho_Turma rw = Course.class_size course
  ∧ Capacidade_Sala rw = Room.capacity room
  ∧ Mismatch rw = xorb (Course.requires_lab course) (is_lab room).
Proof.
  unfold format_row.
  destruct (Room.get_floor_match room (Course.name course)); simpl;
    [|discriminate].
  destruct (truediv (Course.class_size course) (Room.capacity room)); simpl;
    [|discriminate].
  intros [= <-]. simpl. repeat split.
  by destruct (Course.requires_lab course), (is_lab room).
Qed.

Section PointSchedule.
Variables (self : t) (model : LpProblem) (val : var → Q).
Hypothesis Hmodel : _create_model self = Ok model.
Hypothesis Hfeasible : feasible (_create_decision_variables self) model val.

Lemma feasible_course_rows (d : nat) (course : Course.t) (g : list row) :
  courses self !! d = Some course →
  (let* rows :=
     rmap (λ q : nat * Room.t,
             if Qeq_bool (val (Var_x d q.1)) 1
             then let* rw := format_row course q.2 in Ok [rw]
             else Ok [])
          (imap (λ r room, (r, room)) (rooms self)) in
   Ok (mjoin rows)) = Ok g →
  ∃ rw r room,
    g = [rw] ∧ rooms self !! r = Some room
    ∧ (val (Var_x d r) == 1)%Q ∧ format_row course room = Ok rw.
Proof.
  intros Hd.
  match goal with
  | |- rbind ?m _ = _ → _ => destruct m as [rowsl|e] eqn:Hrows
  end; simpl; [|discriminate].
  intros [= <-]. apply rmap_ok_inv in Hrows.
  destruct (feasible_one_room self model val Hmodel Hfeasible d course Hd)
    as (r & room & Hr & Hx & Huniq).
  destruct (Forall2_lookup_l _ _ _ r (r, room) Hrows) as (l & Hl & Hbody).
  { by rewrite list_lookup_imap, Hr. }
  simpl in Hbody.
  rewrite (proj2 (Qeq_bool_iff _ _) Hx) in Hbody.
  destruct (format_row course room) as [rw|e] eqn:Hrw; simpl in Hbody;
    [|discriminate].
  injection Hbody as <-.
  exists rw, r, room. split; [|done].
  apply (mjoin_single rowsl r rw Hl).
  intros j l Hne Hj.
  destruct (Forall2_lookup_r _ _ _ j l Hrows Hj) as ([j' room'] & Hq & Hbody).
  rewrite list_lookup_imap in Hq.
  destruct (rooms self !! j) as [rj|] eqn:Hrj; [|done].
  injection Hq as <- <-. simpl in Hbody.
  assert (val (Var_x d j) == 0)%Q as Hz.
  { apply Huniq; [done|]. by eapply lookup_lt_Some. }
  destruct (Qeq_bool (val (Var_x d j)) 1) eqn:Hb.
  - apply Qeq_bool_iff in Hb. lra.
  - by injection Hbody as <-.
Qed.

Lemma feasible_schedule_rows (rows : list row) :
  _format_results self val = Ok rows →
  Forall2 (λ (p : nat * Course.t) rw,
             ∃ r room,
               rooms self !! r = Some room
               ∧ (val (Var_x p.1 r) == 1)%Q
               ∧ format_row p.2 room = Ok rw)
          (imap (λ d c, (d, c)) (courses self)) rows.
Proof.
  unfold _format_results.
  match goal with
  | |- rbind ?m _ = _ → _ => destruct m as [groups|e] eqn:Hg
  end; simpl; [|discriminate].
  intros [= <-]. apply rmap_ok_inv in Hg.
  assert (Forall2 (λ (p : nat * Course.t) g,
                     ∃ rw r room,
                       g = [rw] ∧ rooms self !! r = Some room
                       ∧ (val (Var_x p.1 r) == 1)%Q
                       ∧ format_row p.2 room = Ok rw)
                  (imap (λ d c, (d, c)) (courses self)) groups) as Hgroups.
  { apply Forall2_same_length_lookup. split; [by eapply Forall2_length|].
    intros i [d c] g Hp Hgi.
    destruct (Forall2_lookup_l _ _ _ i (d, c) Hg Hp) as (g' & Hg' & Hbody).
    rewrite Hgi in Hg'. injection Hg' as <-.
    rewrite list_lookup_imap in Hp.
    destruct (courses self !! i) as [c'|] eqn:Hc; [|done].
    injection Hp as <- <-. simpl in *.
    by apply feasible_course_rows. }
  clear Hg. induction Hgroups as [|p g ps gs (rw & r & room & -> & H) _ IH].
  - constructor.
  - simpl. constructor; [by exists r, room|done].
Qed.

End PointSchedule.

(** X13. The schedule extracted from a feasible point of the built model has
    exactly one row per course, in course order; the row of a course
    names the one room the point assigns it to, carries the course's
    code, name and size and that room's capacity, stays within the 20%
    tolerance, and has its mismatch flag set exactly when the lab
    requirement and the room type disagree. *)
Theorem feasible_point_schedule
    (self : t) (model : LpProblem) (val : var → Q) (rows : list row) :
  _create_model self = Ok model →
  feasible (_create_decision_variables self) model val →
  _format_results self val = Ok rows →
  length rows = length (courses self)
  ∧ ∀ d course,
      courses self !! d = Some course →
      ∃ rw r room,
        rows !! d = Some rw
        ∧ rooms self !! r = Some room
        ∧ (val (Var_x d r) == 1)%Q
        ∧ Curso rw = Course.course_code course
        ∧ Disciplina rw = Course.name course
        ∧ Sala rw = Room.name room
        ∧ Tamanho_Turma rw = Course.class_size course
        ∧ Capacidade_Sala rw = Room.capacity room
        ∧ 5 * Tamanho_Turma rw ≤ 6 * Capacidade_Sala rw
        ∧ Mismatch rw = xorb (Course.requires_lab course) (is_lab room).
Proof.
  intros Hm Hf Hrows.
  pose proof (feasible_schedule_rows self model val Hm Hf rows Hrows) as H2.
  split.
  - apply Forall2_length in H2. by rewrite length_imap in H2.
  - intros d course Hd.
    destruct (Forall2_lookup_l _ _ _ d (d, course) H2)
      as (rw & Hrw & r & room & Hr & Hx & Hfmt).
    { by rewrite list_lookup_imap, Hd. }
    simpl in Hx, Hfmt.
    destruct (format_row_inv _ _ _ Hfmt)
      as (HC & HD & HS & _ & _ & HT & HK & HM).
    exists rw, r, room. rewrite HT, HK.
    repeat (split; [done|]). split; [|done].
    pose proof (feasible_ceiling self model val Hm Hf d r course room Hd Hr)
      as Hc.
    assert (inject_Z (Course.class_size course)
            <= inject_Z (Room.capacity room) * (12 # 10))%Q as Hle by lra.
    unfold Qle in Hle. simpl in Hle. lia.
Qed.

Lemma feasible_point_schedule_witness :
  ∃ rows,
    _format_results split_optimizer split_assignment = Ok rows
    ∧ length rows = length (courses split_optimizer)
    ∧ ∀ d course,
        courses split_optimizer !! d = Some course →
        ∃ rw r room,
          rows !! d = Some rw
          ∧ rooms split_optimizer !! r = Some room
          ∧ (split_assignment (Var_x d r) == 1)%Q
          ∧ Curso rw = Course.course_code course
          ∧ Disciplina rw = Course.name course
          ∧ Sala rw = Room.name room
          ∧ Tamanho_Turma rw = Course.class_size course
          ∧ Capacidade_Sala rw = Room.capacity room
          ∧ 5 * Tamanho_Turma rw ≤ 6 * Capacidade_Sala rw
          ∧ Mismatch rw = xorb (Course.requires_lab course) (is_lab room).
Proof.
  eexists. split; [vm_compute; reflexivity|].
  refine (feasible_point_schedule split_optimizer split_model
            split_assignment _ _ _ _);
    [vm_compute; reflexivity | prove_feasible | vm_compute; reflexivity].
Defined.
End FeasiblePoints.

(** ** The checks of the analyzer *)

Section Checks.
Import ScheduleOptimizer ScheduleChecks.

Lemma insert_key_elem (k x : string * string * string)
    (l : list (string * string * string)) :
  x ∈ insert_key k l ↔ x = k ∨ x ∈ l.
Proof.
  induction l as [|k' l IH]; simpl.
  - rewrite list_elem_of_singleton. split; [by left|].
    intros [?|H]; [done|]. by apply elem_of_nil in H.
  - destruct (key_compare k k'); rewrite !elem_of_cons, ?IH; tauto.
Qed.

Lemma group_keys_elem (schedule_df : list row) (k : string * string * string) :
  k ∈ group_keys schedule_df ↔ ∃ rw, rw ∈ schedule_df ∧ row_key rw = k.
Proof.
  unfold group_keys.
  assert (∀ l, k ∈ foldr insert_key [] l ↔ k ∈ l) as Hsort.
  { induction l as [|a l IH]; simpl; [done|].
    rewrite insert_key_elem, elem_of_cons, IH. done. }
  rewrite Hsort, elem_of_remove_dups, list_elem_of_fmap.
  split; intros (rw & H1 & H2); exists rw; done.
Qed.

(** X14. A time conflict is reported for a (room name, day, time label)
    exactly when at least two rows of the schedule carry it, and the
    report lists the names of all those rows in schedule order. *)
Theorem time_conflicts_reported (schedule_df : list row) (cs : list conflict)
    (c : conflict) :
  _check_time_conflicts schedule_df = Ok cs →
  c ∈ cs
  ↔ ∃ k,
      (1 < length (filter (λ rw, row_key rw = k) schedule_df))%nat
      ∧ c = {| conflict_sala := k.1.1; conflict_dia := k.1.2;
               conflict_horario := k.2;
               conflict_disciplinas :=
                 Disciplina <$> filter (λ rw, row_key rw = k) schedule_df |}.
Proof.
  unfold _check_time_conflicts.
  destruct schedule_df as [|rw0 rest] eqn:Hdf; [discriminate|].
  rewrite <- Hdf. intros [= <-].
  rewrite list_elem_of_join. split.
  - intros (l & Hc & Hl).
    apply list_elem_of_fmap in Hl as (k & -> & Hk).
    cbv beta zeta in Hc.
    destruct (1 <? length (filter (λ rw, row_key rw = k) schedule_df))%nat
      eqn:Hlen; [|by apply elem_of_nil in Hc].
    apply list_elem_of_singleton in Hc. apply Nat.ltb_lt in Hlen.
    by exists k.
  - intros (k & Hlen & ->).
    eexists. split; last first.
    + apply (list_elem_of_fmap_2
               (λ k, let group := filter (λ rw, row_key rw = k) schedule_df in
                     if (1 <? length group)%nat
                     then [{| conflict_sala := k.1.1; conflict_dia := k.1.2;
                              conflict_horario := k.2;
                              conflict_disciplinas := Disciplina <$> group |}]
                     else []) _ k).
      apply group_keys_elem.
      destruct (filter (λ rw, row_key rw = k) schedule_df) as [|rw l] eqn:Hf;
        [simpl in Hlen; lia|].
      assert (rw ∈ filter (λ rw, row_key rw = k) schedule_df) as Hin.
      { rewrite Hf. by left. }
      apply list_elem_of_filter in Hin as [Hk Hin]. by exists rw.
    + cbv beta zeta. apply Nat.ltb_lt in Hlen. rewrite Hlen. by left.
Qed.

Lemma time_conflicts_reported_witness :
  ∃ rows cs,
    _format_results shared_optimizer shared_assignment = Ok rows
    ∧ _check_time_conflicts rows = Ok cs
    ∧ ∀ c, c ∈ cs
        ↔ ∃ k,
            (1 < length (filter (λ rw, row_key rw = k) rows))%nat
            ∧ c = {| conflict_sala := k.1.1; conflict_dia := k.1.2;
                     conflict_horario := k.2;
                     conflict_disciplinas :=
                       Disciplina <$> filter (λ rw, row_key rw = k) rows |}.
Proof.
  eexists _, _. split; [vm_compute; reflexivity|].
  split; [vm_compute; reflexivity|].
  intros c. apply time_conflicts_reported. vm_compute. reflexivity.
Defined.

Lemma blocked_rooms_lookup (rooms : list Room.t) (n : string) :
  blocked_rooms rooms !! n
  = Room.is_blocked <$> last (filter (λ room, Room.name room = n) rooms).
Proof.
  unfold blocked_rooms.
  induction rooms as [|room rooms IH] using rev_ind; [done|].
  rewrite foldl_snoc, filter_app.
  destruct (decide (Room.name room = n)) as [Heq|Hne].
  - assert (filter (λ room, Room.name room = n) [room] = [room]) as ->
      by (by rewrite filter_cons_True).
    by rewrite Heq, lookup_insert_eq, last_snoc.
  - assert (filter (λ room, Room.name room = n) [room] = []) as ->
      by (by rewrite filter_cons_False).
    by rewrite lookup_insert_ne, app_nil_r.
Qed.

(** X15. A row is reported as using a blocked room exactly when the last
    room of that name in the room list is blocked: when two rooms share
    a name the later one decides, and a row whose room name is not in
    the list is not reported. The reported rows keep schedule order. *)
Theorem blocked_room_usage_reported (schedule_df : list row)
    (rooms : list Room.t) :
  _check_blocked_room_usage schedule_df rooms
  = (λ rw, {| blocked_disciplina := Disciplina rw;
              blocked_sala := Sala rw;
              blocked_dia := Dia rw;
              blocked_horario := Horario rw |})
    <$> filter (λ rw, Room.is_blocked
                        <$> last (filter (λ room, Room.name room = Sala rw)
                                         rooms)
                      = Some true)
               schedule_df.
Proof.
  unfold _check_blocked_room_usage. f_equal.
  apply list_filter_iff. intros rw. rewrite blocked_rooms_lookup.
  destruct (last _) as [room|]; simpl; [|done].
  split; [by intros ->|by intros [= ->]].
Qed.

End Checks.

(** *** The checks on a schedule extracted from a feasible point *)

Lemma create_time_slots_bounds (day time_range : string) (v : list Z) :
  TimeSlotManager.create_time_slots day time_range = Ok v →
  ∃ a k, v = window a k ∧ 0 ≤ a ∧ 0 < k ∧ a + k ≤ 48.
Proof.
  intros Hv.
  destruct (split "-" time_range) as [|s [|e [|x l]]] eqn:Hsplit;
    try (unfold TimeSlotManager.create_time_slots in Hv;
         rewrite Hsplit in Hv; discriminate).
  rewrite (create_time_slots_window day time_range s e Hsplit) in Hv.
  injection Hv as <-.
  pose proof (day_base_cases day) as Hb.
  pose proof (time_index_cases s) as Hi.
  eexists _, _. split; [reflexivity|].
  assert (0 ≤ default 0 (TimeSlotManager.DAY_TO_BASE_INDEX !! day) ≤ 40) as Hb'.
  { repeat (apply elem_of_cons in Hb as [->|Hb]); try lia.
    by apply elem_of_nil in Hb. }
  assert (0 ≤ default 0 (TimeSlotManager.TIME_TO_INDEX !! s) ≤ 6) as Hi'.
  { repeat (apply elem_of_cons in Hi as [->|Hi]); try lia.
    by apply elem_of_nil in Hi. }
  destruct (String.eqb_spec time_range "19h00-22h30") as [->|_]; [|lia].
  vm_compute in Hsplit. injection Hsplit as <- <-.
  change (default 0 (TimeSlotManager.TIME_TO_INDEX !! "19h00")) with 2. lia.
Qed.

Lemma encoded_binary (c : Course.t) :
  encoded c → binary_vector (Course.time_slots c).
Proof.
  intros Hc. destruct (create_time_slots_ok_inv _ _ _ Hc) as (_ & a & k & ->).
  apply window_binary.
Qed.

Lemma encoded_same_session_conflict (c1 c2 : Course.t) :
  encoded c1 → encoded c2 →
  Course.day c1 = Course.day c2 → Course.time c1 = Course.time c2 →
  TimeSlotManager.has_conflict (Course.time_slots c1) (Course.time_slots c2)
  = true.
Proof.
  unfold encoded. intros H1 H2 Hd Ht. rewrite Hd, Ht, H2 in H1.
  injection H1 as <-.
  destruct (create_time_slots_bounds _ _ _ H2) as (a & k & -> & ? & ? & ?).
  apply has_conflict_window; lia.
Qed.

Lemma filter_none {A : Type} (P : A → Prop) `{!∀ x, Decision (P x)}
    (l : list A) :
  (∀ x, x ∈ l → ¬ P x) → filter P l = [].
Proof.
  induction l as [|a l IH]; intros Hall; [done|].
  rewrite filter_cons_False by (apply Hall; by left).
  apply IH. intros x Hx. apply Hall. by right.
Qed.

Lemma filter_key_at_most_one {A K : Type} `{!EqDecision K} (key : A → K)
    (l : list A) (k : K) :
  (∀ i j a b, l !! i = Some a → l !! j = Some b → key a = key b → i = j) →
  (length (filter (λ x, key x = k) l) ≤ 1)%nat.
Proof.
  induction l as [|a l IH]; intros Hinj; [simpl; lia|].
  destruct (decide (key a = k)) as [Ha|Ha].
  - rewrite filter_cons_True by done.
    rewrite filter_none; [simpl; lia|].
    intros x Hx Hk. apply list_elem_of_lookup in Hx as [j Hj].
    assert (0%nat = S j) as Hbad; [|done].
    apply (Hinj 0%nat (S j) a x); [done|done|congruence].
  - rewrite filter_cons_False by done. apply IH.
    intros i j x y Hi Hj Hxy.
    assert (S i = S j) as Heq; [|congruence].
    by apply (Hinj (S i) (S j) x y).
Qed.

Lemma blocked_rooms_distinct_names (rooms : list Room.t) (room : Room.t) :
  NoDup (Room.name <$> rooms) → room ∈ rooms →
  ScheduleChecks.blocked_rooms rooms !! Room.name room
  = Some (Room.is_blocked room).
Proof.
  unfold ScheduleChecks.blocked_rooms.
  induction rooms as [|r0 l IH] using rev_ind; intros Hnd Hin.
  - by apply elem_of_nil in Hin.
  - rewrite fmap_app in Hnd. apply NoDup_app in Hnd as (Hl & Hdisj & _).
    rewrite foldl_snoc.
    apply elem_of_app in Hin as [Hin|Hin].
    + rewrite lookup_insert_ne; [by apply IH|].
      intros Heq. apply (Hdisj (Room.name room)).
      * by apply list_elem_of_fmap_2.
      * rewrite <- Heq. simpl. by left.
    + apply list_elem_of_singleton in Hin as ->.
      by rewrite lookup_insert_eq.
Qed.

Lemma _check_time_conflicts_nonempty (l : list ScheduleOptimizer.row) :
  l ≠ [] →
  ScheduleChecks._check_time_conflicts l
  = Ok (mjoin ((λ k,
                  let group := filter (λ rw, ScheduleChecks.row_key rw = k) l in
                  if (1 <? length group)%nat
                  then [{| ScheduleChecks.conflict_sala := k.1.1;
                           ScheduleChecks.conflict_dia := k.1.2;
                           ScheduleChecks.conflict_horario := k.2;
                           ScheduleChecks.conflict_disciplinas :=
                             ScheduleOptimizer.Disciplina <$> group |}]
                  else [])
               <$> ScheduleChecks.group_keys l)).
Proof. by destruct l. Qed.

Lemma _check_capacity_issues_nonempty (l : list ScheduleOptimizer.row) :
  l ≠ [] →
  ScheduleChecks._check_capacity_issues l
  = Ok ((λ rw, {| ScheduleChecks.issue_disciplina := ScheduleOptimizer.Disciplina rw;
                  ScheduleChecks.issue_sala := ScheduleOptimizer.Sala rw;
                  ScheduleChecks.issue_tamanho_turma :=
                    ScheduleOptimizer.Tamanho_Turma rw;
                  ScheduleChecks.issue_capacidade_sala :=
                    ScheduleOptimizer.Capacidade_Sala rw;
                  ScheduleChecks.issue_ocupacao := ScheduleOptimizer.Ocupacao rw |})
        <$> filter (λ rw, ScheduleOptimizer.Capacidade_Sala rw
                          < ScheduleOptimizer.Tamanho_Turma rw) l).
Proof. by destruct l. Qed.

Section CheckedSchedule.
Import ScheduleOptimizer ScheduleChecks.
Variables (self : t) (model : LpProblem) (val : var → Q) (rows : list row).
Hypothesis Hmodel : _create_model self = Ok model.
Hypothesis Hfeasible : feasible (_create_decision_variables self) model val.
Hypothesis Hencoded : Forall encoded (courses self).
Hypothesis Hnames : NoDup (Room.name <$> rooms self).
Hypothesis Hrows : _format_results self val = Ok rows.

Lemma schedule_lookup (d : nat) (rw : row) :
  rows !! d = Some rw →
  ∃ course r room,
    courses self !! d = Some course ∧ rooms self !! r = Some room
    ∧ (val (Var_x d r) == 1)%Q ∧ format_row course room = Ok rw.
Proof.
  intros Hd.
  pose proof (feasible_schedule_rows self model val Hmodel Hfeasible rows Hrows)
    as H2.
  destruct (Forall2_lookup_r _ _ _ d rw H2 Hd)
    as ([d' c] & Hp & r & room & Hr & Hx & Hfmt).
  rewrite list_lookup_imap in Hp.
  destruct (courses self !! d) as [c'|]; [|done].
  injection Hp as <- <-. by exists c', r, room.
Qed.

Lemma schedule_keys_distinct (i j : nat) (rw1 rw2 : row) :
  rows !! i = Some rw1 → rows !! j = Some rw2 →
  row_key rw1 = row_key rw2 → i = j.
Proof.
  intros Hi Hj Hkey.
  destruct (decide (i = j)) as [|Hne]; [done|]. exfalso.
  destruct (schedule_lookup i rw1 Hi) as (c1 & r1 & room1 & Hc1 & Hr1 & Hx1 & Hf1).
  destruct (schedule_lookup j rw2 Hj) as (c2 & r2 & room2 & Hc2 & Hr2 & Hx2 & Hf2).
  destruct (format_row_inv _ _ _ Hf1) as (_ & _ & HS1 & HD1 & HH1 & _).
  destruct (format_row_inv _ _ _ Hf2) as (_ & _ & HS2 & HD2 & HH2 & _).
  unfold row_key in Hkey. injection Hkey as HS HD HH.
  assert (r1 = r2) as ->.
  { apply (NoDup_lookup _ r1 r2 (Room.name room1) Hnames).
    - by rewrite list_lookup_fmap, Hr1.
    - rewrite list_lookup_fmap, Hr2. simpl. congruence. }
  rewrite Forall_forall in Hencoded.
  assert (encoded c1) as He1 by (apply Hencoded, list_elem_of_lookup; eauto).
  assert (encoded c2) as He2 by (apply Hencoded, list_elem_of_lookup; eauto).
  assert (TimeSlotManager.has_conflict (Course.time_slots c1)
            (Course.time_slots c2) = true) as Htrue.
  { apply encoded_same_session_conflict; congruence. }
  assert (TimeSlotManager.has_conflict (Course.time_slots c1)
            (Course.time_slots c2) = false) as Hfalse.
  { apply (feasible_no_double_booking self model val Hmodel Hfeasible
             i j r2 c1 c2); try done.
    - apply Forall_forall. intros c Hc. by apply encoded_binary, Hencoded.
    - by eapply lookup_lt_Some. }
  congruence.
Qed.

Lemma schedule_no_time_conflicts :
  rows ≠ [] → _check_time_conflicts rows = Ok [].
Proof.
  intros Hne. rewrite _check_time_conflicts_nonempty by done.
  f_equal. apply mjoin_all_nil. intros i l Hl.
  rewrite list_lookup_fmap in Hl.
  destruct (group_keys rows !! i) as [k|]; [|done].
  injection Hl as <-. cbv beta zeta.
  pose proof (filter_key_at_most_one row_key rows k schedule_keys_distinct)
    as Hle.
  destruct (Nat.ltb_spec 1 (length (filter (λ rw, row_key rw = k) rows)));
    [lia|done].
Qed.

Lemma schedule_no_blocked_usage :
  _check_blocked_room_usage rows (rooms self) = [].
Proof.
  unfold _check_blocked_room_usage. rewrite filter_none; [done|].
  intros rw Hin Hb. apply list_elem_of_lookup in Hin as [d Hd].
  destruct (schedule_lookup d rw Hd) as (c & r & room & Hc & Hr & Hx & Hf).
  destruct (format_row_inv _ _ _ Hf) as (_ & _ & HS & _).
  rewrite HS, (blocked_rooms_distinct_names (rooms self) room Hnames) in Hb
    by (apply list_elem_of_lookup; eauto).
  simpl in Hb.
  pose proof (feasible_blocked_unused self model val Hmodel Hfeasible
                d r c room Hc Hr Hb) as H0.
  lra.
Qed.

Lemma schedule_capacity_issues :
  rows ≠ [] →
  ∃ ci, _check_capacity_issues rows = Ok ci
        ∧ Forall (λ i, issue_capacidade_sala i < issue_tamanho_turma i
                       ∧ 5 * issue_tamanho_turma i
                         ≤ 6 * issue_capacidade_sala i) ci.
Proof.
  intros Hne. rewrite _check_capacity_issues_nonempty by done.
  eexists. split; [reflexivity|].
  apply Forall_fmap, Forall_forall. intros rw Hin. simpl.
  apply list_elem_of_filter in Hin as [Hover Hin]. split; [done|].
  apply list_elem_of_lookup in Hin as [d Hd].
  destruct (schedule_lookup d rw Hd) as (c & r & room & Hc & Hr & Hx & Hf).
  destruct (format_row_inv _ _ _ Hf) as (_ & _ & _ & _ & _ & -> & -> & _).
  pose proof (feasible_ceiling self model val Hmodel Hfeasible d r c room Hc Hr)
    as Hceil.
  assert (inject_Z (Course.class_size c)
          <= inject_Z (Room.capacity room) * (12 # 10))%Q as Hle by lra.
  unfold Qle in Hle. simpl in Hle. lia.
Qed.

End CheckedSchedule.

(** X16. The analyzer finds no time conflict and no use of a blocked room in
    a schedule extracted from a feasible point of the built model, when
    the courses carry the encoding of their day and time and the rooms
    have pairwise distinct names; every capacity issue it reports is an
    overrun within the 20% tolerance. *)
Theorem feasible_schedule_passes_checks
    (self : ScheduleOptimizer.t) (model : LpProblem) (val : var → Q)
    (rows : list ScheduleOptimizer.row) :
  ScheduleOptimizer._create_model self = Ok model →
  feasible (ScheduleOptimizer._create_decision_variables self) model val →
  Forall encoded (ScheduleOptimizer.courses self) →
  NoDup (Room.name <$> ScheduleOptimizer.rooms self) →
  ScheduleOptimizer._format_results self val = Ok rows →
  rows ≠ [] →
  ∃ a,
    ScheduleChecks.analyze_schedule rows (ScheduleOptimizer.rooms self)
      (ScheduleOptimizer.courses self) = Ok a
    ∧ ScheduleChecks.conflicts a = []
    ∧ ScheduleChecks.blocked_room_usage a = []
    ∧ Forall (λ i, ScheduleChecks.issue_capacidade_sala i
                   < ScheduleChecks.issue_tamanho_turma i
                   ∧ 5 * ScheduleChecks.issue_tamanho_turma i
                     ≤ 6 * ScheduleChecks.issue_capacidade_sala i)
             (ScheduleChecks.capacity_issues a).
Proof.
  intros Hm Hf He Hn Hr Hne.
  pose proof (schedule_no_time_conflicts self model val rows Hm Hf He Hn Hr Hne)
    as Hconf.
  pose proof (schedule_no_blocked_usage self model val rows Hm Hf Hn Hr)
    as Hblocked.
  destruct (schedule_capacity_issues self model val rows Hm Hf Hr Hne)
    as (ci & Hci & Hall).
  unfold ScheduleChecks.analyze_schedule. rewrite Hconf, Hci. simpl.
  assert (is_ok (ScheduleChecks._check_room_type_mismatches rows)) as [rm Hrm].
  { unfold ScheduleChecks._check_room_type_mismatches.
    destruct rows; [done|by eexists]. }
  rewrite Hrm. simpl.
  assert (is_ok (ScheduleAnalyzer._analyze_split_classes rows
                   (ScheduleOptimizer.courses self))) as [sc Hsc].
  { unfold ScheduleAnalyzer._analyze_split_classes.
    destruct rows; [done|by eexists]. }
  rewrite Hsc. simpl. eexists. split; [reflexivity|]. simpl.
  by rewrite Hblocked.
Qed.

Lemma feasible_schedule_passes_checks_witness :
  ∃ a,
    ScheduleChecks.analyze_schedule shared_schedule
      (ScheduleOptimizer.rooms shared_optimizer)
      (ScheduleOptimizer.courses shared_optimizer) = Ok a
    ∧ ScheduleChecks.conflicts a = []
    ∧ ScheduleChecks.blocked_room_usage a = []
    ∧ Forall (λ i, ScheduleChecks.issue_capacidade_sala i
                   < ScheduleChecks.issue_tamanho_turma i
                   ∧ 5 * ScheduleChecks.issue_tamanho_turma i
                     ≤ 6 * ScheduleChecks.issue_capacidade_sala i)
             (ScheduleChecks.capacity_issues a).
Proof.
  refine (feasible_schedule_passes_checks shared_optimizer shared_model
            shared_assignment shared_schedule _ _ _ _ _ _);
    [ vm_compute; reflexivity
    | prove_feasible
    | normalize_list;
      repeat (apply Forall_cons; split; [vm_compute; reflexivity|]);
      apply Forall_nil_2
    | vm_compute; apply NoDup_singleton
    | vm_compute; reflexivity
    | vm_compute; discriminate ].
Defined.

(** ** The split-class report and the floor-match dictionary in general *)

Section Dictionaries.
Import ScheduleOptimizer ScheduleAnalyzer.

Lemma unique_go_elem (seen l : list string) (x : string) :
  x ∈ unique_go seen l ↔ x ∈ l ∧ x ∉ seen.
Proof.
  revert seen. induction l as [|s l IH]; intros seen; simpl.
  - split; [intros H; by apply elem_of_nil in H|].
    intros [H _]. by apply elem_of_nil in H.
  - case_bool_decide as Hs.
    + rewrite IH, elem_of_cons. split; [tauto|].
      intros [[->|?] ?]; [done|tauto].
    + rewrite !elem_of_cons, IH, not_elem_of_cons.
      destruct (decide (x = s)) as [->|Hne]; [tauto|]. tauto.
Qed.

Lemma unique_elem (l : list string) (x : string) : x ∈ unique l ↔ x ∈ l.
Proof.
  unfold unique. rewrite unique_go_elem. split; [tauto|].
  intros H. split; [done|]. apply not_elem_of_nil.
Qed.

Lemma original_courses_lookup (courses : list Course.t) (b : string) :
  original_courses courses !! b
  = last (filter (λ c, base_code (Course.course_code c) = b) courses).
Proof.
  unfold original_courses.
  induction courses as [|c courses IH] using rev_ind; [done|].
  rewrite foldl_snoc, filter_app.
  destruct (decide (base_code (Course.course_code c) = b)) as [Heq|Hne].
  - assert (filter (λ c, base_code (Course.course_code c) = b) [c] = [c])
      as -> by (by rewrite filter_cons_True).
    by rewrite Heq, lookup_insert_eq, last_snoc.
  - assert (filter (λ c, base_code (Course.course_code c) = b) [c] = [])
      as -> by (by rewrite filter_cons_False).
    by rewrite lookup_insert_ne, app_nil_r.
Qed.

Lemma split_entries_elem (schedule_df : list row) (courses : list Course.t)
    (e : split_class) :
  e ∈ split_entries schedule_df courses
  ↔ ∃ code c,
      code ∈ Curso <$> schedule_df
      ∧ (contains "-A" code = true ∨ contains "-B" code = true)
      ∧ last (filter (λ c, base_code (Course.course_code c) = base_code code)
                     courses) = Some c
      ∧ e = {| original_course := base_code code;
               original_size := Course.class_size c;
               split_sections :=
                 to_section
                   <$> filter (λ rw, String.prefix (base_code code) (Curso rw)
                                     = true) schedule_df |}.
Proof.
  unfold split_entries. rewrite list_elem_of_join. split.
  - intros (l & He & Hl).
    apply list_elem_of_fmap in Hl as (code & -> & Hcode).
    rewrite unique_elem in Hcode. cbv beta zeta in He.
    rewrite original_courses_lookup in He.
    destruct (contains "-A" code || contains "-B" code) eqn:Hab;
      [|by apply elem_of_nil in He].
    destruct (last _) as [c|] eqn:Hlast; [|by apply elem_of_nil in He].
    apply list_elem_of_singleton in He.
    exists code, c. split; [done|]. split; [by apply orb_true_iff|].
    by split.
  - intros (code & c & Hcode & Hab & Hlast & ->).
    eexists. split; last first.
    + apply (list_elem_of_fmap_2 _ _ code). by apply unique_elem.
    + cbv beta zeta. rewrite original_courses_lookup, Hlast.
      apply orb_true_iff in Hab. rewrite Hab. by left.
Qed.

(** X17. On a schedule without rows the split-class report raises
    [KeyError]. On a schedule with rows it returns, and it has an entry
    exactly for every scheduled course code that contains "-A" or "-B"
    and whose base code (the text before the first '-') is the base code
    of some course of the list it is given; the entry's original_size is
    the size of the last such course in the list, and its sections are
    all scheduled rows whose code starts with the base code. *)
Theorem split_classes_reported (schedule_df : list row)
    (courses : list Course.t) :
  (schedule_df = [] →
   _analyze_split_classes schedule_df courses = Raise KeyError)
  ∧ (schedule_df ≠ [] →
     ∃ report,
       _analyze_split_classes schedule_df courses = Ok report
       ∧ ∀ e,
           e ∈ report
           ↔ ∃ code c,
               code ∈ Curso <$> schedule_df
               ∧ (contains "-A" code = true ∨ contains "-B" code = true)
               ∧ last (filter (λ c, base_code (Course.course_code c)
                                    = base_code code) courses) = Some c
               ∧ e = {| original_course := base_code code;
                        original_size := Course.class_size c;
                        split_sections :=
                          to_section
                            <$> filter (λ rw, String.prefix (base_code code)
                                                (Curso rw) = true)
                                       schedule_df |}).
Proof.
  split.
  - by intros ->.
  - intros Hne. exists (split_entries schedule_df courses). split.
    + by destruct schedule_df.
    + apply split_entries_elem.
Qed.

Lemma split_classes_reported_witness :
  _analyze_split_classes [] (courses split_optimizer) = Raise KeyError
  ∧ ∃ report,
      _analyze_split_classes split_schedule (courses split_optimizer)
        = Ok report
      ∧ ∀ e,
          e ∈ report
          ↔ ∃ code c,
              code ∈ Curso <$> split_schedule
              ∧ (contains "-A" code = true ∨ contains "-B" code = true)
              ∧ last (filter (λ c, base_code (Course.course_code c)
                                   = base_code code)
                             (courses split_optimizer)) = Some c
              ∧ e = {| original_course := base_code code;
                       original_size := Course.class_size c;
                       split_sections :=
                         to_section
                           <$> filter (λ rw, String.prefix (base_code code)
                                               (Curso rw) = true)
                                      split_schedule |}.
Proof.
  split.
  - apply (split_classes_reported [] (courses split_optimizer)). reflexivity.
  - apply (split_classes_reported split_schedule (courses split_optimizer)).
    vm_compute. discriminate.
Defined.

(** X18. After the precomputation, reading a room's floor-match entry for a
    name gives the value computed for the last course of that name
    (1 if that course's preferred floor is at most 0 or equals the
    room's floor, 0 otherwise), and raises [KeyError] when no course has
    that name. *)
Theorem floor_match_of_last_course (courses : list Course.t) (room : Room.t)
    (key : string) :
  Room.floor_matches room = ∅ →
  Room.get_floor_match (room_floor_matches courses room) key
  = match last (filter (λ c, Course.name c = key) courses) with
    | Some c =>
        Ok (if Course.preferred_floor c <=? 0 then 1
            else if Room.floor room =? Course.preferred_floor c then 1 else 0)
    | None => Raise KeyError
    end.
Proof.
  intros Hempty.
  induction courses as [|c l IH] using rev_ind.
  - unfold Room.get_floor_match. simpl. by rewrite Hempty, lookup_empty.
  - rewrite room_floor_matches_snoc, filter_app. cbv zeta.
    destruct (room_floor_matches_fields l room) as (_ & _ & _ & Hfloor & _).
    rewrite Hfloor.
    destruct (decide (Course.name c = key)) as [Heq|Hne].
    + assert (filter (λ c, Course.name c = key) [c] = [c]) as ->
        by (by rewrite filter_cons_True).
      rewrite last_snoc. unfold Room.get_floor_match.
      destruct (Course.preferred_floor c <=? 0); simpl;
        by rewrite Heq, lookup_insert_eq.
    + assert (filter (λ c, Course.name c = key) [c] = []) as ->
        by (by rewrite filter_cons_False).
      rewrite app_nil_r, <- IH. unfold Room.get_floor_match.
      destruct (Course.preferred_floor c <=? 0); simpl;
        by rewrite lookup_insert_ne.
Qed.

Lemma floor_match_of_last_course_witness :
  Room.get_floor_match
    (room_floor_matches (courses shared_optimizer) scenario4_room) "Calculo I"
  = Ok 0
  ∧ Room.get_floor_match
      (room_floor_matches (courses shared_optimizer) scenario4_room) "Algebra"
    = Raise KeyError.
Proof.
  split.
  - refine (eq_trans
              (floor_match_of_last_course (courses shared_optimizer)
                 scenario4_room "Calculo I" _) _);
      vm_compute; reflexivity.
  - refine (eq_trans
              (floor_match_of_last_course (courses shared_optimizer)
                 scenario4_room "Algebra" _) _);
      vm_compute; reflexivity.
Defined.

End Dictionaries.

(** ** The floor-distance slack *)

(** X19. The built model holds, for every course and room, the constraint
    y[d] >= x[d,r] * |preferred_floor(d) - floor(r)|, and so every
    assignment satisfying its constraints gives a course placed in a
    room a distance slack of at least the distance between its
    preferred floor and the room's floor, also when the preferred floor
    is 0 or negative ("no preference"). *)
Theorem distance_slack_bounds_floor_distance (courses : list Course.t)
    (rooms : list Room.t) (d r : nat) (course : Course.t) (room : Room.t) :
  Forall (λ c, length (Course.time_slots c) = 48%nat) courses →
  courses !! d = Some course → rooms !! r = Some room →
  ∃ model,
    ScheduleOptimizer._create_model (ScheduleOptimizer.__init__ courses rooms)
      = Ok model
    ∧ LpGE (Var (Var_y d))
           (Scale (inject_Z (Z.abs (Course.preferred_floor course
                                    - Room.floor room)))
                  (Var (Var_x d r)))
        ∈ constraints model
    ∧ ∀ val,
        Forall (holds val) (constraints model) →
        (val (Var_x d r) == 1)%Q →
        (inject_Z (Z.abs (Course.preferred_floor course - Room.floor room))
         <= val (Var_y d))%Q.
Proof. apply distance_slack_no_preference. Qed.

Lemma distance_slack_bounds_floor_distance_witness :
  ∃ model,
    ScheduleOptimizer._create_model
      (ScheduleOptimizer.__init__ [scenario4_course] [scenario4_room])
      = Ok model
    ∧ LpGE (Var (Var_y 0))
           (Scale (inject_Z (Z.abs (Course.preferred_floor scenario4_course
                                    - Room.floor scenario4_room)))
                  (Var (Var_x 0 0)))
        ∈ constraints model
    ∧ ∀ val,
        Forall (holds val) (constraints model) →
        (val (Var_x 0 0) == 1)%Q →
        (inject_Z (Z.abs (Course.preferred_floor scenario4_course
                          - Room.floor scenario4_room))
         <= val (Var_y 0))%Q.
Proof.
  apply (distance_slack_bounds_floor_distance
           [scenario4_course] [scenario4_room] 0 0
           scenario4_course scenario4_room).
  - repeat constructor.
  - reflexivity.
  - reflexivity.
Defined.
